(** * APA Match-Up: the probability and recommendation engine

    A shallow embedding of the statistical core of the repository
    (skill-level tables, win-probability model, matchup calculator,
    match-state advisor, head-to-head record builder, match store) and
    the properties the specification states about it, followed by further
    properties of the code.

    Conventions of the embedding.
    - A JavaScript [number] that the code computes is a value of [number]
      below: an exact rational, or one of the three special values
      [NaN], [PosInf], [NegInf], with the IEEE-754 rules for the special
      values written out (0/0 is NaN, x/0 is an infinity, NaN propagates
      through arithmetic and makes every comparison false).  Rounding error
      and overflow of binary64, and the sign of zero, are outside this
      model: it gives what the code gives up to the last digit of a
      computed number, as long as no statistic is NaN or infinite and no
      sum or product overflows.
    - The module [B64] embeds the win-probability model and the matchup
      calculator a second time, with the arithmetic of the code: a
      computed [number] is a [float], a binary64 number of IEEE-754, and
      a statistic may be NaN or infinite.  The properties that depend on
      rounding, on overflow or on NaN are stated on it.
    - Fields that hold counts, identifiers, skill levels, scores and
      timestamps are integers ([Z]); measured statistics (win percentage,
      points per match, points scored) are rationals ([Q]).
    - A JavaScript [Map] is an insertion-ordered association list.
    - Loops over arrays are folds over lists, with the loop's mutable
      variables as the accumulator. *)

From Stdlib Require Import ZArith QArith Qround Qminmax Qabs Lqa Lia.
From Stdlib Require Import List String Ascii Bool DecimalString.
From Stdlib Require Import Sorted Permutation.
From Stdlib Require DecimalPos DecimalZ.
From Stdlib Require Import Floats.
Import ListNotations.

Open Scope Q_scope.

(* ================================================================= *)
(** ** JavaScript numbers *)

Inductive number : Type :=
| Fin (q : Q)
| PosInf
| NegInf
| NaN.

Coercion Fin : Q >-> number.

Declare Scope num_scope.
Delimit Scope num_scope with num.
Bind Scope num_scope with number.

Definition Qlt_bool (a b : Q) : bool := negb (Qle_bool b a).

Definition ofZ (z : Z) : number := Fin (inject_Z z).

Definition nneg (x : number) : number :=
  match x with
  | Fin a => Fin (- a)
  | PosInf => NegInf
  | NegInf => PosInf
  | NaN => NaN
  end.

Definition nadd (x y : number) : number :=
  match x, y with
  | NaN, _ | _, NaN => NaN
  | Fin a, Fin b => Fin (a + b)
  | PosInf, NegInf | NegInf, PosInf => NaN
  | PosInf, _ | _, PosInf => PosInf
  | NegInf, _ | _, NegInf => NegInf
  end.

Definition nsub (x y : number) : number := nadd x (nneg y).

(** The sign an infinity takes when it is multiplied or divided by [b];
    [None] when [b] is zero. *)
Definition sign_of (b : Q) : option bool :=
  if Qeq_bool b 0 then None else Some (Qlt_bool 0 b).

Definition inf_of_sign (positive : bool) : number :=
  if positive then PosInf else NegInf.

Definition nmul (x y : number) : number :=
  match x, y with
  | NaN, _ | _, NaN => NaN
  | Fin a, Fin b => Fin (a * b)
  | Fin a, PosInf | PosInf, Fin a =>
      match sign_of a with Some s => inf_of_sign s | None => NaN end
  | Fin a, NegInf | NegInf, Fin a =>
      match sign_of a with Some s => inf_of_sign (negb s) | None => NaN end
  | PosInf, PosInf | NegInf, NegInf => PosInf
  | PosInf, NegInf | NegInf, PosInf => NegInf
  end.

Definition ndiv (x y : number) : number :=
  match x, y with
  | NaN, _ | _, NaN => NaN
  | Fin a, Fin b =>
      if Qeq_bool b 0
      then match sign_of a with Some s => inf_of_sign s | None => NaN end
      else Fin (a / b)
  | Fin _, (PosInf | NegInf) => Fin 0
  | PosInf, Fin b => inf_of_sign (negb (Qlt_bool b 0))
  | NegInf, Fin b => inf_of_sign (Qlt_bool b 0)
  | _, _ => NaN
  end.

(** [x < y]; false as soon as one side is NaN. *)
Definition nlt (x y : number) : bool :=
  match x, y with
  | NaN, _ | _, NaN => false
  | Fin a, Fin b => Qlt_bool a b
  | NegInf, (Fin _ | PosInf) => true
  | Fin _, PosInf => true
  | _, _ => false
  end.

(** [x <= y]; false as soon as one side is NaN. *)
Definition nle (x y : number) : bool :=
  match x, y with
  | NaN, _ | _, NaN => false
  | Fin a, Fin b => Qle_bool a b
  | NegInf, _ => true
  | _, PosInf => true
  | _, _ => false
  end.

Definition ngt (x y : number) : bool := nlt y x.
Definition nge (x y : number) : bool := nle y x.

(** Strict equality [===] of two numbers: NaN is equal to nothing. *)
Definition neqb (x y : number) : bool :=
  match x, y with
  | Fin a, Fin b => Qeq_bool a b
  | PosInf, PosInf | NegInf, NegInf => true
  | _, _ => false
  end.

(** Truthiness of a number in a condition: 0 and NaN are falsy. *)
Definition truthy (x : number) : bool :=
  match x with
  | Fin a => negb (Qeq_bool a 0)
  | NaN => false
  | _ => true
  end.

Notation "x + y" := (nadd x y) : num_scope.
Notation "x - y" := (nsub x y) : num_scope.
Notation "x * y" := (nmul x y) : num_scope.
Notation "x / y" := (ndiv x y) : num_scope.
Notation "x <? y" := (nlt x y) : num_scope.
Notation "x <=? y" := (nle x y) : num_scope.
Notation "x >? y" := (ngt x y) : num_scope.
Notation "x >=? y" := (nge x y) : num_scope.

(** [Math.max] and [Math.min] of two arguments: NaN when either is NaN. *)
Definition Math_max (x y : number) : number :=
  match x, y with
  | NaN, _ | _, NaN => NaN
  | _, _ => if nlt x y then y else x
  end.

Definition Math_min (x y : number) : number :=
  match x, y with
  | NaN, _ | _, NaN => NaN
  | _, _ => if nlt y x then y else x
  end.

(** [Math.round]: the nearest integer, a tie going up. *)
Definition round_half_up (q : Q) : Z := Qfloor (q + (1 # 2)).

Definition Math_round (x : number) : number :=
  match x with
  | Fin q => ofZ (round_half_up q)
  | _ => x
  end.

(** [Math.pow] at an integer exponent. *)
Definition Math_pow (x : number) (k : Z) : number :=
  if (k =? 0)%Z then Fin 1
  else match x with
       | Fin q =>
           if Qeq_bool q 0 && (k <? 0)%Z then PosInf else Fin (Qpower q k)
       | PosInf => if (0 <? k)%Z then PosInf else Fin 0
       | NegInf =>
           if (0 <? k)%Z then (if Z.odd k then NegInf else PosInf) else Fin 0
       | NaN => NaN
       end.

(** Number-to-string conversion inside a template literal, for the two
    kinds of number the code interpolates: integers, and results of
    [Math.round]. *)
Definition string_of_Z (z : Z) : string := NilZero.string_of_int (Z.to_int z).

Definition string_of_rounded (x : number) : string :=
  match x with
  | Fin q => string_of_Z (round_half_up q)
  | PosInf => "Infinity"
  | NegInf => "-Infinity"
  | NaN => "NaN"
  end.

(* ================================================================= *)
(** ** Data types (data/types.ts) *)

Module Player.
Record t : Type := mk {
  id : Z;
  name : string;
  skillLevel : Z;
  matchesPlayed : Z;
  matchesWon : Z;
  ppm : Q;
  pa : Q;
  winPct : Q
}.
End Player.

Module PlayerStats.
Record t : Type := mk {
  playerId : Z;
  skillLevel : Z;
  matchesPlayed : Z;
  matchesWon : Z;
  ppm : Q;
  winPct : Q
}.
End PlayerStats.

Module HeadToHead.
Record t : Type := mk {
  playerId : Z;
  opponentId : Z;
  totalGames : Z;
  wins : Z;
  losses : Z;
  avgPointsScored : number;
  avgPointsNeeded : number;
  lastPlayed : Z
}.
End HeadToHead.

Inductive GameOutcome : Type := win | loss | pending.

Module LiveGame.
Record t : Type := mk {
  gameNumber : Z;
  ourPlayerId : option Z;
  theirPlayerId : option Z;
  result : GameOutcome
}.
End LiveGame.

Module LiveMatch.
Record t : Type := mk {
  ourPlayersPresent : list Z;
  theirPlayersPresent : list Z;
  games : list LiveGame.t;
  currentGame : Z;
  ourScore : Z;
  theirScore : Z
}.
End LiveMatch.

Record WinProbabilityFactors : Type := mkFactors {
  skillLevelAdvantage : number;
  winPercentageDelta : number;
  headToHeadRecord : number;
  recentFormTrend : number;
  ppmEfficiency : number
}.

Record WinProbabilityResult : Type := mkResult {
  probability : number;
  factors : WinProbabilityFactors;
  confidence : number;
  dataPoints : Z
}.

Module MatchupRecommendation.
Record t : Type := mk {
  playerId : Z;
  playerName : string;
  winProbability : number;
  confidence : number;
  reasoning : list string;
  factors : WinProbabilityFactors
}.
End MatchupRecommendation.

Inductive TossChoice : Type := throw_first | defer.

(* ================================================================= *)
(** ** JavaScript [Map] with string keys, and [Array.prototype.sort] *)

Module JSMap.
Section WithValue.
Context {V : Type}.

Definition t : Type := list (string * V).

Definition empty : t := [].

Fixpoint get (m : t) (k : string) : option V :=
  match m with
  | [] => None
  | (k', v) :: m' => if String.eqb k' k then Some v else get m' k
  end.

(** [set] keeps the position of a key that is already present and
    appends a new key at the end. *)
Fixpoint set (m : t) (k : string) (v : V) : t :=
  match m with
  | [] => [(k, v)]
  | (k', v') :: m' =>
      if String.eqb k' k then (k', v) :: m' else (k', v') :: set m' k v
  end.

Definition values (m : t) : list V := map snd m.
End WithValue.
Arguments t V : clear implicits.
End JSMap.

Section ArraySort.
Context {A : Type}.
Variable comparefn : A -> A -> number.

(** [x] goes after [y] when the comparator's result is positive; a NaN
    result counts as zero. *)
Definition sorts_after (x y : A) : bool := ngt (comparefn x y) (Fin 0).

Fixpoint sort_insert (x : A) (l : list A) : list A :=
  match l with
  | [] => [x]
  | y :: l' => if sorts_after x y then y :: sort_insert x l' else x :: l
  end.

(** [Array.prototype.sort]: a stable sort (ECMAScript 2019); for a
    consistent comparator every stable sort returns this list. *)
Definition Array_sort (l : list A) : list A := fold_right sort_insert [] l.
End ArraySort.

(* ================================================================= *)
(** ** Skill-level tables (skill-level-tables.ts) *)

Record SkillLevelInfo : Type := mkSkillLevelInfo {
  level : Z;
  pointsNeeded : Z;
  expectedPPM : Q;
  description : string
}.

Definition NINE_BALL_SKILL_LEVELS : list SkillLevelInfo :=
  [ mkSkillLevelInfo 1 14 10 "Beginner";
    mkSkillLevelInfo 2 19 14 "Novice";
    mkSkillLevelInfo 3 25 19 "Intermediate";
    mkSkillLevelInfo 4 31 24 "Advanced Intermediate";
    mkSkillLevelInfo 5 38 30 "Skilled";
    mkSkillLevelInfo 6 46 37 "Advanced";
    mkSkillLevelInfo 7 55 45 "Expert";
    mkSkillLevelInfo 8 65 54 "Semi-Pro";
    mkSkillLevelInfo 9 75 63 "Professional" ].

Definition getPointsNeeded (skillLevel : Z) : Z :=
  match find (fun sl => (level sl =? skillLevel)%Z) NINE_BALL_SKILL_LEVELS with
  | Some info => pointsNeeded info
  | None => 38%Z
  end.

Definition getExpectedPPM (skillLevel : Z) : Q :=
  match find (fun sl => (level sl =? skillLevel)%Z) NINE_BALL_SKILL_LEVELS with
  | Some info => expectedPPM info
  | None => 30
  end.

Definition getBaseWinProbability (playerSkillLevel opponentSkillLevel : Z)
  : number :=
  let playerNeeds := ofZ (getPointsNeeded playerSkillLevel) in
  let opponentNeeds := ofZ (getPointsNeeded opponentSkillLevel) in
  let baseProbability : number := 0.5 in
  let skillDiff := (ofZ playerSkillLevel - ofZ opponentSkillLevel)%num in
  let skillAdjustment := (skillDiff * 0.015)%num in
  let pointRatio := (opponentNeeds / playerNeeds)%num in
  let pointAdjustment := ((pointRatio - 1) * 0.05)%num in
  let baseProbability :=
    (baseProbability + (skillAdjustment + pointAdjustment))%num in
  Math_max 0.2 (Math_min 0.8 baseProbability).

(* ================================================================= *)
(** ** Win-probability model (win-probability.ts) *)

Definition WEIGHTS : WinProbabilityFactors :=
  mkFactors 0.35 0.25 0.20 0.15 0.05.

Definition length_of {A : Type} (l : list A) : Z := Z.of_nat (List.length l).

(** [stats.reduce((sum, s) => sum + s.winPct, 0)] *)
Definition sumWinPct (stats : list PlayerStats.t) : number :=
  fold_left (fun sum s => (sum + Fin (PlayerStats.winPct s))%num) stats (Fin 0).

(** [stats?.winPct ? stats.winPct / 100 : 0.5] *)
Definition seasonWinRate (stats : option PlayerStats.t) : number :=
  match stats with
  | Some s =>
      if truthy (PlayerStats.winPct s)
      then (PlayerStats.winPct s / 100)%num
      else 0.5
  | None => 0.5
  end.

(** Each of the blocks 2 to 5 of [calculateWinProbability] sets one factor
    and adds to [dataPoints]; it is given here as the pair of the factor
    and of what it adds. *)

(** 2. Win Percentage Delta *)
Definition winPercentageDelta_block
  (playerStats opponentStats : option PlayerStats.t) : number * Z :=
  match playerStats, opponentStats with
  | Some ps, Some os =>
      if ((PlayerStats.matchesPlayed ps >? 0)%Z
          && (PlayerStats.matchesPlayed os >? 0)%Z)%bool
      then
        let playerWinRate := (PlayerStats.winPct ps / 100)%num in
        let opponentWinRate := (PlayerStats.winPct os / 100)%num in
        let winPercentageDelta :=
          (0.5 + (playerWinRate - opponentWinRate) * 0.5)%num in
        (Math_max 0.2 (Math_min 0.8 winPercentageDelta), 2%Z)
      else (Fin 0.5, 0%Z)
  | _, _ => (Fin 0.5, 0%Z)
  end.

(** 3. Head-to-Head Record *)
Definition headToHeadRecord_block (headToHead : option HeadToHead.t)
  : number * Z :=
  match headToHead with
  | Some h =>
      if (HeadToHead.totalGames h >? 0)%Z
      then
        let headToHeadRecord :=
          (ofZ (HeadToHead.wins h) / ofZ (HeadToHead.totalGames h))%num in
        let regFactor :=
          Math_min (ofZ (HeadToHead.totalGames h) / 10)%num 1 in
        ((0.5 + (headToHeadRecord - 0.5) * regFactor)%num,
         HeadToHead.totalGames h)
      else (Fin 0.5, 0%Z)
  | None => (Fin 0.5, 0%Z)
  end.

(** 4. Recent Form Trend *)
Definition recentFormTrend_block
  (playerStats opponentStats : option PlayerStats.t)
  (recentPlayerStats recentOpponentStats : option (list PlayerStats.t))
  : number * Z :=
  match recentPlayerStats with
  | Some rps =>
      if (length_of rps >? 0)%Z
      then
        let recentWinRate :=
          (sumWinPct rps / ofZ (length_of rps) / 100)%num in
        let playerTrend :=
          (0.5 + (recentWinRate - seasonWinRate playerStats) * 2)%num in
        let opponentTrend :=
          match recentOpponentStats with
          | Some ros =>
              if (length_of ros >? 0)%Z
              then
                let oppRecentWinRate :=
                  (sumWinPct ros / ofZ (length_of ros) / 100)%num in
                (0.5 + (oppRecentWinRate - seasonWinRate opponentStats) * 2)%num
              else Fin 0.5
          | None => Fin 0.5
          end in
        let recentFormTrend :=
          (0.5 + (playerTrend - opponentTrend) * 0.5)%num in
        (Math_max 0.3 (Math_min 0.7 recentFormTrend), length_of rps)
      else (Fin 0.5, 0%Z)
  | None => (Fin 0.5, 0%Z)
  end.

(** 5. PPM Efficiency *)
Definition ppmEfficiency_block (player opponent : Player.t)
  (playerStats opponentStats : option PlayerStats.t) : number * Z :=
  match playerStats, opponentStats with
  | Some ps, Some os =>
      let playerExpectedPPM := getExpectedPPM (Player.skillLevel player) in
      let opponentExpectedPPM := getExpectedPPM (Player.skillLevel opponent) in
      let playerEfficiency := (PlayerStats.ppm ps / playerExpectedPPM)%num in
      let opponentEfficiency :=
        (PlayerStats.ppm os / opponentExpectedPPM)%num in
      let ppmEfficiency :=
        (0.5 + (playerEfficiency - opponentEfficiency) * 0.25)%num in
      (Math_max 0.3 (Math_min 0.7 ppmEfficiency), 2%Z)
  | _, _ => (Fin 0.5, 0%Z)
  end.

(** The weighted sum of the five factors, before the final clamp. *)
Definition weightedProbability (f : WinProbabilityFactors) : number :=
  (skillLevelAdvantage WEIGHTS * skillLevelAdvantage f
   + winPercentageDelta WEIGHTS * winPercentageDelta f
   + headToHeadRecord WEIGHTS * headToHeadRecord f
   + recentFormTrend WEIGHTS * recentFormTrend f
   + ppmEfficiency WEIGHTS * ppmEfficiency f)%num.

Definition calculateWinProbability
  (player : Player.t) (playerStats : option PlayerStats.t)
  (opponent : Player.t) (opponentStats : option PlayerStats.t)
  (headToHead : option HeadToHead.t)
  (recentPlayerStats recentOpponentStats : option (list PlayerStats.t))
  : WinProbabilityResult :=
  let dataPoints := 0%Z in
  (* 1. Skill Level Advantage (always available) *)
  let baseProb :=
    getBaseWinProbability (Player.skillLevel player)
      (Player.skillLevel opponent) in
  let skillLevelAdvantage := baseProb in
  let dataPoints := (dataPoints + 1)%Z in
  let '(winPercentageDelta, added) :=
    winPercentageDelta_block playerStats opponentStats in
  let dataPoints := (dataPoints + added)%Z in
  let '(headToHeadRecord, added) := headToHeadRecord_block headToHead in
  let dataPoints := (dataPoints + added)%Z in
  let '(recentFormTrend, added) :=
    recentFormTrend_block playerStats opponentStats
      recentPlayerStats recentOpponentStats in
  let dataPoints := (dataPoints + added)%Z in
  let '(ppmEfficiency, added) :=
    ppmEfficiency_block player opponent playerStats opponentStats in
  let dataPoints := (dataPoints + added)%Z in
  let factors :=
    mkFactors skillLevelAdvantage winPercentageDelta headToHeadRecord
      recentFormTrend ppmEfficiency in
  let probability := weightedProbability factors in
  let maxDataPoints : number := 50 in
  let confidence := Math_min (ofZ dataPoints / maxDataPoints)%num 1 in
  mkResult (Math_max 0.15 (Math_min 0.85 probability))
    factors confidence dataPoints.

(** [generateReasoning] *)
Definition generateReasoning (player opponent : Player.t)
  (factors : WinProbabilityFactors) (headToHead : option HeadToHead.t)
  : list string :=
  let SL z := ("SL" ++ string_of_Z z)%string in
  let reasons : list string := [] in
  let slDiff := (Player.skillLevel player - Player.skillLevel opponent)%Z in
  let reasons :=
    if (slDiff >? 0)%Z then
      reasons ++ [(Player.name player ++ " is a higher skill level ("
                   ++ SL (Player.skillLevel player) ++ " vs "
                   ++ SL (Player.skillLevel opponent) ++ ")")%string]
    else if (slDiff <? 0)%Z then
      reasons ++ [(Player.name player ++ " gets favorable handicap ("
                   ++ SL (Player.skillLevel player) ++ " vs "
                   ++ SL (Player.skillLevel opponent) ++ ")")%string]
    else
      reasons ++ [("Even skill level matchup (both "
                   ++ SL (Player.skillLevel player) ++ ")")%string] in
  let reasons :=
    if (winPercentageDelta factors >? 0.55)%num then
      reasons ++ [(Player.name player
                   ++ " has a higher win percentage this season")%string]
    else if (winPercentageDelta factors <? 0.45)%num then
      reasons ++ [(Player.name opponent
                   ++ " has been winning more consistently")%string]
    else reasons in
  let reasons :=
    match headToHead with
    | Some h =>
        if (HeadToHead.totalGames h >? 0)%Z then
          let winRate :=
            Math_round
              (ofZ (HeadToHead.wins h) / ofZ (HeadToHead.totalGames h) * 100)%num in
          let w := string_of_Z (HeadToHead.wins h) in
          let l := string_of_Z (HeadToHead.losses h) in
          if (winRate >? 55)%num then
            reasons ++ [(Player.name player ++ " is " ++ w ++ "-" ++ l
                         ++ " against " ++ Player.name opponent)%string]
          else if (winRate <? 45)%num then
            reasons ++ [(Player.name opponent
                         ++ " has won most of their matchups ("
                         ++ l ++ "-" ++ w ++ ")")%string]
          else
            reasons ++ [("Even head-to-head history ("
                         ++ w ++ "-" ++ l ++ ")")%string]
        else reasons
    | None => reasons
    end in
  let reasons :=
    if (recentFormTrend factors >? 0.55)%num then
      reasons ++ [(Player.name player
                   ++ " has been performing well recently")%string]
    else if (recentFormTrend factors <? 0.45)%num then
      reasons ++ [(Player.name player ++ " may be in a slump lately")%string]
    else reasons in
  reasons.

(* ================================================================= *)
(** ** Matchup calculator (matchup-calculator.ts) *)

Module MatchupInput.
Record t : Type := mk {
  player : Player.t;
  stats : option PlayerStats.t;
  recentStats : option (list PlayerStats.t)
}.
End MatchupInput.

(** [OpponentInput] has the fields of [MatchupInput]. *)
Definition OpponentInput : Type := MatchupInput.t.

Definition HeadToHeadData : Type := JSMap.t HeadToHead.t.

(** The template literal [`${playerId}-${opponentId}`]. *)
Definition h2hKey (playerId opponentId : Z) : string :=
  (string_of_Z playerId ++ "-" ++ string_of_Z opponentId)%string.

(** [Math.round(x * 100) / 100] *)
Definition round2 (x : number) : number := (Math_round (x * 100) / 100)%num.

(** The comparator [(a, b) => b.winProbability - a.winProbability]. *)
Definition byWinProbabilityDesc (a b : MatchupRecommendation.t) : number :=
  (MatchupRecommendation.winProbability b
   - MatchupRecommendation.winProbability a)%num.

(** The body of the loop of [getMatchupRecommendations]: the recommendation
    pushed for one available player. *)
Definition matchupRecommendation (opponent : OpponentInput)
  (headToHeadData : HeadToHeadData) (playerInput : MatchupInput.t)
  : MatchupRecommendation.t :=
  let player := MatchupInput.player playerInput in
  let stats := MatchupInput.stats playerInput in
  let recentStats := MatchupInput.recentStats playerInput in
  let h2hKey :=
    h2hKey (Player.id player) (Player.id (MatchupInput.player opponent)) in
  let headToHead := JSMap.get headToHeadData h2hKey in
  let result :=
    calculateWinProbability player stats
      (MatchupInput.player opponent) (MatchupInput.stats opponent)
      headToHead recentStats (MatchupInput.recentStats opponent) in
  let reasoning :=
    generateReasoning player (MatchupInput.player opponent)
      (factors result) headToHead in
  MatchupRecommendation.mk (Player.id player) (Player.name player)
    (round2 (probability result)) (round2 (confidence result))
    reasoning (factors result).

Definition getMatchupRecommendations
  (availablePlayers : list MatchupInput.t) (opponent : OpponentInput)
  (headToHeadData : HeadToHeadData) (_gameNumber _ourScore _theirScore : Z)
  : list MatchupRecommendation.t :=
  let recommendations :=
    map (matchupRecommendation opponent headToHeadData) availablePlayers in
  Array_sort byWinProbabilityDesc recommendations.

Definition zeroFactors : WinProbabilityFactors := mkFactors 0 0 0 0 0.

(** The body of the inner loop of [getBestOpener], on the loop state
    [(totalProbability, playerFactors)] of one player. *)
Definition openerAccumulate (playerInput : MatchupInput.t)
  (headToHeadData : HeadToHeadData)
  (state : number * WinProbabilityFactors) (opponent : OpponentInput)
  : number * WinProbabilityFactors :=
  let '(totalProbability, playerFactors) := state in
  let h2hKey :=
    h2hKey (Player.id (MatchupInput.player playerInput))
      (Player.id (MatchupInput.player opponent)) in
  let headToHead := JSMap.get headToHeadData h2hKey in
  let result :=
    calculateWinProbability
      (MatchupInput.player playerInput) (MatchupInput.stats playerInput)
      (MatchupInput.player opponent) (MatchupInput.stats opponent)
      headToHead
      (MatchupInput.recentStats playerInput)
      (MatchupInput.recentStats opponent) in
  let f := factors result in
  ((totalProbability + probability result)%num,
   mkFactors
     (skillLevelAdvantage playerFactors + skillLevelAdvantage f)%num
     (winPercentageDelta playerFactors + winPercentageDelta f)%num
     (headToHeadRecord playerFactors + headToHeadRecord f)%num
     (recentFormTrend playerFactors + recentFormTrend f)%num
     (ppmEfficiency playerFactors + ppmEfficiency f)%num).

(** The inner loop of [getBestOpener]: [totalProbability] and the
    accumulated [playerFactors] of one player over all opponents. *)
Definition openerTotals (playerInput : MatchupInput.t)
  (opponents : list OpponentInput) (headToHeadData : HeadToHeadData)
  : number * WinProbabilityFactors :=
  fold_left (openerAccumulate playerInput headToHeadData)
    opponents (Fin 0, zeroFactors).

(** The body of the outer loop of [getBestOpener], on the loop state
    [(bestAvgProbability, bestPlayer)]. *)
Definition openerStep (opponents : list OpponentInput)
  (headToHeadData : HeadToHeadData)
  (state : number * option MatchupRecommendation.t)
  (playerInput : MatchupInput.t)
  : number * option MatchupRecommendation.t :=
  let '(bestAvgProbability, bestPlayer) := state in
  let '(totalProbability, playerFactors) :=
    openerTotals playerInput opponents headToHeadData in
  let avgProbability := (totalProbability / ofZ (length_of opponents))%num in
  let numOpponents := ofZ (length_of opponents) in
  let playerFactors :=
    mkFactors
      (skillLevelAdvantage playerFactors / numOpponents)%num
      (winPercentageDelta playerFactors / numOpponents)%num
      (headToHeadRecord playerFactors / numOpponents)%num
      (recentFormTrend playerFactors / numOpponents)%num
      (ppmEfficiency playerFactors / numOpponents)%num in
  if (avgProbability >? bestAvgProbability)%num then
    let name := Player.name (MatchupInput.player playerInput) in
    let playerReasons :=
      [ (name ++ " has strong matchups across the board")%string;
        ("Average " ++ string_of_rounded (avgProbability * 100)%num
         ++ "% win probability vs all opponents")%string ] in
    (avgProbability,
     Some (MatchupRecommendation.mk
             (Player.id (MatchupInput.player playerInput)) name
             (round2 avgProbability) (Fin 0.7) playerReasons playerFactors))
  else (bestAvgProbability, bestPlayer).

Definition getBestOpener
  (availablePlayers : list MatchupInput.t) (opponents : list OpponentInput)
  (headToHeadData : HeadToHeadData) : option MatchupRecommendation.t :=
  if ((length_of availablePlayers =? 0)%Z || (length_of opponents =? 0)%Z)%bool
  then None
  else
    snd (fold_left (openerStep opponents headToHeadData)
           availablePlayers (Fin 0, None)).

Record ThrowFirstAnalysis : Type := mkThrowFirstAnalysis {
  throwFirstScore : number;
  deferScore : number;
  recommendation : TossChoice;
  analysisReasoning : list string
}.

(** [opener?.winProbability ?? 0.5] *)
Definition openerProbability (opener : option MatchupRecommendation.t)
  : number :=
  match opener with
  | Some r => MatchupRecommendation.winProbability r
  | None => 0.5
  end.

(** [${opener?.playerName}] *)
Definition openerName (opener : option MatchupRecommendation.t) : string :=
  match opener with
  | Some r => MatchupRecommendation.playerName r
  | None => "undefined"
  end.

(** The two scores of [analyzeThrowFirstAdvantage] before they are rounded
    for display: the local variables [throwFirstScore] and [deferScore]. *)
Definition throwFirstScore_local (ourBestOpenerProb : number) : number :=
  (ourBestOpenerProb * 0.6 + 0.4 * 0.5)%num.

Definition deferScore_local (theirBestOpenerThreat : number) : number :=
  ((1 - theirBestOpenerThreat) * 0.4 + 0.55 * 0.6)%num.

Definition copyInput (p : MatchupInput.t) : MatchupInput.t :=
  MatchupInput.mk (MatchupInput.player p) (MatchupInput.stats p)
    (MatchupInput.recentStats p).

Definition analyzeThrowFirstAdvantage
  (ourPlayers : list MatchupInput.t) (theirPlayers : list OpponentInput)
  (headToHeadData : HeadToHeadData) : ThrowFirstAnalysis :=
  let ourBestOpener := getBestOpener ourPlayers theirPlayers headToHeadData in
  let ourBestOpenerProb := openerProbability ourBestOpener in
  let theirBestOpener :=
    getBestOpener (map copyInput theirPlayers) (map copyInput ourPlayers)
      headToHeadData in
  let theirBestOpenerThreat := (1 - openerProbability theirBestOpener)%num in
  let throwFirstScore := throwFirstScore_local ourBestOpenerProb in
  let deferScore := deferScore_local theirBestOpenerThreat in
  let reasoning :=
    if (throwFirstScore >? deferScore)%num then
      [ ("Our opener (" ++ openerName ourBestOpener
         ++ ") has strong matchups")%string;
        "Setting the pace early gives us an advantage"%string ]
      ++ (if (ourBestOpenerProb >? 0.55)%num
          then [ (openerName ourBestOpener ++ " has "
                  ++ string_of_rounded (ourBestOpenerProb * 100)%num
                  ++ "% average win probability")%string ]
          else [])
    else
      [ "Deferring lets us counter-pick their choice"%string;
        "We can optimize each matchup reactively"%string ]
      ++ (match theirBestOpener with
          | Some r =>
              if (MatchupRecommendation.winProbability r >? 0.55)%num
              then ["This avoids letting them exploit their best matchups"%string]
              else []
          | None => []
          end) in
  mkThrowFirstAnalysis (round2 throwFirstScore) (round2 deferScore)
    (if (throwFirstScore >? deferScore)%num then throw_first else defer)
    reasoning.

(** [factorial]: the recursion [n * factorial(n - 1)] stops at [n <= 1];
    from [n] it takes fewer than [n] calls. *)
Fixpoint factorial_steps (steps : nat) (n : Z) : number :=
  match steps with
  | O => Fin 1
  | S steps' =>
      if (n <=? 1)%Z then Fin 1
      else (ofZ n * factorial_steps steps' (n - 1))%num
  end.

Definition factorial (n : Z) : number := factorial_steps (Z.to_nat n) n.

Definition binomialProbability (n k : Z) (p : number) : number :=
  let coefficient := (factorial n / (factorial k * factorial (n - k)))%num in
  (coefficient * Math_pow p k * Math_pow (1 - p) (n - k))%num.

(** The values of the counter of [for (let i = first; i <= last; i++)]. *)
Definition counter_values (first last : Z) : list Z :=
  map (fun i => (first + Z.of_nat i)%Z)
    (seq 0 (Z.to_nat (last - first + 1))).

(** The body of the inner loop of [calculateMatchWinProbability], on the
    loop state [(totalProb, matchups)]. *)
Definition matchupAccumulate (headToHeadData : HeadToHeadData)
  (ourPlayer : MatchupInput.t) (state : number * Z)
  (theirPlayer : OpponentInput) : number * Z :=
  let '(totalProb, matchups) := state in
  let h2hKey :=
    h2hKey (Player.id (MatchupInput.player ourPlayer))
      (Player.id (MatchupInput.player theirPlayer)) in
  let headToHead := JSMap.get headToHeadData h2hKey in
  let result :=
    calculateWinProbability
      (MatchupInput.player ourPlayer) (MatchupInput.stats ourPlayer)
      (MatchupInput.player theirPlayer) (MatchupInput.stats theirPlayer)
      headToHead None None in
  ((totalProb + probability result)%num, (matchups + 1)%Z).

Definition calculateMatchWinProbability (ourScore theirScore : Z)
  (ourRemainingPlayers : list MatchupInput.t)
  (theirRemainingPlayers : list OpponentInput)
  (headToHeadData : HeadToHeadData) : number :=
  let gamesNeededToWin := 3%Z in
  let ourGamesNeeded := (gamesNeededToWin - ourScore)%Z in
  let theirGamesNeeded := (gamesNeededToWin - theirScore)%Z in
  if (ourGamesNeeded <=? 0)%Z then Fin 1
  else if (theirGamesNeeded <=? 0)%Z then Fin 0
  else
    let '(totalProb, matchups) :=
      fold_left
        (fun state ourPlayer =>
           fold_left (matchupAccumulate headToHeadData ourPlayer)
             theirRemainingPlayers state)
        ourRemainingPlayers (Fin 0, 0%Z) in
    let avgWinProb :=
      if (matchups >? 0)%Z then (totalProb / ofZ matchups)%num else Fin 0.5 in
    let gamesRemaining :=
      Z.min (length_of ourRemainingPlayers) (length_of theirRemainingPlayers) in
    let matchWinProb :=
      fold_left
        (fun matchWinProb wins =>
           (matchWinProb + binomialProbability gamesRemaining wins avgWinProb)%num)
        (counter_values ourGamesNeeded gamesRemaining) (Fin 0) in
    Math_max 0.05 (Math_min 0.95 matchWinProb).

(* ================================================================= *)
(** ** Match-state advisor (live-match.ts) *)

Definition neutralFactors : WinProbabilityFactors :=
  mkFactors 0.5 0.5 0.5 0.5 0.5.

(** The body of the loop of the blind path of [getThrowRecommendation]:
    the recommendation pushed for one available player. *)
Definition blindRecommendation (opponentPlayers : list OpponentInput)
  (headToHeadData : HeadToHeadData) (liveMatch : LiveMatch.t)
  (playerInput : MatchupInput.t) : MatchupRecommendation.t :=
  let totalProb :=
    fold_left
      (fun totalProb opponent =>
         let matchups :=
           getMatchupRecommendations [playerInput] opponent headToHeadData
             (LiveMatch.currentGame liveMatch) (LiveMatch.ourScore liveMatch)
             (LiveMatch.theirScore liveMatch) in
         match matchups with
         | first :: _ =>
             (totalProb + MatchupRecommendation.winProbability first)%num
         | [] => totalProb
         end)
      opponentPlayers (Fin 0) in
  let avgProb := (totalProb / ofZ (length_of opponentPlayers))%num in
  let name := Player.name (MatchupInput.player playerInput) in
  let allReasons :=
    [ (name ++ " averages " ++ string_of_rounded (avgProb * 100)%num
       ++ "% win probability")%string;
      "Strong across multiple opponent matchups"%string ] in
  MatchupRecommendation.mk (Player.id (MatchupInput.player playerInput)) name
    (round2 avgProb) (Fin 0.65) allReasons neutralFactors.

Definition getThrowRecommendation
  (availablePlayers : list MatchupInput.t)
  (opponentPlayers : list OpponentInput)
  (headToHeadData : HeadToHeadData) (liveMatch : LiveMatch.t)
  (theirCurrentPlayer : option OpponentInput)
  : list MatchupRecommendation.t :=
  match theirCurrentPlayer with
  | Some current =>
      getMatchupRecommendations availablePlayers current headToHeadData
        (LiveMatch.currentGame liveMatch) (LiveMatch.ourScore liveMatch)
        (LiveMatch.theirScore liveMatch)
  | None =>
      let recommendations :=
        map (blindRecommendation opponentPlayers headToHeadData liveMatch)
          availablePlayers in
      Array_sort byWinProbabilityDesc recommendations
  end.

(** [ids.includes(x)] and [set.has(x)] on numbers that are integers. *)
Definition includes (ids : list Z) (x : Z) : bool :=
  existsb (fun y => (y =? x)%Z) ids.

Definition filterPresentPlayers (allPlayers : list Player.t)
  (presentPlayerIds : list Z) : list Player.t :=
  filter (fun p => includes presentPlayerIds (Player.id p)) allPlayers.

(** [games.filter(g => g.ourPlayerId !== null).map(g => g.ourPlayerId!)];
    the [Set] built from it is only asked for membership. *)
Definition assignedIds (side : LiveGame.t -> option Z)
  (games : list LiveGame.t) : list Z :=
  flat_map (fun g => match side g with Some i => [i] | None => [] end) games.

Definition getAvailablePlayers (presentPlayers : list Player.t)
  (liveMatch : LiveMatch.t) : list Player.t :=
  let playedPlayerIds :=
    assignedIds LiveGame.ourPlayerId (LiveMatch.games liveMatch) in
  filter (fun p => negb (includes playedPlayerIds (Player.id p)))
    presentPlayers.

Definition getAvailableOpponents (presentOpponents : list Player.t)
  (liveMatch : LiveMatch.t) : list Player.t :=
  let playedOpponentIds :=
    assignedIds LiveGame.theirPlayerId (LiveMatch.games liveMatch) in
  filter (fun p => negb (includes playedOpponentIds (Player.id p)))
    presentOpponents.

(* ================================================================= *)
(** ** Head-to-head records (head-to-head.ts and the sync store) *)

Module GameResult.
Record t : Type := mk {
  playerId : Z;
  opponentId : Z;
  won : bool;
  pointsScored : Q;
  pointsNeeded : Q;
  playedAt : Z
}.
End GameResult.

(** The body of the loop of [buildHeadToHeadRecords].  The record of the
    key is the one in the map, or a fresh one that is put in the map; it is
    then updated in place, so the map holds the updated record. *)
Definition recordGame (h2hMap : JSMap.t HeadToHead.t) (game : GameResult.t)
  : JSMap.t HeadToHead.t :=
  let key := h2hKey (GameResult.playerId game) (GameResult.opponentId game) in
  let h2h :=
    match JSMap.get h2hMap key with
    | Some h2h => h2h
    | None =>
        HeadToHead.mk (GameResult.playerId game) (GameResult.opponentId game)
          0 0 0 (Fin 0) (Fin 0) (GameResult.playedAt game)
    end in
  let totalGames := (HeadToHead.totalGames h2h + 1)%Z in
  let wins :=
    if GameResult.won game
    then (HeadToHead.wins h2h + 1)%Z else HeadToHead.wins h2h in
  let losses :=
    if GameResult.won game
    then HeadToHead.losses h2h else (HeadToHead.losses h2h + 1)%Z in
  let avgPointsScored :=
    ((HeadToHead.avgPointsScored h2h * (ofZ totalGames - 1)
      + GameResult.pointsScored game) / ofZ totalGames)%num in
  let avgPointsNeeded :=
    ((HeadToHead.avgPointsNeeded h2h * (ofZ totalGames - 1)
      + GameResult.pointsNeeded game) / ofZ totalGames)%num in
  let lastPlayed :=
    if (GameResult.playedAt game >? HeadToHead.lastPlayed h2h)%Z
    then GameResult.playedAt game else HeadToHead.lastPlayed h2h in
  JSMap.set h2hMap key
    (HeadToHead.mk (HeadToHead.playerId h2h) (HeadToHead.opponentId h2h)
       totalGames wins losses avgPointsScored avgPointsNeeded lastPlayed).

Definition buildHeadToHeadRecords (gameResults : list GameResult.t)
  : list HeadToHead.t :=
  let h2hMap := fold_left recordGame gameResults JSMap.empty in
  JSMap.values h2hMap.

(** [calcWinPct] *)
Definition calcWinPct (won played : Z) : number :=
  if (played =? 0)%Z then Fin 0
  else (Math_round (ofZ won / ofZ played * 1000) / 10)%num.

(** One item of a player's match history, as [syncAll] reads it. *)
Module MatchHistoryItem.
Record t : Type := mk {
  opponentId : Z;
  won : bool;
  pointsAwarded : Q;
  pointsNeeded : Q;
  datePlayed : Z
}.
End MatchHistoryItem.

(** One answer of [getMultiplePlayerHistories]: a player's id and match
    history, either of which may be missing. *)
Module PlayerHistory.
Record t : Type := mk {
  playerId : Z;
  matchHistory : option (list MatchHistoryItem.t)
}.
End PlayerHistory.

(** The head-to-head part of the body of the loop over a player's match
    history in [syncAll]. *)
Definition syncHeadToHeadItem (playerId : Z)
  (headToHeadMap : JSMap.t HeadToHead.t) (item : MatchHistoryItem.t)
  : JSMap.t HeadToHead.t :=
  let h2hKey := h2hKey playerId (MatchHistoryItem.opponentId item) in
  match JSMap.get headToHeadMap h2hKey with
  | Some existing =>
      let totalGames := (HeadToHead.totalGames existing + 1)%Z in
      let wins :=
        if MatchHistoryItem.won item
        then (HeadToHead.wins existing + 1)%Z else HeadToHead.wins existing in
      let losses :=
        if MatchHistoryItem.won item
        then HeadToHead.losses existing
        else (HeadToHead.losses existing + 1)%Z in
      let avgPointsScored :=
        ((HeadToHead.avgPointsScored existing * (ofZ totalGames - 1)
          + MatchHistoryItem.pointsAwarded item) / ofZ totalGames)%num in
      let avgPointsNeeded :=
        ((HeadToHead.avgPointsNeeded existing * (ofZ totalGames - 1)
          + MatchHistoryItem.pointsNeeded item) / ofZ totalGames)%num in
      let lastPlayed :=
        if (MatchHistoryItem.datePlayed item >? HeadToHead.lastPlayed existing)%Z
        then MatchHistoryItem.datePlayed item
        else HeadToHead.lastPlayed existing in
      JSMap.set headToHeadMap h2hKey
        (HeadToHead.mk (HeadToHead.playerId existing)
           (HeadToHead.opponentId existing)
           totalGames wins losses avgPointsScored avgPointsNeeded lastPlayed)
  | None =>
      JSMap.set headToHeadMap h2hKey
        (HeadToHead.mk playerId (MatchHistoryItem.opponentId item)
           1
           (if MatchHistoryItem.won item then 1 else 0)%Z
           (if MatchHistoryItem.won item then 0 else 1)%Z
           (Fin (MatchHistoryItem.pointsAwarded item))
           (Fin (MatchHistoryItem.pointsNeeded item))
           (MatchHistoryItem.datePlayed item))
  end.

(** The head-to-head map that [syncAll] accumulates over the histories it
    fetches; a missing history is skipped. *)
Definition syncHeadToHead (histories : list (option PlayerHistory.t))
  : JSMap.t HeadToHead.t :=
  fold_left
    (fun headToHeadMap history =>
       match history with
       | Some h =>
           match PlayerHistory.matchHistory h with
           | Some items =>
               fold_left (syncHeadToHeadItem (PlayerHistory.playerId h))
                 items headToHeadMap
           | None => headToHeadMap
           end
       | None => headToHeadMap
       end)
    histories JSMap.empty.

(* ================================================================= *)
(** ** Predicates of the statements *)

(** Equality of two numbers as values: rationals are compared by value. *)
Definition num_eq (x y : number) : Prop :=
  match x, y with
  | Fin a, Fin b => a == b
  | PosInf, PosInf | NegInf, NegInf | NaN, NaN => True
  | _, _ => False
  end.

Notation "x == y" := (num_eq x y) : num_scope.

(** [between lo hi x]: [x] is a rational within [[lo, hi]]. *)
Definition between (lo hi : Q) (x : number) : Prop :=
  exists q, x = Fin q /\ lo <= q <= hi.

Definition finite (x : number) : Prop := exists q, x = Fin q.

(** [g.ourPlayerId === x] *)
Definition assigns (g : LiveGame.t) (x : Z) : bool :=
  match LiveGame.ourPlayerId g with
  | Some i => (i =? x)%Z
  | None => false
  end.

Definition balanced (h : HeadToHead.t) : Prop :=
  (HeadToHead.wins h + HeadToHead.losses h = HeadToHead.totalGames h)%Z.

(** The loop state of [getBestOpener] once a player has been chosen:
    [bestPlayer] is a recommendation, and its probability is a rational. *)
Definition chosen (state : number * option MatchupRecommendation.t) : Prop :=
  exists r : MatchupRecommendation.t,
    snd state = Some r /\ finite (MatchupRecommendation.winProbability r).

Definition finiteProbability (r : MatchupRecommendation.t) : Prop :=
  finite (MatchupRecommendation.winProbability r).

(** [a] is ranked no lower than [b]: [a.winProbability >= b.winProbability]. *)
Definition notBelow (a b : MatchupRecommendation.t) : Prop :=
  (MatchupRecommendation.winProbability a
   >=? MatchupRecommendation.winProbability b)%num = true.

(** [r.winProbability === q] *)
Definition hasProbability (q : number) (r : MatchupRecommendation.t) : bool :=
  neqb (MatchupRecommendation.winProbability r) q.

(** The recommendation that the blind path of [getThrowRecommendation]
    pushes for a player when there is no opponent. *)
Definition undefinedRecommendation (playerInput : MatchupInput.t)
  : MatchupRecommendation.t :=
  let name := Player.name (MatchupInput.player playerInput) in
  MatchupRecommendation.mk (Player.id (MatchupInput.player playerInput)) name
    NaN (Fin 0.65)
    [ (name ++ " averages NaN% win probability")%string;
      "Strong across multiple opponent matchups"%string ]
    neutralFactors.

(* ================================================================= *)
(** ** Skill-level tables, continued (skill-level-tables.ts) *)

Record Handicap : Type := mkHandicap {
  player1Needs : Z;
  player2Needs : Z;
  handicapAdvantage : number
}.

Definition calculateHandicap (player1SkillLevel player2SkillLevel : Z)
  : Handicap :=
  let player1Needs := getPointsNeeded player1SkillLevel in
  let player2Needs := getPointsNeeded player2SkillLevel in
  let handicapAdvantage :=
    ((ofZ player2Needs - ofZ player1Needs) / ofZ player2Needs)%num in
  mkHandicap player1Needs player2Needs handicapAdvantage.

Definition getRaceFormat (player1SkillLevel player2SkillLevel : Z) : string :=
  let p1Needs := getPointsNeeded player1SkillLevel in
  let p2Needs := getPointsNeeded player2SkillLevel in
  ("Race to " ++ string_of_Z (Z.max p1Needs p2Needs) ++ "-"
   ++ string_of_Z (Z.min p1Needs p2Needs))%string.

(* ================================================================= *)
(** ** Helpers of head-to-head.ts *)

(** An object literal used as a table from skill level to points:
    [table[key]] is the value of the first (only) entry of that key. *)
Fixpoint tableLookup (table : list (Z * Z)) (key : Z) : option Z :=
  match table with
  | [] => None
  | (k, v) :: table' => if (k =? key)%Z then Some v else tableLookup table' key
  end.

(** [table[key] || fallback]: the fallback replaces a missing entry and an
    entry that is 0. *)
Definition lookupOr (table : list (Z * Z)) (key fallback : Z) : Z :=
  match tableLookup table key with
  | Some v => if (v =? 0)%Z then fallback else v
  | None => fallback
  end.

Definition pointsTable9Ball : list (Z * Z) :=
  [ (1, 14); (2, 19); (3, 25); (4, 31); (5, 38); (6, 46); (7, 55);
    (8, 65); (9, 75) ]%Z.

Definition getPointsNeeded9Ball (skillLevel : Z) : Z :=
  lookupOr pointsTable9Ball skillLevel 31.

Definition pointsTable8Ball : list (Z * Z) :=
  [ (2, 2); (3, 2); (4, 3); (5, 4); (6, 5); (7, 6) ]%Z.

Definition getPointsNeeded8Ball (skillLevel : Z) : Z :=
  lookupOr pointsTable8Ball skillLevel 3.

(* ================================================================= *)
(** ** Risk of a matchup (win-probability.ts) *)

Inductive RiskLevel : Type := low | medium | high.

Definition assessMatchupRisk (winProbability : number)
  (ourScore theirScore gameNumber : Z) : RiskLevel :=
  let gamesRemaining := (5 - gameNumber + 1)%Z in
  let scoreDeficit := (theirScore - ourScore)%Z in
  if (ourScore >? theirScore)%Z then
    if (winProbability >? 0.35)%num then low
    else if (winProbability >? 0.25)%num then medium else high
  else if (scoreDeficit >=? gamesRemaining)%Z then
    if (winProbability >? 0.5)%num then low
    else if (winProbability >? 0.4)%num then medium else high
  else
    if (winProbability >? 0.45)%num then low
    else if (winProbability >? 0.35)%num then medium else high.

(* ================================================================= *)
(** ** Match-state advisor, continued (live-match.ts) *)

Definition Math_abs (x : number) : number :=
  match x with
  | Fin q => Fin (Qabs q)
  | PosInf | NegInf => PosInf
  | NaN => NaN
  end.

Module CoinTossDecision.
Record t : Type := mk {
  recommendation : TossChoice;
  confidence : number;
  reasoning : list string;
  suggestedFirstPlayer : option Z
}.
End CoinTossDecision.

Definition getCoinTossRecommendation
  (ourPlayers : list MatchupInput.t) (theirPlayers : list OpponentInput)
  (headToHeadData : HeadToHeadData) : CoinTossDecision.t :=
  let analysis :=
    analyzeThrowFirstAdvantage ourPlayers theirPlayers headToHeadData in
  let suggestedFirstPlayer :=
    match recommendation analysis with
    | throw_first =>
        match getBestOpener ourPlayers theirPlayers headToHeadData with
        | Some bestOpener => Some (MatchupRecommendation.playerId bestOpener)
        | None => None
        end
    | defer => None
    end in
  let scoreDiff :=
    Math_abs (throwFirstScore analysis - deferScore analysis)%num in
  let confidence := Math_min (0.5 + scoreDiff * 2)%num 0.95 in
  CoinTossDecision.mk (recommendation analysis) (round2 confidence)
    (analysisReasoning analysis) suggestedFirstPlayer.

Definition getMatchStateAdvice (liveMatch : LiveMatch.t) : list string :=
  let ourScore := LiveMatch.ourScore liveMatch in
  let theirScore := LiveMatch.theirScore liveMatch in
  let currentGame := LiveMatch.currentGame liveMatch in
  let gamesRemaining := (5 - currentGame + 1)%Z in
  let advice : list string :=
    if ((ourScore =? 0)%Z && (theirScore =? 0)%Z)%bool then
      [ "First game sets the tone - consider a strong opener"%string ]
    else if (ourScore >? theirScore)%Z then
      let lead := (ourScore - theirScore)%Z in
      if (lead >=? 2)%Z then
        [ "Comfortable lead - can take calculated risks"%string;
          "Consider saving your strongest player for a must-win"%string ]
      else
        [ "Slight lead - maintain momentum with reliable matchups"%string ]
    else if (theirScore >? ourScore)%Z then
      let deficit := (theirScore - ourScore)%Z in
      if ((deficit >=? 2)%Z && (gamesRemaining <=? deficit)%Z)%bool then
        [ "Must-win situation - go with highest probability matchup"%string;
          "No room for strategic saves"%string ]
      else
        [ "Need to make up ground - look for advantageous matchups"%string ]
    else
      [ "Tied match - every game is crucial"%string;
        "Consider opponent tendencies when making your pick"%string ] in
  if (currentGame =? 5)%Z
  then advice ++ [ "Final game - put your best foot forward"%string ]
  else advice.

(* ================================================================= *)
(** ** Reading a head-to-head key back *)

(** No character of the string is a dash. *)
Fixpoint noDash (s : string) : bool :=
  match s with
  | EmptyString => true
  | String c s' => negb (Ascii.eqb c "-") && noDash s'
  end.

(** The string up to the first dash, and the string after it. *)
Fixpoint splitAtDash (s : string) : string * string :=
  match s with
  | EmptyString => (EmptyString, EmptyString)
  | String c s' =>
      if Ascii.eqb c "-" then (EmptyString, s')
      else let '(before, after) := splitAtDash s' in (String c before, after)
  end.

(** The two halves of a key: the separator is the first dash after the
    first character (which may be the sign of the first id). *)
Definition splitKey (key : string) : string * string :=
  match key with
  | EmptyString => (EmptyString, EmptyString)
  | String c s' => let '(before, after) := splitAtDash s' in
                   (String c before, after)
  end.

(* ================================================================= *)
(** ** Reading head-to-head records *)

(** The game results of one ordered pair of players, in input order. *)
Definition gamesBetween (playerId opponentId : Z)
  (gameResults : list GameResult.t) : list GameResult.t :=
  filter (fun g => ((GameResult.playerId g =? playerId)%Z
                    && (GameResult.opponentId g =? opponentId)%Z)%bool)
    gameResults.

(** The first record of one ordered pair of players. *)
Definition recordBetween (playerId opponentId : Z)
  (records : list HeadToHead.t) : option HeadToHead.t :=
  find (fun h => ((HeadToHead.playerId h =? playerId)%Z
                  && (HeadToHead.opponentId h =? opponentId)%Z)%bool)
    records.

Definition sumQ (l : list Q) : Q := fold_right Qplus 0 l.

Definition sumZ (l : list Z) : Z := fold_right Z.add 0%Z l.

(** The latest of the dates of a non-empty list of games. *)
Definition latest (first : GameResult.t) (rest : list GameResult.t) : Z :=
  fold_left Z.max (map GameResult.playedAt rest) (GameResult.playedAt first).

(** A match-history item of a player, as a game result. *)
Definition historyGame (playerId : Z) (item : MatchHistoryItem.t)
  : GameResult.t :=
  GameResult.mk playerId (MatchHistoryItem.opponentId item)
    (MatchHistoryItem.won item) (MatchHistoryItem.pointsAwarded item)
    (MatchHistoryItem.pointsNeeded item) (MatchHistoryItem.datePlayed item).

(** The game results of the histories that the sync reads, in the order
    in which it reads them. *)
Definition historyGames (histories : list (option PlayerHistory.t))
  : list GameResult.t :=
  flat_map
    (fun history =>
       match history with
       | Some h =>
           match PlayerHistory.matchHistory h with
           | Some items => map (historyGame (PlayerHistory.playerId h)) items
           | None => []
           end
       | None => []
       end)
    histories.

(** Two records with the same fields, the averages compared as
    numbers. *)
Definition sameRecord (h h' : HeadToHead.t) : Prop :=
  HeadToHead.playerId h = HeadToHead.playerId h'
  /\ HeadToHead.opponentId h = HeadToHead.opponentId h'
  /\ HeadToHead.totalGames h = HeadToHead.totalGames h'
  /\ HeadToHead.wins h = HeadToHead.wins h'
  /\ HeadToHead.losses h = HeadToHead.losses h'
  /\ (HeadToHead.avgPointsScored h == HeadToHead.avgPointsScored h')%num
  /\ (HeadToHead.avgPointsNeeded h == HeadToHead.avgPointsNeeded h')%num
  /\ HeadToHead.lastPlayed h = HeadToHead.lastPlayed h'.

(** The key of a game result. *)
Definition gameKey (game : GameResult.t) : string :=
  h2hKey (GameResult.playerId game) (GameResult.opponentId game).

(** The record that [recordGame] writes, from the one it found. *)
Definition recorded (found : option HeadToHead.t) (game : GameResult.t)
  : HeadToHead.t :=
  let h2h :=
    match found with
    | Some h2h => h2h
    | None =>
        HeadToHead.mk (GameResult.playerId game) (GameResult.opponentId game)
          0 0 0 (Fin 0) (Fin 0) (GameResult.playedAt game)
    end in
  HeadToHead.mk (HeadToHead.playerId h2h) (HeadToHead.opponentId h2h)
    (HeadToHead.totalGames h2h + 1)
    (if GameResult.won game
     then (HeadToHead.wins h2h + 1)%Z else HeadToHead.wins h2h)
    (if GameResult.won game
     then HeadToHead.losses h2h else (HeadToHead.losses h2h + 1)%Z)
    ((HeadToHead.avgPointsScored h2h * (ofZ (HeadToHead.totalGames h2h + 1) - 1)
      + GameResult.pointsScored game)
     / ofZ (HeadToHead.totalGames h2h + 1))%num
    ((HeadToHead.avgPointsNeeded h2h * (ofZ (HeadToHead.totalGames h2h + 1) - 1)
      + GameResult.pointsNeeded game)
     / ofZ (HeadToHead.totalGames h2h + 1))%num
    (if (GameResult.playedAt game >? HeadToHead.lastPlayed h2h)%Z
     then GameResult.playedAt game else HeadToHead.lastPlayed h2h).

(** What a list of the games of one pair says about the pair: the fields
    a record of the pair should have. *)
Definition summarizes (games : list GameResult.t) (h : HeadToHead.t) : Prop :=
  match games with
  | [] => False
  | first :: rest =>
      HeadToHead.playerId h = GameResult.playerId first
      /\ HeadToHead.opponentId h = GameResult.opponentId first
      /\ HeadToHead.totalGames h = length_of games
      /\ HeadToHead.wins h = length_of (filter GameResult.won games)
      /\ HeadToHead.losses h
         = length_of (filter (fun g => negb (GameResult.won g)) games)
      /\ HeadToHead.lastPlayed h = latest first rest
      /\ (exists a : Q,
             HeadToHead.avgPointsScored h = Fin a
             /\ a == sumQ (map GameResult.pointsScored games)
                     / inject_Z (length_of games))
      /\ (exists a : Q,
             HeadToHead.avgPointsNeeded h = Fin a
             /\ a == sumQ (map GameResult.pointsNeeded games)
                     / inject_Z (length_of games))
  end.

(** Every entry of the map sits under the key of its own two ids. *)
Definition wellKeyed (m : JSMap.t HeadToHead.t) : Prop :=
  Forall (fun entry =>
            fst entry = h2hKey (HeadToHead.playerId (snd entry))
                          (HeadToHead.opponentId (snd entry))) m.

(** The ordered pair of ids of a record. *)
Definition pairOf (h : HeadToHead.t) : Z * Z :=
  (HeadToHead.playerId h, HeadToHead.opponentId h).

(** The ordered pair of ids of a game result. *)
Definition gamePair (game : GameResult.t) : Z * Z :=
  (GameResult.playerId game, GameResult.opponentId game).

Definition samePair (a b : Z * Z) : bool :=
  ((fst a =? fst b)%Z && (snd a =? snd b)%Z)%bool.

(** The distinct pairs of a list, in the order of their first
    occurrence. *)
Definition distinctPairs (pairs : list (Z * Z)) : list (Z * Z) :=
  fold_left
    (fun seen pair =>
       if existsb (samePair pair) seen then seen else seen ++ [pair])
    pairs [].

(** Two maps with the same keys in the same order and, under each key, the
    same record with finite averages and at least one game. *)
Definition sameEntries (m m' : JSMap.t HeadToHead.t) : Prop :=
  Forall2
    (fun entry entry' =>
       fst entry = fst entry'
       /\ sameRecord (snd entry) (snd entry')
       /\ finite (HeadToHead.avgPointsScored (snd entry))
       /\ finite (HeadToHead.avgPointsNeeded (snd entry))
       /\ (1 <= HeadToHead.totalGames (snd entry))%Z)
    m m'.

(* ================================================================= *)
(** ** More predicates of the statements *)

(** The rank of a risk level: low below medium below high. *)
Definition riskRank (r : RiskLevel) : Z :=
  match r with
  | low => 0
  | medium => 1
  | high => 2
  end.

(** A head-to-head record, when there is one, has from 0 to [totalGames]
    wins. *)
Definition consistent (headToHead : option HeadToHead.t) : Prop :=
  match headToHead with
  | Some h => (0 <= HeadToHead.wins h <= HeadToHead.totalGames h)%Z
  | None => True
  end.

(** [x] is a whole number of hundredths, from [lo] to [hi] of them: what
    [Math.round(x * 100) / 100] makes of a number within these bounds. *)
Definition hundredths (lo hi : Z) (x : number) : Prop :=
  exists z : Z, x = Fin (inject_Z z / 100) /\ (lo <= z <= hi)%Z.

(* ================================================================= *)
(** ** Reading the best opener *)

(** The average probability of one player over all opponents, as the
    outer loop of [getBestOpener] computes it. *)
Definition openerAverage (opponents : list OpponentInput)
  (headToHeadData : HeadToHeadData) (playerInput : MatchupInput.t)
  : number :=
  (fst (openerTotals playerInput opponents headToHeadData)
   / ofZ (length_of opponents))%num.

(** [p] is the first of the players [before ++ p :: after] with the
    highest average. *)
Definition firstBest (opponents : list OpponentInput)
  (headToHeadData : HeadToHeadData)
  (before : list MatchupInput.t) (p : MatchupInput.t)
  (after : list MatchupInput.t) : Prop :=
  Forall (fun p' => (openerAverage opponents headToHeadData p'
                     <? openerAverage opponents headToHeadData p)%num = true)
    before
  /\ Forall (fun p' => (openerAverage opponents headToHeadData p'
                        <=? openerAverage opponents headToHeadData p)%num
                       = true)
       after.

(** The recommendation [r] is the one that [getBestOpener] makes of the
    player [p]. *)
Definition recommends (opponents : list OpponentInput)
  (headToHeadData : HeadToHeadData)
  (r : MatchupRecommendation.t) (p : MatchupInput.t) : Prop :=
  MatchupRecommendation.playerId r = Player.id (MatchupInput.player p)
  /\ MatchupRecommendation.playerName r
     = Player.name (MatchupInput.player p)
  /\ MatchupRecommendation.winProbability r
     = round2 (openerAverage opponents headToHeadData p)
  /\ MatchupRecommendation.confidence r = Fin 0.7.

(* ================================================================= *)
(** ** Match store (store/match-store.ts) *)

Inductive MatchStatus : Type :=
  setup | attendance | coin_toss | in_progress | completed.

Inductive TossWinner : Type := us | them.

Inductive ChatRole : Type := user | assistant.

Module ChatMessage.
Record t : Type := mk {
  role : ChatRole;
  content : string;
  timestamp : Z
}.
End ChatMessage.

(** The whole [LiveGame] object, as the store holds it; [LiveGame.t] above
    keeps the fields that live-match.ts reads. *)
Module StoredGame.
Record t : Type := mk {
  gameNumber : Z;
  ourPlayerId : option Z;
  theirPlayerId : option Z;
  result : GameOutcome;
  ourPoints : option Z;
  theirPoints : option Z;
  recommendation : option MatchupRecommendation.t;
  wasRecommendationFollowed : option bool
}.

Definition view (g : t) : LiveGame.t :=
  LiveGame.mk (gameNumber g) (ourPlayerId g) (theirPlayerId g) (result g).
End StoredGame.

(** The whole [LiveMatch] object; dates are in milliseconds. *)
Module StoredMatch.
Record t : Type := mk {
  id : string;
  opponentTeamId : Z;
  opponentTeamName : string;
  scheduledDate : Z;
  ourPlayersPresent : list Z;
  theirPlayersPresent : list Z;
  coinTossWinner : option TossWinner;
  weThrowFirst : option bool;
  games : list StoredGame.t;
  currentGame : Z;
  ourScore : Z;
  theirScore : Z;
  status : MatchStatus
}.

Definition view (m : t) : LiveMatch.t :=
  LiveMatch.mk (ourPlayersPresent m) (theirPlayersPresent m)
    (map StoredGame.view (games m)) (currentGame m) (ourScore m)
    (theirScore m).
End StoredMatch.

Record MatchState (Match : Type) : Type := mkMatchState {
  liveMatch : option StoredMatch.t;
  upcomingMatches : list Match;
  currentRecommendations : list MatchupRecommendation.t;
  coinTossDecision : option CoinTossDecision.t;
  chatHistory : list ChatMessage.t
}.

Arguments mkMatchState {Match}.
Arguments liveMatch {Match}.
Arguments upcomingMatches {Match}.
Arguments currentRecommendations {Match}.
Arguments coinTossDecision {Match}.
Arguments chatHistory {Match}.

Record MatchProgress : Type := mkMatchProgress {
  gamesPlayed : Z;
  ourWins : Z;
  theirWins : Z
}.

Definition pendingGame (gameNumber : Z) : StoredGame.t :=
  StoredGame.mk gameNumber None None pending None None None None.

(** [Date.now()] and [new Date()] are the two arguments [now] and
    [today]. *)
Definition createInitialLiveMatch (opponentTeamId : Z)
  (opponentTeamName : string) (now today : Z) : StoredMatch.t :=
  StoredMatch.mk ("match-" ++ string_of_Z now)%string
    opponentTeamId opponentTeamName today [] [] None None
    [ pendingGame 1; pendingGame 2; pendingGame 3; pendingGame 4;
      pendingGame 5 ]
    1 0 0 setup.

(** [{ ...liveMatch, games }] and the like. *)
Definition withGames (m : StoredMatch.t) (games : list StoredGame.t)
  : StoredMatch.t :=
  StoredMatch.mk (StoredMatch.id m) (StoredMatch.opponentTeamId m)
    (StoredMatch.opponentTeamName m) (StoredMatch.scheduledDate m)
    (StoredMatch.ourPlayersPresent m) (StoredMatch.theirPlayersPresent m)
    (StoredMatch.coinTossWinner m) (StoredMatch.weThrowFirst m)
    games (StoredMatch.currentGame m) (StoredMatch.ourScore m)
    (StoredMatch.theirScore m) (StoredMatch.status m).

Definition withStatus (m : StoredMatch.t) (status : MatchStatus)
  : StoredMatch.t :=
  StoredMatch.mk (StoredMatch.id m) (StoredMatch.opponentTeamId m)
    (StoredMatch.opponentTeamName m) (StoredMatch.scheduledDate m)
    (StoredMatch.ourPlayersPresent m) (StoredMatch.theirPlayersPresent m)
    (StoredMatch.coinTossWinner m) (StoredMatch.weThrowFirst m)
    (StoredMatch.games m) (StoredMatch.currentGame m)
    (StoredMatch.ourScore m) (StoredMatch.theirScore m) status.

(** [games[gameIndex] = change(games[gameIndex])] at the index that
    [games.findIndex(g => g.gameNumber === gameNumber)] gives; nothing
    when it gives -1. *)
Fixpoint updateGame (gameNumber : Z)
  (change : StoredGame.t -> StoredGame.t) (games : list StoredGame.t)
  : list StoredGame.t :=
  match games with
  | [] => []
  | g :: rest =>
      if (StoredGame.gameNumber g =? gameNumber)%Z
      then change g :: rest
      else g :: updateGame gameNumber change rest
  end.

(** [g.result === outcome] *)
Definition hasResult (outcome : GameOutcome) (g : StoredGame.t) : bool :=
  match StoredGame.result g, outcome with
  | win, win | loss, loss | pending, pending => true
  | _, _ => false
  end.

Section MatchStore.

Variable Match : Type.

Definition initialMatchState : MatchState Match :=
  mkMatchState None [] [] None [].

(** The [set] of [loadUpcomingMatches], with the matches that the query
    of the database gave. *)
Definition loadUpcomingMatches (matches : list Match)
  (state : MatchState Match) : MatchState Match :=
  mkMatchState (liveMatch state) matches (currentRecommendations state)
    (coinTossDecision state) (chatHistory state).

Definition startMatch (opponentTeamId : Z) (opponentTeamName : string)
  (now today : Z) (state : MatchState Match) : MatchState Match :=
  let liveMatch :=
    createInitialLiveMatch opponentTeamId opponentTeamName now today in
  mkMatchState (Some liveMatch) (upcomingMatches state) [] None [].

(** [set(state => ({ liveMatch: ... }))] *)
Definition setLiveMatch (liveMatch : option StoredMatch.t)
  (state : MatchState Match) : MatchState Match :=
  mkMatchState liveMatch (upcomingMatches state)
    (currentRecommendations state) (coinTossDecision state)
    (chatHistory state).

Definition setAttendance (ourPlayerIds theirPlayerIds : list Z)
  (state : MatchState Match) : MatchState Match :=
  setLiveMatch
    match liveMatch state with
    | Some m =>
        Some (StoredMatch.mk (StoredMatch.id m)
                (StoredMatch.opponentTeamId m)
                (StoredMatch.opponentTeamName m)
                (StoredMatch.scheduledDate m)
                ourPlayerIds theirPlayerIds
                (StoredMatch.coinTossWinner m) (StoredMatch.weThrowFirst m)
                (StoredMatch.games m) (StoredMatch.currentGame m)
                (StoredMatch.ourScore m) (StoredMatch.theirScore m)
                coin_toss)
    | None => None
    end
    state.

Definition setCoinTossResult (weWon : bool) (state : MatchState Match)
  : MatchState Match :=
  setLiveMatch
    match liveMatch state with
    | Some m =>
        Some (StoredMatch.mk (StoredMatch.id m)
                (StoredMatch.opponentTeamId m)
                (StoredMatch.opponentTeamName m)
                (StoredMatch.scheduledDate m)
                (StoredMatch.ourPlayersPresent m)
                (StoredMatch.theirPlayersPresent m)
                (Some (if weWon then us else them))
                (StoredMatch.weThrowFirst m)
                (StoredMatch.games m) (StoredMatch.currentGame m)
                (StoredMatch.ourScore m) (StoredMatch.theirScore m)
                (StoredMatch.status m))
    | None => None
    end
    state.

Definition setWeThrowFirst (throwFirst : bool) (state : MatchState Match)
  : MatchState Match :=
  setLiveMatch
    match liveMatch state with
    | Some m =>
        Some (StoredMatch.mk (StoredMatch.id m)
                (StoredMatch.opponentTeamId m)
                (StoredMatch.opponentTeamName m)
                (StoredMatch.scheduledDate m)
                (StoredMatch.ourPlayersPresent m)
                (StoredMatch.theirPlayersPresent m)
                (StoredMatch.coinTossWinner m) (Some throwFirst)
                (StoredMatch.games m) (StoredMatch.currentGame m)
                (StoredMatch.ourScore m) (StoredMatch.theirScore m)
                in_progress)
    | None => None
    end
    state.

Definition setCurrentRecommendations
  (recommendations : list MatchupRecommendation.t)
  (state : MatchState Match) : MatchState Match :=
  mkMatchState (liveMatch state) (upcomingMatches state) recommendations
    (coinTossDecision state) (chatHistory state).

Definition setCoinTossDecision (decision : CoinTossDecision.t)
  (state : MatchState Match) : MatchState Match :=
  mkMatchState (liveMatch state) (upcomingMatches state)
    (currentRecommendations state) (Some decision) (chatHistory state).

Definition recordTheirPlayer (gameNumber playerId : Z)
  (state : MatchState Match) : MatchState Match :=
  match liveMatch state with
  | None => state
  | Some m =>
      let games :=
        updateGame gameNumber
          (fun g =>
             StoredGame.mk (StoredGame.gameNumber g)
               (StoredGame.ourPlayerId g) (Some playerId)
               (StoredGame.result g) (StoredGame.ourPoints g)
               (StoredGame.theirPoints g) (StoredGame.recommendation g)
               (StoredGame.wasRecommendationFollowed g))
          (StoredMatch.games m) in
      setLiveMatch (Some (withGames m games)) state
  end.

Definition recordOurPlayer (gameNumber playerId : Z)
  (state : MatchState Match) : MatchState Match :=
  match liveMatch state with
  | None => state
  | Some m =>
      let games :=
        updateGame gameNumber
          (fun g =>
             StoredGame.mk (StoredGame.gameNumber g)
               (Some playerId) (StoredGame.theirPlayerId g)
               (StoredGame.result g) (StoredGame.ourPoints g)
               (StoredGame.theirPoints g) (StoredGame.recommendation g)
               (StoredGame.wasRecommendationFollowed g))
          (StoredMatch.games m) in
      setLiveMatch (Some (withGames m games)) state
  end.

Definition recordGameResult (gameNumber : Z) (won : bool)
  (ourPoints theirPoints : option Z) (state : MatchState Match)
  : MatchState Match :=
  match liveMatch state with
  | None => state
  | Some m =>
      let games :=
        updateGame gameNumber
          (fun g =>
             StoredGame.mk (StoredGame.gameNumber g)
               (StoredGame.ourPlayerId g) (StoredGame.theirPlayerId g)
               (if won then win else loss) ourPoints theirPoints
               (StoredGame.recommendation g)
               (StoredGame.wasRecommendationFollowed g))
          (StoredMatch.games m) in
      let ourScore := length_of (filter (hasResult win) games) in
      let theirScore := length_of (filter (hasResult loss) games) in
      let isComplete := ((ourScore >=? 3)%Z || (theirScore >=? 3)%Z)%bool in
      setLiveMatch
        (Some (StoredMatch.mk (StoredMatch.id m)
                 (StoredMatch.opponentTeamId m)
                 (StoredMatch.opponentTeamName m)
                 (StoredMatch.scheduledDate m)
                 (StoredMatch.ourPlayersPresent m)
                 (StoredMatch.theirPlayersPresent m)
                 (StoredMatch.coinTossWinner m) (StoredMatch.weThrowFirst m)
                 games (StoredMatch.currentGame m) ourScore theirScore
                 (if isComplete then completed else StoredMatch.status m)))
        state
  end.

Definition nextGame (state : MatchState Match) : MatchState Match :=
  match liveMatch state with
  | None => state
  | Some m =>
      if (StoredMatch.currentGame m >=? 5)%Z then state
      else
        mkMatchState
          (Some (StoredMatch.mk (StoredMatch.id m)
                   (StoredMatch.opponentTeamId m)
                   (StoredMatch.opponentTeamName m)
                   (StoredMatch.scheduledDate m)
                   (StoredMatch.ourPlayersPresent m)
                   (StoredMatch.theirPlayersPresent m)
                   (StoredMatch.coinTossWinner m)
                   (StoredMatch.weThrowFirst m)
                   (StoredMatch.games m) (StoredMatch.currentGame m + 1)
                   (StoredMatch.ourScore m) (StoredMatch.theirScore m)
                   (StoredMatch.status m)))
          (upcomingMatches state) [] (coinTossDecision state)
          (chatHistory state)
  end.

Definition endMatch (state : MatchState Match) : MatchState Match :=
  setLiveMatch
    match liveMatch state with
    | Some m => Some (withStatus m completed)
    | None => None
    end
    state.

Definition resetMatch (state : MatchState Match) : MatchState Match :=
  mkMatchState None (upcomingMatches state) [] None [].

Definition addChatMessage (message : ChatMessage.t)
  (state : MatchState Match) : MatchState Match :=
  mkMatchState (liveMatch state) (upcomingMatches state)
    (currentRecommendations state) (coinTossDecision state)
    (chatHistory state ++ [message]).

Definition clearChatHistory (state : MatchState Match) : MatchState Match :=
  mkMatchState (liveMatch state) (upcomingMatches state)
    (currentRecommendations state) (coinTossDecision state) [].

Definition getCurrentGame (state : MatchState Match)
  : option StoredGame.t :=
  match liveMatch state with
  | None => None
  | Some m =>
      find (fun g => (StoredGame.gameNumber g =? StoredMatch.currentGame m)%Z)
        (StoredMatch.games m)
  end.

Definition getMatchProgress (state : MatchState Match) : MatchProgress :=
  match liveMatch state with
  | None => mkMatchProgress 0 0 0
  | Some m =>
      let gamesPlayed :=
        length_of (filter (fun g => negb (hasResult pending g))
                     (StoredMatch.games m)) in
      let ourWins := length_of (filter (hasResult win) (StoredMatch.games m)) in
      let theirWins :=
        length_of (filter (hasResult loss) (StoredMatch.games m)) in
      mkMatchProgress gamesPlayed ourWins theirWins
  end.

(** The calls that a component can make on the store. *)
Inductive Action : Type :=
| LoadUpcomingMatches (matches : list Match)
| StartMatch (opponentTeamId : Z) (opponentTeamName : string) (now today : Z)
| SetAttendance (ourPlayerIds theirPlayerIds : list Z)
| SetCoinTossResult (weWon : bool)
| SetWeThrowFirst (throwFirst : bool)
| SetCurrentRecommendations (recommendations : list MatchupRecommendation.t)
| SetCoinTossDecision (decision : CoinTossDecision.t)
| RecordTheirPlayer (gameNumber playerId : Z)
| RecordOurPlayer (gameNumber playerId : Z)
| RecordGameResult (gameNumber : Z) (won : bool)
    (ourPoints theirPoints : option Z)
| NextGame
| EndMatch
| ResetMatch
| AddChatMessage (message : ChatMessage.t)
| ClearChatHistory.

Definition call (state : MatchState Match) (action : Action)
  : MatchState Match :=
  match action with
  | LoadUpcomingMatches matches => loadUpcomingMatches matches state
  | StartMatch opponentTeamId opponentTeamName now today =>
      startMatch opponentTeamId opponentTeamName now today state
  | SetAttendance ourPlayerIds theirPlayerIds =>
      setAttendance ourPlayerIds theirPlayerIds state
  | SetCoinTossResult weWon => setCoinTossResult weWon state
  | SetWeThrowFirst throwFirst => setWeThrowFirst throwFirst state
  | SetCurrentRecommendations recommendations =>
      setCurrentRecommendations recommendations state
  | SetCoinTossDecision decision => setCoinTossDecision decision state
  | RecordTheirPlayer gameNumber playerId =>
      recordTheirPlayer gameNumber playerId state
  | RecordOurPlayer gameNumber playerId =>
      recordOurPlayer gameNumber playerId state
  | RecordGameResult gameNumber won ourPoints theirPoints =>
      recordGameResult gameNumber won ourPoints theirPoints state
  | NextGame => nextGame state
  | EndMatch => endMatch state
  | ResetMatch => resetMatch state
  | AddChatMessage message => addChatMessage message state
  | ClearChatHistory => clearChatHistory state
  end.

(** The state of the store after a sequence of calls, from the initial
    state. *)
Definition stateAfter (actions : list Action) : MatchState Match :=
  fold_left call actions initialMatchState.

End MatchStore.

Arguments call {Match}.
Arguments stateAfter {Match}.
Arguments getCurrentGame {Match}.
Arguments getMatchProgress {Match}.
Arguments recordOurPlayer {Match}.
Arguments recordTheirPlayer {Match}.
Arguments recordGameResult {Match}.
Arguments nextGame {Match}.

(** The match of a store is consistent: five game slots numbered 1 to 5,
    the two scores the numbers of won and of lost games, and the current
    game one of the five. *)
Definition consistentMatch (m : StoredMatch.t) : Prop :=
  map StoredGame.gameNumber (StoredMatch.games m) = [1; 2; 3; 4; 5]%Z
  /\ StoredMatch.ourScore m
     = length_of (filter (hasResult win) (StoredMatch.games m))
  /\ StoredMatch.theirScore m
     = length_of (filter (hasResult loss) (StoredMatch.games m))
  /\ (1 <= StoredMatch.currentGame m <= 5)%Z.

Definition consistentStore {Match : Type} (state : MatchState Match)
  : Prop :=
  match liveMatch state with
  | Some m => consistentMatch m
  | None => True
  end.

(* ================================================================= *)
(** ** Statistics in range *)

(** A win percentage is a percentage: between 0 and 100. *)
Definition percentage (stats : PlayerStats.t) : Prop :=
  0 <= PlayerStats.winPct stats <= 100.

(** The win percentages of the statistics of a side, the recent ones
    included, are percentages.  The statistics of this embedding are
    rationals, so never NaN or infinite; with percentages the sums of
    the code, which are binary64 numbers, do not overflow either. *)
Definition percentages (stats : option PlayerStats.t)
  (recentStats : option (list PlayerStats.t)) : Prop :=
  match stats with
  | Some s => percentage s
  | None => True
  end
  /\ match recentStats with
     | Some recent => Forall percentage recent
     | None => True
     end.

Definition inRange (input : MatchupInput.t) : Prop :=
  percentages (MatchupInput.stats input) (MatchupInput.recentStats input).

(* ================================================================= *)
(** ** The engine in binary64 (win-probability.ts, matchup-calculator.ts)

    The definitions above compute with exact rationals: they give what
    the code gives up to the rounding of its arithmetic, as long as no
    statistic is NaN or infinite and no sum overflows.  The module [B64]
    embeds the same functions with the arithmetic of the code: a computed
    [number] is a [float], the IEEE-754 binary64 numbers with rounding to
    nearest even, and the statistics of the players are any such numbers,
    NaN and the infinities included.  Identifiers, skill levels and counts
    stay integers; where the code computes with one, it is converted
    ([ofZ], exact below 2^53). *)

Set Warnings "-inexact-float".

Module B64.

Local Open Scope float_scope.

(** An integer as a number: the nearest binary64 number. *)
Definition ofZ (z : Z) : float :=
  SF2Prim (binary_normalize prec emax z 0 false).

(** [Math.max] and [Math.min] of two arguments: NaN when either is NaN,
    and +0 above -0. *)
Definition Math_max (x y : float) : float :=
  if is_nan x || is_nan y then nan
  else if x <? y then y
  else if y <? x then x
  else if is_zero x && is_zero y then (if get_sign x then y else x)
  else x.

Definition Math_min (x y : float) : float :=
  if is_nan x || is_nan y then nan
  else if y <? x then y
  else if x <? y then x
  else if is_zero x && is_zero y then (if get_sign x then x else y)
  else x.

(** [Math.round]: the integer nearest to [x], a tie going up; NaN, the
    infinities and the integers are returned as they are, and a result of
    zero has the sign of [x].  A number [m * 2^e] with [e < 0] is below
    2^53, so the exact [floor(x + 1/2)] is a binary64 number. *)
Definition Math_round (x : float) : float :=
  match Prim2SF x with
  | S754_finite s m e =>
      if (0 <=? e)%Z then x
      else
        let twice := (2 * (if s then Z.neg m else Z.pos m) + 2 ^ (- e))%Z in
        let n := (twice / 2 ^ (1 - e))%Z in
        if (n =? 0)%Z then (if s then neg_zero else zero) else ofZ n
  | _ => x
  end.

(** Truthiness of a number in a condition: 0, -0 and NaN are falsy. *)
Definition truthy (x : float) : bool := negb (is_zero x || is_nan x).

(** Number-to-string conversion inside a template literal, for the
    results of [Math.round]: an integer (below 10^21, where JavaScript
    turns to the exponent form), an infinity or NaN. *)
Definition string_of_rounded (x : float) : string :=
  match Prim2SF x with
  | S754_zero _ => "0"
  | S754_infinity s => if s then "-Infinity" else "Infinity"
  | S754_nan => "NaN"
  | S754_finite s m e =>
      string_of_Z
        (if (0 <=? e)%Z
         then (if s then Z.neg m else Z.pos m) * 2 ^ e
         else (if s then Z.neg m else Z.pos m) / 2 ^ (- e))
  end.

Module PlayerStats.
Record t : Type := mk {
  playerId : Z;
  skillLevel : Z;
  matchesPlayed : Z;
  matchesWon : Z;
  ppm : float;
  winPct : float
}.
End PlayerStats.

Record WinProbabilityFactors : Type := mkFactors {
  skillLevelAdvantage : float;
  winPercentageDelta : float;
  headToHeadRecord : float;
  recentFormTrend : float;
  ppmEfficiency : float
}.

Record WinProbabilityResult : Type := mkResult {
  probability : float;
  factors : WinProbabilityFactors;
  confidence : float;
  dataPoints : Z
}.

Module MatchupRecommendation.
Record t : Type := mk {
  playerId : Z;
  playerName : string;
  winProbability : float;
  confidence : float;
  reasoning : list string;
  factors : WinProbabilityFactors
}.
End MatchupRecommendation.

(** *** skill-level-tables.ts *)

(** The expected points per match of the table are integers. *)
Definition getExpectedPPM (skillLevel : Z) : float :=
  match find (fun sl => (level sl =? skillLevel)%Z) NINE_BALL_SKILL_LEVELS with
  | Some info => ofZ (Qnum (expectedPPM info))
  | None => 30
  end.

Definition getBaseWinProbability (playerSkillLevel opponentSkillLevel : Z)
  : float :=
  let playerNeeds := ofZ (getPointsNeeded playerSkillLevel) in
  let opponentNeeds := ofZ (getPointsNeeded opponentSkillLevel) in
  let baseProbability := 0.5 in
  let skillDiff := ofZ playerSkillLevel - ofZ opponentSkillLevel in
  let skillAdjustment := skillDiff * 0.015 in
  let pointRatio := opponentNeeds / playerNeeds in
  let pointAdjustment := (pointRatio - 1) * 0.05 in
  let baseProbability :=
    baseProbability + (skillAdjustment + pointAdjustment) in
  Math_max 0.2 (Math_min 0.8 baseProbability).

(** *** win-probability.ts *)

Definition WEIGHTS : WinProbabilityFactors :=
  mkFactors 0.35 0.25 0.20 0.15 0.05.

(** [stats.reduce((sum, s) => sum + s.winPct, 0)] *)
Definition sumWinPct (stats : list PlayerStats.t) : float :=
  fold_left (fun sum s => sum + PlayerStats.winPct s) stats 0.

(** [stats?.winPct ? stats.winPct / 100 : 0.5] *)
Definition seasonWinRate (stats : option PlayerStats.t) : float :=
  match stats with
  | Some s =>
      if truthy (PlayerStats.winPct s)
      then PlayerStats.winPct s / 100
      else 0.5
  | None => 0.5
  end.

(** 2. Win Percentage Delta *)
Definition winPercentageDelta_block
  (playerStats opponentStats : option PlayerStats.t) : float * Z :=
  match playerStats, opponentStats with
  | Some ps, Some os =>
      if ((PlayerStats.matchesPlayed ps >? 0)%Z
          && (PlayerStats.matchesPlayed os >? 0)%Z)%bool
      then
        let playerWinRate := PlayerStats.winPct ps / 100 in
        let opponentWinRate := PlayerStats.winPct os / 100 in
        let winPercentageDelta :=
          0.5 + (playerWinRate - opponentWinRate) * 0.5 in
        (Math_max 0.2 (Math_min 0.8 winPercentageDelta), 2%Z)
      else (0.5, 0%Z)
  | _, _ => (0.5, 0%Z)
  end.

(** 3. Head-to-Head Record *)
Definition headToHeadRecord_block (headToHead : option HeadToHead.t)
  : float * Z :=
  match headToHead with
  | Some h =>
      if (HeadToHead.totalGames h >? 0)%Z
      then
        let headToHeadRecord :=
          ofZ (HeadToHead.wins h) / ofZ (HeadToHead.totalGames h) in
        let regFactor := Math_min (ofZ (HeadToHead.totalGames h) / 10) 1 in
        (0.5 + (headToHeadRecord - 0.5) * regFactor,
         HeadToHead.totalGames h)
      else (0.5, 0%Z)
  | None => (0.5, 0%Z)
  end.

(** 4. Recent Form Trend *)
Definition recentFormTrend_block
  (playerStats opponentStats : option PlayerStats.t)
  (recentPlayerStats recentOpponentStats : option (list PlayerStats.t))
  : float * Z :=
  match recentPlayerStats with
  | Some rps =>
      if (length_of rps >? 0)%Z
      then
        let recentWinRate := sumWinPct rps / ofZ (length_of rps) / 100 in
        let playerTrend :=
          0.5 + (recentWinRate - seasonWinRate playerStats) * 2 in
        let opponentTrend :=
          match recentOpponentStats with
          | Some ros =>
              if (length_of ros >? 0)%Z
              then
                let oppRecentWinRate :=
                  sumWinPct ros / ofZ (length_of ros) / 100 in
                0.5 + (oppRecentWinRate - seasonWinRate opponentStats) * 2
              else 0.5
          | None => 0.5
          end in
        let recentFormTrend := 0.5 + (playerTrend - opponentTrend) * 0.5 in
        (Math_max 0.3 (Math_min 0.7 recentFormTrend), length_of rps)
      else (0.5, 0%Z)
  | None => (0.5, 0%Z)
  end.

(** 5. PPM Efficiency *)
Definition ppmEfficiency_block (player opponent : Player.t)
  (playerStats opponentStats : option PlayerStats.t) : float * Z :=
  match playerStats, opponentStats with
  | Some ps, Some os =>
      let playerExpectedPPM := getExpectedPPM (Player.skillLevel player) in
      let opponentExpectedPPM := getExpectedPPM (Player.skillLevel opponent) in
      let playerEfficiency := PlayerStats.ppm ps / playerExpectedPPM in
      let opponentEfficiency := PlayerStats.ppm os / opponentExpectedPPM in
      let ppmEfficiency :=
        0.5 + (playerEfficiency - opponentEfficiency) * 0.25 in
      (Math_max 0.3 (Math_min 0.7 ppmEfficiency), 2%Z)
  | _, _ => (0.5, 0%Z)
  end.

(** The weighted sum of the five factors, before the final clamp. *)
Definition weightedProbability (f : WinProbabilityFactors) : float :=
  skillLevelAdvantage WEIGHTS * skillLevelAdvantage f
  + winPercentageDelta WEIGHTS * winPercentageDelta f
  + headToHeadRecord WEIGHTS * headToHeadRecord f
  + recentFormTrend WEIGHTS * recentFormTrend f
  + ppmEfficiency WEIGHTS * ppmEfficiency f.

Definition calculateWinProbability
  (player : Player.t) (playerStats : option PlayerStats.t)
  (opponent : Player.t) (opponentStats : option PlayerStats.t)
  (headToHead : option HeadToHead.t)
  (recentPlayerStats recentOpponentStats : option (list PlayerStats.t))
  : WinProbabilityResult :=
  let dataPoints := 0%Z in
  (* 1. Skill Level Advantage (always available) *)
  let baseProb :=
    getBaseWinProbability (Player.skillLevel player)
      (Player.skillLevel opponent) in
  let skillLevelAdvantage := baseProb in
  let dataPoints := (dataPoints + 1)%Z in
  let '(winPercentageDelta, added) :=
    winPercentageDelta_block playerStats opponentStats in
  let dataPoints := (dataPoints + added)%Z in
  let '(headToHeadRecord, added) := headToHeadRecord_block headToHead in
  let dataPoints := (dataPoints + added)%Z in
  let '(recentFormTrend, added) :=
    recentFormTrend_block playerStats opponentStats
      recentPlayerStats recentOpponentStats in
  let dataPoints := (dataPoints + added)%Z in
  let '(ppmEfficiency, added) :=
    ppmEfficiency_block player opponent playerStats opponentStats in
  let dataPoints := (dataPoints + added)%Z in
  let factors :=
    mkFactors skillLevelAdvantage winPercentageDelta headToHeadRecord
      recentFormTrend ppmEfficiency in
  let probability := weightedProbability factors in
  let maxDataPoints := 50 in
  let confidence := Math_min (ofZ dataPoints / maxDataPoints) 1 in
  mkResult (Math_max 0.15 (Math_min 0.85 probability))
    factors confidence dataPoints.

Definition generateReasoning (player opponent : Player.t)
  (factors : WinProbabilityFactors) (headToHead : option HeadToHead.t)
  : list string :=
  let SL z := ("SL" ++ string_of_Z z)%string in
  let reasons : list string := [] in
  let slDiff := (Player.skillLevel player - Player.skillLevel opponent)%Z in
  let reasons :=
    if (slDiff >? 0)%Z then
      reasons ++ [(Player.name player ++ " is a higher skill level ("
                   ++ SL (Player.skillLevel player) ++ " vs "
                   ++ SL (Player.skillLevel opponent) ++ ")")%string]
    else if (slDiff <? 0)%Z then
      reasons ++ [(Player.name player ++ " gets favorable handicap ("
                   ++ SL (Player.skillLevel player) ++ " vs "
                   ++ SL (Player.skillLevel opponent) ++ ")")%string]
    else
      reasons ++ [("Even skill level matchup (both "
                   ++ SL (Player.skillLevel player) ++ ")")%string] in
  let reasons :=
    if 0.55 <? winPercentageDelta factors then
      reasons ++ [(Player.name player
                   ++ " has a higher win percentage this season")%string]
    else if winPercentageDelta factors <? 0.45 then
      reasons ++ [(Player.name opponent
                   ++ " has been winning more consistently")%string]
    else reasons in
  let reasons :=
    match headToHead with
    | Some h =>
        if (HeadToHead.totalGames h >? 0)%Z then
          let winRate :=
            Math_round
              (ofZ (HeadToHead.wins h) / ofZ (HeadToHead.totalGames h) * 100) in
          let w := string_of_Z (HeadToHead.wins h) in
          let l := string_of_Z (HeadToHead.losses h) in
          if 55 <? winRate then
            reasons ++ [(Player.name player ++ " is " ++ w ++ "-" ++ l
                         ++ " against " ++ Player.name opponent)%string]
          else if winRate <? 45 then
            reasons ++ [(Player.name opponent
                         ++ " has won most of their matchups ("
                         ++ l ++ "-" ++ w ++ ")")%string]
          else
            reasons ++ [("Even head-to-head history ("
                         ++ w ++ "-" ++ l ++ ")")%string]
        else reasons
    | None => reasons
    end in
  let reasons :=
    if 0.55 <? recentFormTrend factors then
      reasons ++ [(Player.name player
                   ++ " has been performing well recently")%string]
    else if recentFormTrend factors <? 0.45 then
      reasons ++ [(Player.name player ++ " may be in a slump lately")%string]
    else reasons in
  reasons.

(** *** matchup-calculator.ts *)

Module MatchupInput.
Record t : Type := mk {
  player : Player.t;
  stats : option PlayerStats.t;
  recentStats : option (list PlayerStats.t)
}.
End MatchupInput.

Definition OpponentInput : Type := MatchupInput.t.

(** [Math.round(x * 100) / 100] *)
Definition round2 (x : float) : float := Math_round (x * 100) / 100.

(** The comparator [(a, b) => b.winProbability - a.winProbability]. *)
Definition byWinProbabilityDesc (a b : MatchupRecommendation.t) : float :=
  MatchupRecommendation.winProbability b
  - MatchupRecommendation.winProbability a.

(** [x] goes after [y] when the comparator's result is positive; a NaN
    result counts as zero. *)
Definition sorts_after (x y : MatchupRecommendation.t) : bool :=
  0 <? byWinProbabilityDesc x y.

Fixpoint sort_insert (x : MatchupRecommendation.t)
  (l : list MatchupRecommendation.t) : list MatchupRecommendation.t :=
  match l with
  | [] => [x]
  | y :: l' => if sorts_after x y then y :: sort_insert x l' else x :: l
  end.

(** [recommendations.sort(...)], as the stable insertion sort of
    [Array_sort] above. *)
Definition Array_sort (l : list MatchupRecommendation.t)
  : list MatchupRecommendation.t :=
  fold_right sort_insert [] l.

Definition matchupRecommendation (opponent : OpponentInput)
  (headToHeadData : HeadToHeadData) (playerInput : MatchupInput.t)
  : MatchupRecommendation.t :=
  let player := MatchupInput.player playerInput in
  let stats := MatchupInput.stats playerInput in
  let recentStats := MatchupInput.recentStats playerInput in
  let h2hKey :=
    h2hKey (Player.id player) (Player.id (MatchupInput.player opponent)) in
  let headToHead := JSMap.get headToHeadData h2hKey in
  let result :=
    calculateWinProbability player stats
      (MatchupInput.player opponent) (MatchupInput.stats opponent)
      headToHead recentStats (MatchupInput.recentStats opponent) in
  let reasoning :=
    generateReasoning player (MatchupInput.player opponent)
      (factors result) headToHead in
  MatchupRecommendation.mk (Player.id player) (Player.name player)
    (round2 (probability result)) (round2 (confidence result))
    reasoning (factors result).

Definition getMatchupRecommendations
  (availablePlayers : list MatchupInput.t) (opponent : OpponentInput)
  (headToHeadData : HeadToHeadData) (_gameNumber _ourScore _theirScore : Z)
  : list MatchupRecommendation.t :=
  let recommendations :=
    map (matchupRecommendation opponent headToHeadData) availablePlayers in
  Array_sort recommendations.

Definition zeroFactors : WinProbabilityFactors := mkFactors 0 0 0 0 0.

(** The body of the inner loop of [getBestOpener], on the loop state
    [(totalProbability, playerFactors)] of one player. *)
Definition openerAccumulate (playerInput : MatchupInput.t)
  (headToHeadData : HeadToHeadData)
  (state : float * WinProbabilityFactors) (opponent : OpponentInput)
  : float * WinProbabilityFactors :=
  let '(totalProbability, playerFactors) := state in
  let h2hKey :=
    h2hKey (Player.id (MatchupInput.player playerInput))
      (Player.id (MatchupInput.player opponent)) in
  let headToHead := JSMap.get headToHeadData h2hKey in
  let result :=
    calculateWinProbability
      (MatchupInput.player playerInput) (MatchupInput.stats playerInput)
      (MatchupInput.player opponent) (MatchupInput.stats opponent)
      headToHead
      (MatchupInput.recentStats playerInput)
      (MatchupInput.recentStats opponent) in
  let f := factors result in
  (totalProbability + probability result,
   mkFactors
     (skillLevelAdvantage playerFactors + skillLevelAdvantage f)
     (winPercentageDelta playerFactors + winPercentageDelta f)
     (headToHeadRecord playerFactors + headToHeadRecord f)
     (recentFormTrend playerFactors + recentFormTrend f)
     (ppmEfficiency playerFactors + ppmEfficiency f)).

Definition openerTotals (playerInput : MatchupInput.t)
  (opponents : list OpponentInput) (headToHeadData : HeadToHeadData)
  : float * WinProbabilityFactors :=
  fold_left (openerAccumulate playerInput headToHeadData)
    opponents (0, zeroFactors).

(** [avgProbability]: the average probability of one player over all
    opponents. *)
Definition openerAverage (opponents : list OpponentInput)
  (headToHeadData : HeadToHeadData) (playerInput : MatchupInput.t)
  : float :=
  fst (openerTotals playerInput opponents headToHeadData)
  / ofZ (length_of opponents).

(** The body of the outer loop of [getBestOpener], on the loop state
    [(bestAvgProbability, bestPlayer)]. *)
Definition openerStep (opponents : list OpponentInput)
  (headToHeadData : HeadToHeadData)
  (state : float * option MatchupRecommendation.t)
  (playerInput : MatchupInput.t)
  : float * option MatchupRecommendation.t :=
  let '(bestAvgProbability, bestPlayer) := state in
  let playerFactors :=
    snd (openerTotals playerInput opponents headToHeadData) in
  let avgProbability := openerAverage opponents headToHeadData playerInput in
  let numOpponents := ofZ (length_of opponents) in
  let playerFactors :=
    mkFactors
      (skillLevelAdvantage playerFactors / numOpponents)
      (winPercentageDelta playerFactors / numOpponents)
      (headToHeadRecord playerFactors / numOpponents)
      (recentFormTrend playerFactors / numOpponents)
      (ppmEfficiency playerFactors / numOpponents) in
  if bestAvgProbability <? avgProbability then
    let name := Player.name (MatchupInput.player playerInput) in
    let playerReasons :=
      [ (name ++ " has strong matchups across the board")%string;
        ("Average " ++ string_of_rounded (Math_round (avgProbability * 100))
         ++ "% win probability vs all opponents")%string ] in
    (avgProbability,
     Some (MatchupRecommendation.mk
             (Player.id (MatchupInput.player playerInput)) name
             (round2 avgProbability) 0.7 playerReasons playerFactors))
  else (bestAvgProbability, bestPlayer).

Definition getBestOpener
  (availablePlayers : list MatchupInput.t) (opponents : list OpponentInput)
  (headToHeadData : HeadToHeadData) : option MatchupRecommendation.t :=
  if ((length_of availablePlayers =? 0)%Z || (length_of opponents =? 0)%Z)%bool
  then None
  else
    snd (fold_left (openerStep opponents headToHeadData)
           availablePlayers (0, None)).

Record ThrowFirstAnalysis : Type := mkThrowFirstAnalysis {
  throwFirstScore : float;
  deferScore : float;
  recommendation : TossChoice;
  analysisReasoning : list string
}.

(** [opener?.winProbability ?? 0.5] *)
Definition openerProbability (opener : option MatchupRecommendation.t)
  : float :=
  match opener with
  | Some r => MatchupRecommendation.winProbability r
  | None => 0.5
  end.

(** [${opener?.playerName}] *)
Definition openerName (opener : option MatchupRecommendation.t) : string :=
  match opener with
  | Some r => MatchupRecommendation.playerName r
  | None => "undefined"
  end.

(** The two scores of [analyzeThrowFirstAdvantage] before they are rounded
    for display: the local variables [throwFirstScore] and [deferScore]. *)
Definition throwFirstScore_local (ourBestOpenerProb : float) : float :=
  ourBestOpenerProb * 0.6 + 0.4 * 0.5.

Definition deferScore_local (theirBestOpenerThreat : float) : float :=
  (1 - theirBestOpenerThreat) * 0.4 + 0.55 * 0.6.

Definition copyInput (p : MatchupInput.t) : MatchupInput.t :=
  MatchupInput.mk (MatchupInput.player p) (MatchupInput.stats p)
    (MatchupInput.recentStats p).

Definition analyzeThrowFirstAdvantage
  (ourPlayers : list MatchupInput.t) (theirPlayers : list OpponentInput)
  (headToHeadData : HeadToHeadData) : ThrowFirstAnalysis :=
  let ourBestOpener := getBestOpener ourPlayers theirPlayers headToHeadData in
  let ourBestOpenerProb := openerProbability ourBestOpener in
  let theirBestOpener :=
    getBestOpener (map copyInput theirPlayers) (map copyInput ourPlayers)
      headToHeadData in
  let theirBestOpenerThreat := 1 - openerProbability theirBestOpener in
  let throwFirstScore := throwFirstScore_local ourBestOpenerProb in
  let deferScore := deferScore_local theirBestOpenerThreat in
  let reasoning :=
    if deferScore <? throwFirstScore then
      [ ("Our opener (" ++ openerName ourBestOpener
         ++ ") has strong matchups")%string;
        "Setting the pace early gives us an advantage"%string ]
      ++ (if 0.55 <? ourBestOpenerProb
          then [ (openerName ourBestOpener ++ " has "
                  ++ string_of_rounded (Math_round (ourBestOpenerProb * 100))
                  ++ "% average win probability")%string ]
          else [])
    else
      [ "Deferring lets us counter-pick their choice"%string;
        "We can optimize each matchup reactively"%string ]
      ++ (match theirBestOpener with
          | Some r =>
              if 0.55 <? MatchupRecommendation.winProbability r
              then ["This avoids letting them exploit their best matchups"%string]
              else []
          | None => []
          end) in
  mkThrowFirstAnalysis (round2 throwFirstScore) (round2 deferScore)
    (if deferScore <? throwFirstScore then throw_first else defer)
    reasoning.

(** [factorial]: the recursion [n * factorial(n - 1)] stops at [n <= 1];
    the products are binary64 numbers. *)
Fixpoint factorial_steps (steps : nat) (n : Z) : float :=
  match steps with
  | O => 1
  | S steps' =>
      if (n <=? 1)%Z then 1 else ofZ n * factorial_steps steps' (n - 1)
  end.

Definition factorial (n : Z) : float := factorial_steps (Z.to_nat n) n.

(** *** Predicates of the statements *)

(** The integer that a number is, when it is one. *)
Definition integer (x : float) : option Z :=
  match Prim2SF x with
  | S754_zero _ => Some 0%Z
  | S754_finite s m e =>
      let signed := if s then Z.neg m else Z.pos m in
      if (0 <=? e)%Z then Some (signed * 2 ^ e)%Z
      else if (signed mod 2 ^ (- e) =? 0)%Z then Some (signed / 2 ^ (- e))%Z
      else None
  | _ => None
  end.

(** [p] is the first of the players [before ++ p :: after] with the
    greatest average, as the comparisons of the code see it: the average
    of [p] is above 0, no player before has an average that reaches it,
    and no player after has one above it.  (Every comparison with an
    average that is NaN is false.) *)
Definition firstBest (opponents : list OpponentInput)
  (headToHeadData : HeadToHeadData)
  (before : list MatchupInput.t) (p : MatchupInput.t)
  (after : list MatchupInput.t) : Prop :=
  (0 <? openerAverage opponents headToHeadData p) = true
  /\ Forall (fun p' => (openerAverage opponents headToHeadData p
                        <=? openerAverage opponents headToHeadData p')
                       = false)
       before
  /\ Forall (fun p' => (openerAverage opponents headToHeadData p
                        <? openerAverage opponents headToHeadData p')
                       = false)
       after.

(** The recommendation [r] is the one that [getBestOpener] makes of the
    player [p]. *)
Definition recommends (opponents : list OpponentInput)
  (headToHeadData : HeadToHeadData)
  (r : MatchupRecommendation.t) (p : MatchupInput.t) : Prop :=
  MatchupRecommendation.playerId r = Player.id (MatchupInput.player p)
  /\ MatchupRecommendation.playerName r
     = Player.name (MatchupInput.player p)
  /\ MatchupRecommendation.winProbability r
     = round2 (openerAverage opponents headToHeadData p)
  /\ MatchupRecommendation.confidence r = 0.7.

(** A number with the sign [s] that is not zero: finite or infinite. *)
Definition signed (s : bool) (x : spec_float) : Prop :=
  match x with
  | S754_finite s' _ _ => s' = s
  | S754_infinity s' => s' = s
  | _ => False
  end.

(** A recommendation whose win probability is a number. *)
Definition numbered (r : MatchupRecommendation.t) : Prop :=
  is_nan (MatchupRecommendation.winProbability r) = false.

(** [a] does not rank below [b]. *)
Definition notBelow (a b : MatchupRecommendation.t) : Prop :=
  (MatchupRecommendation.winProbability b
   <=? MatchupRecommendation.winProbability a) = true.

(** The recommendations of win probability [q]. *)
Definition hasProbability (q : float) (r : MatchupRecommendation.t) : bool :=
  MatchupRecommendation.winProbability r =? q.

End B64.
(* ================================================================= *)
(** ** Example inputs *)

Definition ann : Player.t := Player.mk 1 "Ann" 5 0 0 0 0 0.

(** A player without statistics. *)
Definition plain (id : Z) (name : string) (skill : Z) : MatchupInput.t :=
  MatchupInput.mk (Player.mk id name skill 0 0 0 0 0) None None.

(** A pair of one-player rosters on which our best opener averages 0.8 and
    theirs 0.3. *)
Definition strongOpener : MatchupInput.t :=
  MatchupInput.mk (Player.mk 1 "Ann" 30 10 7 6 0 70)
    (Some (PlayerStats.mk 1 30 10 7 6 70))
    (Some [PlayerStats.mk 1 30 4 3 6 90]).

Definition weakOpener : MatchupInput.t :=
  MatchupInput.mk (Player.mk 2 "Bob" 0 10 1 30 0 10)
    (Some (PlayerStats.mk 2 0 10 1 30 10))
    None.

Definition exampleHistory : HeadToHeadData :=
  [ ("1-2"%string, HeadToHead.mk 1 2 10 10 0 (Fin 0) (Fin 0) 0);
    ("2-1"%string, HeadToHead.mk 2 1 20 7 13 (Fin 0) (Fin 0) 0) ].

(** Two players with the statistics of a session. *)
Definition carl : MatchupInput.t :=
  MatchupInput.mk (Player.mk 3 "Carl" 6 10 7 50 0 70)
    (Some (PlayerStats.mk 3 6 10 7 50 70))
    (Some [PlayerStats.mk 3 6 4 3 52 75]).

Definition dana : MatchupInput.t :=
  MatchupInput.mk (Player.mk 4 "Dana" 4 10 4 28 0 40)
    (Some (PlayerStats.mk 4 4 10 4 28 40))
    None.

(** Two players of equal strength whose averages over the opponents
    [Xia] and [Yan] are both 0.53 in exact arithmetic. *)
(** The first of the two players with binary64 statistics. *)
Definition B64_strongOpener : B64.MatchupInput.t :=
  B64.MatchupInput.mk (Player.mk 1 "Ann" 30 10 7 6 0 70)
    (Some (B64.PlayerStats.mk 1 30 10 7 6 70))
    (Some [B64.PlayerStats.mk 1 30 4 3 6 90]).

Definition B64_weakOpener : B64.MatchupInput.t :=
  B64.MatchupInput.mk (Player.mk 2 "Bob" 0 10 1 30 0 10)
    (Some (B64.PlayerStats.mk 2 0 10 1 30 10))
    None.

Definition B64_plain (id : Z) (name : string) (skill : Z)
  : B64.MatchupInput.t :=
  B64.MatchupInput.mk (Player.mk id name skill 0 0 0 0 0) None None.

(** Statistics with a win percentage that is NaN. *)
Definition undefinedWinPct : B64.PlayerStats.t :=
  B64.PlayerStats.mk 1 5 10 5 30 nan.

Definition evenStats : B64.PlayerStats.t :=
  B64.PlayerStats.mk 2 5 10 5 30 50.

(** Recent statistics whose win percentages are finite and add up to
    more than the largest binary64 number. *)
Definition overflowingRecent : list B64.PlayerStats.t :=
  [ B64.PlayerStats.mk 1 5 4 2 30 (1e308)%float;
    B64.PlayerStats.mk 1 5 4 2 30 (1e308)%float ].

(** A player of skill level 5 with these recent statistics. *)
Definition hot (id : Z) (name : string) : B64.MatchupInput.t :=
  B64.MatchupInput.mk (Player.mk id name 5 0 0 0 0 0) None
    (Some overflowingRecent).

(** Two of our players and two of theirs, all of skill level 5 and
    without statistics, and a history in which the averages of Ann and
    Bob over Xia and Yan are both 0.49 in exact arithmetic. *)
Definition tiedHistory : HeadToHeadData :=
  [ ("1-4"%string, HeadToHead.mk 1 4 2 0 2 (Fin 0) (Fin 0) 0);
    ("2-3"%string, HeadToHead.mk 2 3 1 0 1 (Fin 0) (Fin 0) 0);
    ("2-4"%string, HeadToHead.mk 2 4 1 0 1 (Fin 0) (Fin 0) 0) ].

(* ================================================================= *)
(** ** Facts about numbers *)

Lemma Qlt_bool_iff (a b : Q) : Qlt_bool a b = true <-> a < b.
Proof.
  unfold Qlt_bool. rewrite negb_true_iff.
  split; intro H.
  - apply Qnot_le_lt. intro L. apply Qle_bool_iff in L. congruence.
  - destruct (Qle_bool b a) eqn:E; trivial.
    apply Qle_bool_iff in E. apply Qle_not_lt in E. contradiction.
Qed.

Lemma Qlt_bool_false_iff (a b : Q) : Qlt_bool a b = false <-> b <= a.
Proof.
  unfold Qlt_bool. rewrite negb_false_iff. apply Qle_bool_iff.
Qed.

Lemma Qeq_bool_false (a b : Q) : ~ a == b -> Qeq_bool a b = false.
Proof.
  intro H. destruct (Qeq_bool a b) eqn:E; trivial.
  apply Qeq_bool_iff in E. contradiction.
Qed.

Lemma ndiv_Fin (a b : Q) : ~ b == 0 -> ndiv (Fin a) (Fin b) = Fin (a / b).
Proof. intro H. simpl. rewrite (Qeq_bool_false _ _ H). reflexivity. Qed.

Lemma inject_Z_nonzero (z : Z) : (z <> 0)%Z -> ~ inject_Z z == 0.
Proof. intros H E. apply H. unfold Qeq in E. simpl in E. lia. Qed.

(** The clamp [Math.max(lo, Math.min(hi, x))] of a rational [q]: a rational
    within the bounds, and [q] itself (as a value) when [q] is within them. *)
Lemma clamp_spec (lo hi q : Q) :
  lo <= hi ->
  exists r, Math_max lo (Math_min hi (Fin q)) = Fin r
            /\ lo <= r <= hi /\ (lo <= q <= hi -> r == q).
Proof.
  intro L. unfold Math_max, Math_min. simpl.
  destruct (Qlt_bool q hi) eqn:E1; simpl.
  - apply Qlt_bool_iff in E1.
    destruct (Qlt_bool lo q) eqn:E2.
    + apply Qlt_bool_iff in E2. exists q. repeat split; try lra.
    + apply Qlt_bool_false_iff in E2. exists lo. repeat split; lra.
  - apply Qlt_bool_false_iff in E1.
    destruct (Qlt_bool lo hi) eqn:E2.
    + exists hi. repeat split; lra.
    + apply Qlt_bool_false_iff in E2. exists lo. repeat split; lra.
Qed.

Lemma clamp_between (lo hi q : Q) :
  lo <= hi -> between lo hi (Math_max lo (Math_min hi (Fin q))).
Proof.
  intro L. destruct (clamp_spec lo hi q L) as [r [E [B _]]].
  exists r. split; assumption.
Qed.

Lemma clamp_NaN (lo hi : number) : Math_max lo (Math_min hi NaN) = NaN.
Proof. destruct lo, hi; reflexivity. Qed.

(* ================================================================= *)
(** ** Skill-level tables *)

Ltac table_cases s :=
  cbv [find NINE_BALL_SKILL_LEVELS level pointsNeeded expectedPPM];
  repeat match goal with
         | |- context [(?a =? s)%Z] => destruct (a =? s)%Z
         end.

Lemma getPointsNeeded_pos (s : Z) : (0 < getPointsNeeded s)%Z.
Proof. unfold getPointsNeeded. table_cases s; lia. Qed.

Lemma getExpectedPPM_pos (s : Z) : 0 < getExpectedPPM s.
Proof. unfold getExpectedPPM. table_cases s; reflexivity. Qed.

Lemma getBaseWinProbability_between (s o : Z) :
  between 0.2 0.8 (getBaseWinProbability s o).
Proof.
  unfold getBaseWinProbability.
  pose proof (getPointsNeeded_pos s) as Hs.
  cbv zeta. unfold ofZ.
  rewrite ndiv_Fin by (apply inject_Z_nonzero; lia). simpl.
  apply clamp_between. lra.
Qed.

(** Against an opponent of the same skill level the base probability is
    the neutral 0.5. *)
Lemma getBaseWinProbability_equal (s : Z) :
  (getBaseWinProbability s s == 0.5)%num.
Proof.
  unfold getBaseWinProbability.
  pose proof (getPointsNeeded_pos s) as Hs.
  cbv zeta. unfold ofZ.
  rewrite ndiv_Fin by (apply inject_Z_nonzero; lia).
  cbn [nadd nsub nmul nneg].
  match goal with
  | |- (Math_max _ (Math_min _ (Fin ?q)) == _)%num =>
      destruct (clamp_spec 0.2 0.8 q) as [r [E [_ I]]]; [lra |];
      assert (Hq : q == 0.5)
  end.
  { assert (N : ~ inject_Z (getPointsNeeded s) == 0)
      by (apply inject_Z_nonzero; lia).
    field. exact N. }
  rewrite E. simpl. rewrite I; [exact Hq | lra].
Qed.

(* ================================================================= *)
(** ** The win-probability model *)

Lemma between_literal (lo hi q : Q) :
  lo <= q <= hi -> between lo hi (Fin q).
Proof. intro H. exists q. split; [reflexivity | exact H]. Qed.

Lemma between_finite (lo hi : Q) (x : number) : between lo hi x -> finite x.
Proof. intros [q [E _]]. exists q. exact E. Qed.

Lemma sumWinPct_finite (stats : list PlayerStats.t) : finite (sumWinPct stats).
Proof.
  unfold sumWinPct. generalize 0.
  induction stats as [| s stats IH]; intro acc; simpl.
  - exists acc. reflexivity.
  - apply IH.
Qed.

Lemma seasonWinRate_finite (stats : option PlayerStats.t) :
  finite (seasonWinRate stats).
Proof.
  unfold seasonWinRate. destruct stats as [s |]; [| eexists; reflexivity].
  destruct (truthy _); eexists; reflexivity.
Qed.

Lemma winPercentageDelta_block_between (ps os : option PlayerStats.t) :
  between 0.2 0.8 (fst (winPercentageDelta_block ps os)).
Proof.
  unfold winPercentageDelta_block.
  destruct ps as [ps |], os as [os |]; try (apply between_literal; lra).
  destruct (_ && _)%bool; [| apply between_literal; lra].
  cbn. apply clamp_between. lra.
Qed.

Lemma headToHeadRecord_block_finite (h : option HeadToHead.t) :
  finite (fst (headToHeadRecord_block h)).
Proof.
  unfold headToHeadRecord_block.
  destruct h as [h |]; [| eexists; reflexivity].
  destruct (HeadToHead.totalGames h >? 0)%Z eqn:G; [| eexists; reflexivity].
  apply Z.gtb_lt in G.
  cbv zeta. unfold ofZ. rewrite ndiv_Fin by (apply inject_Z_nonzero; lia).
  cbn. destruct (Qlt_bool _ _); eexists; reflexivity.
Qed.

Lemma length_of_pos_nonzero {A : Type} (l : list A) :
  (length_of l >? 0)%Z = true -> ~ inject_Z (length_of l) == 0.
Proof. intro G. apply Z.gtb_lt in G. apply inject_Z_nonzero. lia. Qed.

Lemma recentWinRate_finite (stats : list PlayerStats.t) :
  (length_of stats >? 0)%Z = true ->
  finite (sumWinPct stats / ofZ (length_of stats) / 100)%num.
Proof.
  intro G. destruct (sumWinPct_finite stats) as [q E]. rewrite E.
  unfold ofZ. rewrite ndiv_Fin by (apply length_of_pos_nonzero, G).
  eexists. reflexivity.
Qed.

Lemma recentFormTrend_block_between
  (ps os : option PlayerStats.t) (rps ros : option (list PlayerStats.t)) :
  between 0.3 0.7 (fst (recentFormTrend_block ps os rps ros)).
Proof.
  unfold recentFormTrend_block.
  destruct rps as [rps |]; [| apply between_literal; lra].
  destruct (length_of rps >? 0)%Z eqn:G; [| apply between_literal; lra].
  cbv zeta.
  destruct (recentWinRate_finite rps G) as [r Er]. rewrite Er.
  destruct (seasonWinRate_finite ps) as [s Es]. rewrite Es.
  assert (T : finite
                match ros with
                | Some ros =>
                    if (length_of ros >? 0)%Z
                    then (0.5 + (sumWinPct ros / ofZ (length_of ros) / 100
                                 - seasonWinRate os) * 2)%num
                    else Fin 0.5
                | None => Fin 0.5
                end).
  { destruct ros as [ros |]; [| eexists; reflexivity].
    destruct (length_of ros >? 0)%Z eqn:G'; [| eexists; reflexivity].
    destruct (recentWinRate_finite ros G') as [r' Er']. rewrite Er'.
    destruct (seasonWinRate_finite os) as [s' Es']. rewrite Es'.
    eexists. reflexivity. }
  destruct T as [t Et]. rewrite Et.
  cbn. apply clamp_between. lra.
Qed.

Lemma ppmEfficiency_block_between (player opponent : Player.t)
  (ps os : option PlayerStats.t) :
  between 0.3 0.7 (fst (ppmEfficiency_block player opponent ps os)).
Proof.
  unfold ppmEfficiency_block.
  destruct ps as [ps |], os as [os |]; try (apply between_literal; lra).
  cbv zeta.
  pose proof (getExpectedPPM_pos (Player.skillLevel player)) as Hp.
  pose proof (getExpectedPPM_pos (Player.skillLevel opponent)) as Ho.
  rewrite !ndiv_Fin by lra.
  cbn. apply clamp_between. lra.
Qed.

(** Names the factor and the added data points of each of the four
    blocks of [calculateWinProbability]. *)
Ltac destruct_blocks :=
  destruct (winPercentageDelta_block _ _) as [f2 a2];
  destruct (headToHeadRecord_block _) as [f3 a3];
  destruct (recentFormTrend_block _ _ _ _) as [f4 a4];
  destruct (ppmEfficiency_block _ _ _ _) as [f5 a5].

(** The five factors of a result are rationals; four of them lie within
    the bounds of their clamps. *)
Lemma factors_finite
  (player : Player.t) (playerStats : option PlayerStats.t)
  (opponent : Player.t) (opponentStats : option PlayerStats.t)
  (headToHead : option HeadToHead.t)
  (recentPlayerStats recentOpponentStats : option (list PlayerStats.t)) :
  let f := factors (calculateWinProbability player playerStats opponent
                      opponentStats headToHead recentPlayerStats
                      recentOpponentStats) in
  between 0.2 0.8 (skillLevelAdvantage f)
  /\ between 0.2 0.8 (winPercentageDelta f)
  /\ finite (headToHeadRecord f)
  /\ between 0.3 0.7 (recentFormTrend f)
  /\ between 0.3 0.7 (ppmEfficiency f).
Proof.
  unfold calculateWinProbability.
  pose proof (winPercentageDelta_block_between playerStats opponentStats) as H2.
  pose proof (headToHeadRecord_block_finite headToHead) as H3.
  pose proof (recentFormTrend_block_between playerStats opponentStats
                recentPlayerStats recentOpponentStats) as H4.
  pose proof (ppmEfficiency_block_between player opponent playerStats
                opponentStats) as H5.
  destruct_blocks.
  cbn in *. repeat split; try assumption.
  apply getBaseWinProbability_between.
Qed.

Lemma weightedProbability_finite (f : WinProbabilityFactors) :
  finite (skillLevelAdvantage f) -> finite (winPercentageDelta f) ->
  finite (headToHeadRecord f) -> finite (recentFormTrend f) ->
  finite (ppmEfficiency f) ->
  finite (weightedProbability f).
Proof.
  intros [q1 E1] [q2 E2] [q3 E3] [q4 E4] [q5 E5].
  unfold weightedProbability. rewrite E1, E2, E3, E4, E5.
  eexists. reflexivity.
Qed.

Lemma probability_is_clamp
  (player : Player.t) (playerStats : option PlayerStats.t)
  (opponent : Player.t) (opponentStats : option PlayerStats.t)
  (headToHead : option HeadToHead.t)
  (recentPlayerStats recentOpponentStats : option (list PlayerStats.t)) :
  let r := calculateWinProbability player playerStats opponent
             opponentStats headToHead recentPlayerStats
             recentOpponentStats in
  probability r
  = Math_max 0.15 (Math_min 0.85 (weightedProbability (factors r))).
Proof.
  unfold calculateWinProbability.
  destruct_blocks.
  reflexivity.
Qed.

(** The weighted sum of the factors of a result is a rational. *)
Lemma weightedProbability_result_finite
  (player : Player.t) (playerStats : option PlayerStats.t)
  (opponent : Player.t) (opponentStats : option PlayerStats.t)
  (headToHead : option HeadToHead.t)
  (recentPlayerStats recentOpponentStats : option (list PlayerStats.t)) :
  finite (weightedProbability
            (factors (calculateWinProbability player playerStats opponent
                        opponentStats headToHead recentPlayerStats
                        recentOpponentStats))).
Proof.
  destruct (factors_finite player playerStats opponent opponentStats
              headToHead recentPlayerStats recentOpponentStats)
    as [H1 [H2 [H3 [H4 H5]]]].
  apply weightedProbability_finite;
    try assumption; eapply between_finite; eassumption.
Qed.

Lemma probability_between
  (player : Player.t) (playerStats : option PlayerStats.t)
  (opponent : Player.t) (opponentStats : option PlayerStats.t)
  (headToHead : option HeadToHead.t)
  (recentPlayerStats recentOpponentStats : option (list PlayerStats.t)) :
  between 0.15 0.85
    (probability (calculateWinProbability player playerStats opponent
                    opponentStats headToHead recentPlayerStats
                    recentOpponentStats)).
Proof.
  rewrite probability_is_clamp.
  destruct (weightedProbability_result_finite player playerStats opponent
              opponentStats headToHead recentPlayerStats recentOpponentStats)
    as [w Ew].
  rewrite Ew. apply clamp_between. lra.
Qed.

Lemma factors_blocks
  (player : Player.t) (playerStats : option PlayerStats.t)
  (opponent : Player.t) (opponentStats : option PlayerStats.t)
  (headToHead : option HeadToHead.t)
  (recentPlayerStats recentOpponentStats : option (list PlayerStats.t)) :
  factors (calculateWinProbability player playerStats opponent
             opponentStats headToHead recentPlayerStats recentOpponentStats)
  = mkFactors
      (getBaseWinProbability (Player.skillLevel player)
         (Player.skillLevel opponent))
      (fst (winPercentageDelta_block playerStats opponentStats))
      (fst (headToHeadRecord_block headToHead))
      (fst (recentFormTrend_block playerStats opponentStats
              recentPlayerStats recentOpponentStats))
      (fst (ppmEfficiency_block player opponent playerStats opponentStats)).
Proof.
  unfold calculateWinProbability.
  destruct_blocks.
  reflexivity.
Qed.

Lemma dataPoints_blocks
  (player : Player.t) (playerStats : option PlayerStats.t)
  (opponent : Player.t) (opponentStats : option PlayerStats.t)
  (headToHead : option HeadToHead.t)
  (recentPlayerStats recentOpponentStats : option (list PlayerStats.t)) :
  dataPoints (calculateWinProbability player playerStats opponent
                opponentStats headToHead recentPlayerStats
                recentOpponentStats)
  = (1 + snd (winPercentageDelta_block playerStats opponentStats)
     + snd (headToHeadRecord_block headToHead)
     + snd (recentFormTrend_block playerStats opponentStats
              recentPlayerStats recentOpponentStats)
     + snd (ppmEfficiency_block player opponent playerStats opponentStats))%Z.
Proof.
  unfold calculateWinProbability.
  destruct_blocks.
  reflexivity.
Qed.

Lemma Math_min_Qmin (a b : Q) :
  exists m, Math_min (Fin a) (Fin b) = Fin m /\ m == Qmin a b.
Proof.
  unfold Math_min. cbn.
  destruct (Qlt_bool b a) eqn:E.
  - apply Qlt_bool_iff in E. exists b. split; [reflexivity |].
    symmetry. apply Q.min_r. lra.
  - apply Qlt_bool_false_iff in E. exists a. split; [reflexivity |].
    symmetry. apply Q.min_l. exact E.
Qed.

(** The head-to-head factor of a record: neutral without a game, else the
    win rate regressed toward 0.5 by [min(totalGames / 10, 1)]. *)
Lemma headToHeadRecord_block_formula (h : HeadToHead.t) :
  exists f : Q,
    fst (headToHeadRecord_block (Some h)) = Fin f
    /\ f == (if (0 <? HeadToHead.totalGames h)%Z
             then 0.5 + (inject_Z (HeadToHead.wins h)
                         / inject_Z (HeadToHead.totalGames h) - 0.5)
                        * Qmin (inject_Z (HeadToHead.totalGames h) / 10) 1
             else 0.5).
Proof.
  unfold headToHeadRecord_block.
  rewrite Z.gtb_ltb.
  destruct (0 <? HeadToHead.totalGames h)%Z eqn:G.
  - apply Z.ltb_lt in G. cbv zeta. unfold ofZ.
    rewrite !ndiv_Fin by (try apply inject_Z_nonzero; try lia; lra).
    destruct (Math_min_Qmin (inject_Z (HeadToHead.totalGames h) / 10) 1)
      as [m [Em Hm]].
    rewrite Em. cbn. eexists. split; [reflexivity |].
    rewrite Hm. ring.
  - exists 0.5. split; reflexivity.
Qed.

(** C7.  In [calculateWinProbability], a head-to-head record of 1 win and
    0 losses (1 game) yields a head-to-head factor strictly between 0.5
    and 1.0, and closer to 0.5 than the factor that a record of 9 wins and
    1 loss (10 games) yields; for every record with at least one game the
    factor is [0.5 + (wins / totalGames - 0.5) * min(totalGames / 10, 1)]
    (and the neutral 0.5 for a record without a game). *)
Theorem headToHead_regression
  (player : Player.t) (playerStats : option PlayerStats.t)
  (opponent : Player.t) (opponentStats : option PlayerStats.t)
  (recentPlayerStats recentOpponentStats : option (list PlayerStats.t))
  (playerId opponentId lastPlayed : Z) (avgScored avgNeeded : number) :
  let factor h :=
    headToHeadRecord
      (factors (calculateWinProbability player playerStats opponent
                  opponentStats (Some h) recentPlayerStats
                  recentOpponentStats)) in
  let record totalGames wins losses :=
    HeadToHead.mk playerId opponentId totalGames wins losses
      avgScored avgNeeded lastPlayed in
  (exists f1 f9 : Q,
      factor (record 1 1 0)%Z = Fin f1
      /\ factor (record 10 9 1)%Z = Fin f9
      /\ 0.5 < f1 < 1
      /\ Qabs (f1 - 0.5) < Qabs (f9 - 0.5))
  /\ (forall h : HeadToHead.t,
        exists f : Q,
          factor h = Fin f
          /\ f == (if (0 <? HeadToHead.totalGames h)%Z
                   then 0.5 + (inject_Z (HeadToHead.wins h)
                               / inject_Z (HeadToHead.totalGames h) - 0.5)
                              * Qmin (inject_Z (HeadToHead.totalGames h) / 10) 1
                   else 0.5)).
Proof.
  intros factor record. subst factor record. cbv beta.
  split.
  - rewrite !factors_blocks. cbn [headToHeadRecord].
    eexists. eexists.
    split; [reflexivity |]. split; [reflexivity |].
    split; [split; reflexivity | reflexivity].
  - intro h. rewrite factors_blocks. cbn [headToHeadRecord].
    apply headToHeadRecord_block_formula.
Qed.

(** C8.  For two players of equal skill level and no optional data (no
    current-period statistics, no head-to-head record, no recent-statistics
    arrays), the five factors of [calculateWinProbability] all equal 0.5,
    the weighted probability is exactly 0.5 before the final clamp and
    after it, and [dataPoints] is 1. *)
Theorem equal_skill_no_data_neutral (player opponent : Player.t) :
  Player.skillLevel player = Player.skillLevel opponent ->
  let r := calculateWinProbability player None opponent None None None None in
  ((skillLevelAdvantage (factors r) == 0.5)%num
   /\ (winPercentageDelta (factors r) == 0.5)%num
   /\ (headToHeadRecord (factors r) == 0.5)%num
   /\ (recentFormTrend (factors r) == 0.5)%num
   /\ (ppmEfficiency (factors r) == 0.5)%num)
  /\ (weightedProbability (factors r) == 0.5)%num
  /\ (probability r == 0.5)%num
  /\ dataPoints r = 1%Z.
Proof.
  intros Hs r.
  assert (B : (getBaseWinProbability (Player.skillLevel player)
                 (Player.skillLevel opponent) == 0.5)%num).
  { rewrite Hs. apply getBaseWinProbability_equal. }
  assert (W : (weightedProbability (factors r) == 0.5)%num).
  { subst r. rewrite factors_blocks. cbn [fst winPercentageDelta_block
      headToHeadRecord_block recentFormTrend_block ppmEfficiency_block].
    destruct (getBaseWinProbability _ _) as [b | | |]; try contradiction.
    cbn in *. rewrite B. reflexivity. }
  split; [| split; [exact W | split]].
  - subst r. rewrite factors_blocks. cbn. 
    repeat split; try reflexivity. exact B.
  - subst r. rewrite probability_is_clamp.
    destruct (weightedProbability _) as [w | | |]; try contradiction.
    cbn in W.
    destruct (clamp_spec 0.15 0.85 w) as [c [Ec [_ Ic]]]; [lra |].
    rewrite Ec. cbn. rewrite Ic; [exact W | lra].
  - subst r. rewrite dataPoints_blocks. reflexivity.
Qed.

(** C8 at two skill-level-5 players. *)
Lemma equal_skill_no_data_neutral_witness :
  let player := Player.mk 1 "Ann" 5 0 0 0 0 0 in
  let opponent := Player.mk 2 "Bob" 5 0 0 0 0 0 in
  let r := calculateWinProbability player None opponent None None None None in
  Player.skillLevel player = Player.skillLevel opponent
  /\ (probability r == 0.5)%num /\ dataPoints r = 1%Z.
Proof.
  split; [reflexivity |].
  apply (equal_skill_no_data_neutral
           (Player.mk 1 "Ann" 5 0 0 0 0 0) (Player.mk 2 "Bob" 5 0 0 0 0 0)).
  reflexivity.
Defined.

(* ================================================================= *)
(** ** The short-circuits of [calculateMatchWinProbability] *)

(** C2, as the code has it.  Whatever the remaining players and the
    head-to-head map, [calculateMatchWinProbability] returns exactly 1 when
    [ourScore >= 3], and exactly 0 when [theirScore >= 3] and
    [ourScore < 3]: our side is tested first. *)
Theorem calculateMatchWinProbability_decided
  (ourScore theirScore : Z)
  (ourRemainingPlayers : list MatchupInput.t)
  (theirRemainingPlayers : list OpponentInput)
  (headToHeadData : HeadToHeadData) :
  ((3 <= ourScore)%Z ->
   calculateMatchWinProbability ourScore theirScore ourRemainingPlayers
     theirRemainingPlayers headToHeadData = Fin 1)
  /\ ((3 <= theirScore)%Z -> (ourScore < 3)%Z ->
      calculateMatchWinProbability ourScore theirScore ourRemainingPlayers
        theirRemainingPlayers headToHeadData = Fin 0).
Proof.
  unfold calculateMatchWinProbability. split.
  - intro H. destruct (3 - ourScore <=? 0)%Z eqn:E; [reflexivity |].
    apply Z.leb_gt in E. lia.
  - intros Ht Ho. destruct (3 - ourScore <=? 0)%Z eqn:E.
    + apply Z.leb_le in E. lia.
    + destruct (3 - theirScore <=? 0)%Z eqn:E'; [reflexivity |].
      apply Z.leb_gt in E'. lia.
Qed.

(** C2 at the scores 3-1 and 2-4. *)
Lemma calculateMatchWinProbability_decided_witness :
  ((3 <= 3)%Z /\ calculateMatchWinProbability 3 1 [] [] [] = Fin 1)
  /\ ((3 <= 4)%Z /\ (2 < 3)%Z
      /\ calculateMatchWinProbability 2 4 [] [] [] = Fin 0).
Proof.
  split.
  - split; [lia |].
    apply (proj1 (calculateMatchWinProbability_decided 3 1 [] [] [])). lia.
  - split; [lia |]. split; [lia |].
    apply (proj2 (calculateMatchWinProbability_decided 2 4 [] [] [])); lia.
Defined.

(** C2, counterexample.  With both scores at 3 the result is 1, although
    [theirScore >= 3]. *)
Lemma calculateMatchWinProbability_both_at_3 :
  (3 >= 3)%Z
  /\ calculateMatchWinProbability 3 3 [] [] [] = Fin 1
  /\ ~ (Fin 1 == Fin 0)%num.
Proof.
  split; [lia |]. split; [reflexivity |].
  cbn. intro H. discriminate H.
Qed.

(* ================================================================= *)
(** ** Availability *)

Lemma includes_In (ids : list Z) (x : Z) :
  includes ids x = true <-> In x ids.
Proof.
  unfold includes. rewrite existsb_exists. split.
  - intros [y [Hy E]]. apply Z.eqb_eq in E. subst y. exact Hy.
  - intro H. exists x. split; [exact H | apply Z.eqb_refl].
Qed.

Lemma assignedIds_In (side : LiveGame.t -> option Z)
  (games : list LiveGame.t) (x : Z) :
  In x (assignedIds side games) <-> exists g, In g games /\ side g = Some x.
Proof.
  unfold assignedIds. rewrite in_flat_map. split.
  - intros [g [Hg Hx]]. exists g. split; [exact Hg |].
    destruct (side g) as [i |]; simpl in Hx; [| contradiction].
    destruct Hx as [E | []]. subst i. reflexivity.
  - intros [g [Hg E]]. exists g. split; [exact Hg |].
    rewrite E. left. reflexivity.
Qed.

Lemma not_includes_assignedIds (games : list LiveGame.t) (x : Z) :
  negb (includes (assignedIds LiveGame.ourPlayerId games) x)
  = forallb (fun g => negb (assigns g x)) games.
Proof.
  unfold includes, assignedIds, assigns.
  induction games as [| g games IH]; [reflexivity |].
  simpl. rewrite existsb_app, negb_orb, IH. f_equal.
  destruct (LiveGame.ourPlayerId g) as [i |]; simpl; [| reflexivity].
  rewrite orb_false_r. reflexivity.
Qed.

(** C5, as the code has it.  A player is in the list that
    [getAvailablePlayers] returns if and only if it is one of the present
    players and no game slot, whatever its result, has that player
    assigned as [ourPlayerId]; the players come in the order of
    [presentPlayers]. *)
Theorem getAvailablePlayers_spec
  (presentPlayers : list Player.t) (liveMatch : LiveMatch.t) :
  (forall p : Player.t,
      In p (getAvailablePlayers presentPlayers liveMatch)
      <-> In p presentPlayers
          /\ forall g, In g (LiveMatch.games liveMatch) ->
                       LiveGame.ourPlayerId g <> Some (Player.id p))
  /\ getAvailablePlayers presentPlayers liveMatch
     = filter (fun p => forallb (fun g => negb (assigns g (Player.id p)))
                          (LiveMatch.games liveMatch))
         presentPlayers.
Proof.
  split.
  - intro p. unfold getAvailablePlayers. rewrite filter_In.
    rewrite negb_true_iff.
    split; intros [Hp H]; (split; [exact Hp |]).
    + intros g Hg E.
      assert (I : includes (assignedIds LiveGame.ourPlayerId
                              (LiveMatch.games liveMatch)) (Player.id p)
                  = true).
      { apply includes_In, assignedIds_In. exists g. split; assumption. }
      congruence.
    + destruct (includes _ _) eqn:I; [| reflexivity].
      apply includes_In, assignedIds_In in I.
      destruct I as [g [Hg E]]. exfalso. exact (H g Hg E).
  - unfold getAvailablePlayers. apply filter_ext. intro p.
    apply not_includes_assignedIds.
Qed.

(** C5, counterexample.  A slot with a player assigned and the game still
    pending: the player is present, no non-pending slot has her, and yet
    she is not available. *)
Lemma getAvailablePlayers_pending_slot :
  let liveMatch :=
    LiveMatch.mk [1%Z] [] [LiveGame.mk 1 (Some 1%Z) None pending] 1 0 0 in
  In ann [ann]
  /\ (forall g, In g (LiveMatch.games liveMatch) ->
                LiveGame.result g <> pending ->
                LiveGame.ourPlayerId g <> Some (Player.id ann))
  /\ getAvailablePlayers [ann] liveMatch = [].
Proof.
  split; [left; reflexivity |]. split; [| reflexivity].
  intros g [E | []] R. subst g. simpl in R. congruence.
Qed.

Example getAvailablePlayers_example :
  map Player.name
    (getAvailablePlayers [ann; Player.mk 2 "Bob" 4 0 0 0 0 0]
       (LiveMatch.mk [1; 2]%Z []
          [ LiveGame.mk 1 (Some 2%Z) (Some 7%Z) win;
            LiveGame.mk 2 None None pending ] 2 1 0))
  = [ "Ann"%string ].
Proof. reflexivity. Qed.

(* ================================================================= *)
(** ** Head-to-head records: wins + losses = totalGames *)

Section MapInvariant.
Context {V : Type}.
Variable P : V -> Prop.

Lemma JSMap_get_Forall (m : JSMap.t V) (k : string) (v : V) :
  Forall P (JSMap.values m) -> JSMap.get m k = Some v -> P v.
Proof.
  unfold JSMap.values.
  induction m as [| [k' v'] m IH]; simpl; intros F G; [discriminate |].
  inversion F as [| ? ? Hv Hm]; subst.
  destruct (String.eqb k' k).
  - injection G as <-. exact Hv.
  - apply IH; assumption.
Qed.

Lemma JSMap_set_Forall (m : JSMap.t V) (k : string) (v : V) :
  Forall P (JSMap.values m) -> P v -> Forall P (JSMap.values (JSMap.set m k v)).
Proof.
  unfold JSMap.values.
  induction m as [| [k' v'] m IH]; simpl; intros F Hv.
  - constructor; [exact Hv | constructor].
  - inversion F as [| ? ? Hv' Hm]; subst.
    destruct (String.eqb k' k); simpl; constructor; auto.
Qed.
End MapInvariant.

Lemma fold_left_invariant {S X : Type} (I : S -> Prop) (f : S -> X -> S) :
  (forall s x, I s -> I (f s x)) ->
  forall (l : list X) (s : S), I s -> I (fold_left f l s).
Proof.
  intros step l. induction l as [| x l IH]; simpl; intros s Hs.
  - exact Hs.
  - apply IH, step, Hs.
Qed.

Lemma recordGame_balanced (m : JSMap.t HeadToHead.t) (game : GameResult.t) :
  Forall balanced (JSMap.values m) ->
  Forall balanced (JSMap.values (recordGame m game)).
Proof.
  intro F. unfold recordGame.
  apply JSMap_set_Forall; [exact F |].
  destruct (JSMap.get m _) as [h |] eqn:G.
  - pose proof (JSMap_get_Forall balanced m _ h F G) as B.
    unfold balanced in *. cbn. destruct (GameResult.won game); lia.
  - unfold balanced. cbn. destruct (GameResult.won game); reflexivity.
Qed.

Lemma syncHeadToHeadItem_balanced (playerId : Z)
  (m : JSMap.t HeadToHead.t) (item : MatchHistoryItem.t) :
  Forall balanced (JSMap.values m) ->
  Forall balanced (JSMap.values (syncHeadToHeadItem playerId m item)).
Proof.
  intro F. unfold syncHeadToHeadItem.
  destruct (JSMap.get m _) as [h |] eqn:G;
    (apply JSMap_set_Forall; [exact F |]).
  - pose proof (JSMap_get_Forall balanced m _ h F G) as B.
    unfold balanced in *. cbn. destruct (MatchHistoryItem.won item); lia.
  - unfold balanced. cbn. destruct (MatchHistoryItem.won item); reflexivity.
Qed.

(** C9.  Every head-to-head record that [buildHeadToHeadRecords] returns,
    and every record of the map that the sync accumulates, has
    [wins + losses = totalGames], whatever the list of game results. *)
Theorem headToHead_records_balanced :
  (forall gameResults : list GameResult.t,
      Forall balanced (buildHeadToHeadRecords gameResults))
  /\ (forall histories : list (option PlayerHistory.t),
        Forall balanced (JSMap.values (syncHeadToHead histories))).
Proof.
  split.
  - intro gameResults. unfold buildHeadToHeadRecords.
    apply (fold_left_invariant
             (fun m => Forall balanced (JSMap.values m)) recordGame).
    + intros m g. apply recordGame_balanced.
    + constructor.
  - intro histories. unfold syncHeadToHead.
    apply (fold_left_invariant
             (fun m => Forall balanced (JSMap.values m))).
    + intros m [h |] F; [| exact F].
      destruct (PlayerHistory.matchHistory h) as [items |]; [| exact F].
      apply (fold_left_invariant
               (fun m => Forall balanced (JSMap.values m))).
      * intros m' item. apply syncHeadToHeadItem_balanced.
      * exact F.
    + constructor.
Qed.

(* ================================================================= *)
(** ** The best opener *)

Lemma length_of_cons {A : Type} (x : A) (l : list A) :
  length_of (x :: l) = (length_of l + 1)%Z.
Proof. unfold length_of. simpl List.length. lia. Qed.

Lemma length_of_nonneg {A : Type} (l : list A) : (0 <= length_of l)%Z.
Proof. unfold length_of. lia. Qed.

Lemma length_of_zero {A : Type} (l : list A) :
  (length_of l =? 0)%Z = true <-> l = [].
Proof.
  rewrite Z.eqb_eq. unfold length_of.
  destruct l; simpl; split; intro H; try reflexivity; try discriminate; lia.
Qed.

Lemma length_of_positive {A : Type} (l : list A) :
  l <> [] -> 0 < inject_Z (length_of l).
Proof.
  intro H. destruct l as [| x l]; [contradiction |].
  rewrite length_of_cons. pose proof (length_of_nonneg l) as N.
  change 0 with (inject_Z 0). rewrite <- Zlt_Qlt. lia.
Qed.

Lemma openerAccumulate_total (playerInput : MatchupInput.t)
  (headToHeadData : HeadToHeadData) (acc : Q) (f : WinProbabilityFactors)
  (opponent : OpponentInput) :
  exists (p : Q) (f' : WinProbabilityFactors),
    openerAccumulate playerInput headToHeadData (Fin acc, f) opponent
    = (Fin (acc + p), f')
    /\ 0.15 <= p <= 0.85.
Proof.
  unfold openerAccumulate. cbv zeta.
  destruct (probability_between
              (MatchupInput.player playerInput)
              (MatchupInput.stats playerInput)
              (MatchupInput.player opponent) (MatchupInput.stats opponent)
              (JSMap.get headToHeadData
                 (h2hKey (Player.id (MatchupInput.player playerInput))
                    (Player.id (MatchupInput.player opponent))))
              (MatchupInput.recentStats playerInput)
              (MatchupInput.recentStats opponent)) as [p [Ep Bp]].
  rewrite Ep. exists p. eexists. split; [reflexivity | exact Bp].
Qed.

(** The total of one player's probabilities over the opponents is a
    rational of at least 0.15 and at most 0.85 per opponent. *)
Lemma openerTotals_total (playerInput : MatchupInput.t)
  (opponents : list OpponentInput) (headToHeadData : HeadToHeadData) :
  exists t : Q,
    fst (openerTotals playerInput opponents headToHeadData) = Fin t
    /\ 0.15 * inject_Z (length_of opponents) <= t
       <= 0.85 * inject_Z (length_of opponents).
Proof.
  unfold openerTotals.
  assert (G : forall (acc : Q) (f : WinProbabilityFactors),
             exists t : Q,
               fst (fold_left (openerAccumulate playerInput headToHeadData)
                      opponents (Fin acc, f)) = Fin t
               /\ acc + 0.15 * inject_Z (length_of opponents) <= t
                  <= acc + 0.85 * inject_Z (length_of opponents)).
  { induction opponents as [| o opponents IH]; intros acc f.
    - exists acc. split; [reflexivity |].
      change (inject_Z (length_of [])) with 0. lra.
    - cbn [fold_left].
      destruct (openerAccumulate_total playerInput headToHeadData acc f o)
        as [p [f' [E Bp]]].
      rewrite E. destruct (IH (acc + p) f') as [t [Et Bt]].
      exists t. split; [exact Et |].
      rewrite length_of_cons, inject_Z_plus.
      change (inject_Z 1) with 1. lra. }
  destruct (G 0 zeroFactors) as [t [Et Bt]].
  exists t. split; [exact Et | lra].
Qed.

Lemma round2_finite (q : Q) : finite (round2 (Fin q)).
Proof. eexists. reflexivity. Qed.

Lemma openerStep_average (opponents : list OpponentInput)
  (headToHeadData : HeadToHeadData) (playerInput : MatchupInput.t) :
  opponents <> [] ->
  exists a : Q,
    (fst (openerTotals playerInput opponents headToHeadData)
     / ofZ (length_of opponents))%num = Fin a
    /\ 0.15 <= a <= 0.85.
Proof.
  intro N. pose proof (length_of_positive opponents N) as L.
  destruct (openerTotals_total playerInput opponents headToHeadData)
    as [t [Et Bt]].
  rewrite Et. unfold ofZ. rewrite ndiv_Fin by lra.
  eexists. split; [reflexivity |]. split.
  - apply Qle_shift_div_l; [exact L | lra].
  - apply Qle_shift_div_r; [exact L | lra].
Qed.

Lemma openerStep_chosen (opponents : list OpponentInput)
  (headToHeadData : HeadToHeadData)
  (state : number * option MatchupRecommendation.t)
  (playerInput : MatchupInput.t) :
  opponents <> [] ->
  chosen state \/ state = (Fin 0, None) ->
  chosen (openerStep opponents headToHeadData state playerInput).
Proof.
  intros N H. unfold openerStep.
  destruct (openerStep_average opponents headToHeadData playerInput N)
    as [a [Ea Ba]].
  destruct state as [best bestPlayer].
  destruct (openerTotals playerInput opponents headToHeadData)
    as [total playerFactors].
  cbn [fst] in Ea. rewrite Ea.
  destruct H as [C | E].
  - destruct (Fin a >? best)%num.
    + eexists. split; [reflexivity | apply round2_finite].
    + exact C.
  - injection E as -> ->.
    assert (G : (Fin a >? Fin 0)%num = true).
    { apply Qlt_bool_iff. lra. }
    rewrite G. eexists. split; [reflexivity | apply round2_finite].
Qed.

Lemma getBestOpener_nonempty
  (availablePlayers : list MatchupInput.t) (opponents : list OpponentInput)
  (headToHeadData : HeadToHeadData) :
  availablePlayers <> [] -> opponents <> [] ->
  exists r : MatchupRecommendation.t,
    getBestOpener availablePlayers opponents headToHeadData = Some r
    /\ finite (MatchupRecommendation.winProbability r).
Proof.
  intros Np No. unfold getBestOpener.
  destruct (length_of availablePlayers =? 0)%Z eqn:Ep.
  { apply length_of_zero in Ep. contradiction. }
  destruct (length_of opponents =? 0)%Z eqn:Eo.
  { apply length_of_zero in Eo. contradiction. }
  cbn [orb].
  destruct availablePlayers as [| p players]; [contradiction |].
  cbn [fold_left].
  apply (fold_left_invariant chosen).
  - intros s x C. apply openerStep_chosen; [exact No | left; exact C].
  - apply openerStep_chosen; [exact No | right; reflexivity].
Qed.

Lemma getBestOpener_empty
  (availablePlayers : list MatchupInput.t) (opponents : list OpponentInput)
  (headToHeadData : HeadToHeadData) :
  availablePlayers = [] \/ opponents = [] ->
  getBestOpener availablePlayers opponents headToHeadData = None.
Proof.
  intro H. unfold getBestOpener.
  destruct H as [-> | ->]; [reflexivity |].
  change (length_of []) with 0%Z. cbn [Z.eqb].
  rewrite orb_true_r. reflexivity.
Qed.

(* ================================================================= *)
(** ** Ranking: [Array.prototype.sort] by descending win probability *)

Lemma sorts_after_desc (x y : MatchupRecommendation.t) (a b : Q) :
  MatchupRecommendation.winProbability x = Fin a ->
  MatchupRecommendation.winProbability y = Fin b ->
  sorts_after byWinProbabilityDesc x y = Qlt_bool a b.
Proof.
  intros Ex Ey. unfold sorts_after, byWinProbabilityDesc.
  rewrite Ex, Ey. cbn.
  destruct (Qlt_bool a b) eqn:E.
  - apply Qlt_bool_iff in E. apply Qlt_bool_iff. lra.
  - apply Qlt_bool_false_iff in E. apply Qlt_bool_false_iff. lra.
Qed.

Lemma sort_insert_In {A : Type} (cmp : A -> A -> number) (x z : A)
  (l : list A) :
  In z (sort_insert cmp x l) -> z = x \/ In z l.
Proof.
  induction l as [| y l IH]; simpl.
  - intros [E | []]. left. symmetry. exact E.
  - destruct (sorts_after cmp x y); simpl.
    + intros [E | H]; [right; left; exact E |].
      destruct (IH H) as [E | H']; [left; exact E | right; right; exact H'].
    + intros [E | H]; [left; symmetry; exact E | right; exact H].
Qed.

Lemma sort_insert_Permutation {A : Type} (cmp : A -> A -> number) (x : A)
  (l : list A) :
  Permutation (sort_insert cmp x l) (x :: l).
Proof.
  induction l as [| y l IH]; simpl.
  - apply Permutation_refl.
  - destruct (sorts_after cmp x y).
    + apply Permutation_trans with (y :: x :: l).
      * apply perm_skip. exact IH.
      * apply perm_swap.
    + apply Permutation_refl.
Qed.

Lemma Array_sort_Permutation {A : Type} (cmp : A -> A -> number)
  (l : list A) :
  Permutation (Array_sort cmp l) l.
Proof.
  induction l as [| x l IH]; simpl.
  - apply perm_nil.
  - apply Permutation_trans with (x :: Array_sort cmp l).
    + apply sort_insert_Permutation.
    + apply perm_skip. exact IH.
Qed.

Lemma notBelow_trans (a b c : MatchupRecommendation.t) :
  notBelow a b -> notBelow b c -> notBelow a c.
Proof.
  unfold notBelow, nge.
  destruct (MatchupRecommendation.winProbability a) as [qa | | |],
           (MatchupRecommendation.winProbability b) as [qb | | |],
           (MatchupRecommendation.winProbability c) as [qc | | |];
    cbn; try reflexivity; try discriminate.
  rewrite !Qle_bool_iff. intros. lra.
Qed.

Lemma sort_insert_sorted (x : MatchupRecommendation.t)
  (l : list MatchupRecommendation.t) :
  finiteProbability x -> Forall finiteProbability l ->
  StronglySorted notBelow l ->
  StronglySorted notBelow (sort_insert byWinProbabilityDesc x l).
Proof.
  intros [a Ea] F S.
  induction S as [| y l S IH B]; simpl.
  - constructor; [constructor | constructor].
  - inversion F as [| ? ? [b Eb] Fl]; subst.
    rewrite (sorts_after_desc x y a b Ea Eb).
    destruct (Qlt_bool a b) eqn:E.
    + apply Qlt_bool_iff in E.
      constructor; [apply IH; exact Fl |].
      apply Forall_forall. intros z Hz.
      destruct (sort_insert_In _ _ _ _ Hz) as [-> | Hl].
      * unfold notBelow. rewrite Ea, Eb. cbn. apply Qle_bool_iff. lra.
      * rewrite Forall_forall in B. apply B, Hl.
    + apply Qlt_bool_false_iff in E.
      assert (Bxy : notBelow x y).
      { unfold notBelow. rewrite Ea, Eb. cbn. apply Qle_bool_iff. exact E. }
      constructor; [constructor; assumption |].
      constructor; [exact Bxy |].
      apply Forall_forall. intros z Hz.
      rewrite Forall_forall in B.
      apply notBelow_trans with y; [exact Bxy | apply B, Hz].
Qed.

Lemma Array_sort_finite (l : list MatchupRecommendation.t) :
  Forall finiteProbability l ->
  Forall finiteProbability (Array_sort byWinProbabilityDesc l).
Proof.
  intro F. rewrite Forall_forall in *. intros z Hz. apply F.
  apply Permutation_in with (Array_sort byWinProbabilityDesc l);
    [apply Array_sort_Permutation | exact Hz].
Qed.

Lemma Array_sort_sorted (l : list MatchupRecommendation.t) :
  Forall finiteProbability l ->
  StronglySorted notBelow (Array_sort byWinProbabilityDesc l).
Proof.
  induction l as [| x l IH]; intro F; simpl.
  - constructor.
  - inversion F as [| ? ? Fx Fl]; subst.
    apply sort_insert_sorted;
      [exact Fx | apply Array_sort_finite; exact Fl | apply IH; exact Fl].
Qed.

(** Two recommendations that the sort exchanges differ in probability, so
    the recommendations of any one probability keep their order. *)
Lemma sort_insert_stable (q : number) (x : MatchupRecommendation.t)
  (l : list MatchupRecommendation.t) :
  finiteProbability x -> Forall finiteProbability l ->
  filter (hasProbability q) (sort_insert byWinProbabilityDesc x l)
  = filter (hasProbability q) (x :: l).
Proof.
  intros [a Ea] F.
  induction F as [| y l [b Eb] Fl IH]; [reflexivity |].
  cbn [sort_insert].
  rewrite (sorts_after_desc x y a b Ea Eb).
  destruct (Qlt_bool a b) eqn:E; [| reflexivity].
  apply Qlt_bool_iff in E.
  cbn [filter]. rewrite IH. cbn [filter].
  unfold hasProbability. rewrite Ea, Eb.
  destruct q as [c | | |]; cbn; try reflexivity.
  destruct (Qeq_bool a c) eqn:Ac, (Qeq_bool b c) eqn:Bc; try reflexivity.
  apply Qeq_bool_iff in Ac. apply Qeq_bool_iff in Bc. lra.
Qed.

Lemma Array_sort_stable (q : number) (l : list MatchupRecommendation.t) :
  Forall finiteProbability l ->
  filter (hasProbability q) (Array_sort byWinProbabilityDesc l)
  = filter (hasProbability q) l.
Proof.
  induction l as [| x l IH]; intro F; [reflexivity |].
  inversion F as [| ? ? Fx Fl]; subst.
  cbn [Array_sort fold_right].
  change (fold_right (sort_insert byWinProbabilityDesc) [] l)
    with (Array_sort byWinProbabilityDesc l).
  rewrite sort_insert_stable; [| exact Fx | apply Array_sort_finite, Fl].
  cbn [filter]. rewrite (IH Fl). reflexivity.
Qed.

(** Statistics in range, on a concrete input. *)
Ltac in_range :=
  repeat match goal with
         | |- Forall _ [] => apply Forall_nil
         | |- Forall _ (_ :: _) => apply Forall_cons
         | |- inRange _ => unfold inRange, percentages; cbn
         | |- percentages _ _ => unfold percentages; cbn
         | |- percentage _ => unfold percentage; cbn; lra
         | |- _ /\ _ => split
         | |- True => exact I
         end.

(** Five players against a skill-level-5 opponent: B and E rank first with
    0.51, then A, C and D with 0.50, each group in input order. *)
Example ranking_with_ties :
  map MatchupRecommendation.playerName
    (getMatchupRecommendations
       [ plain 1 "A" 5; plain 2 "B" 7; plain 3 "C" 5; plain 4 "D" 2;
         plain 5 "E" 7 ]
       (plain 9 "Z" 5) [] 1 0 0)
  = [ "B"; "E"; "A"; "C"; "D" ]%string.
Proof. vm_compute. reflexivity. Qed.

(* ================================================================= *)
(** ** Copies and rounding *)

Lemma map_copyInput (l : list MatchupInput.t) : map copyInput l = l.
Proof.
  induction l as [| p l IH]; [reflexivity |].
  simpl. rewrite IH. destruct p. reflexivity.
Qed.

Lemma num_eq_refl (x : number) : (x == x)%num.
Proof. destruct x; cbn; trivial. reflexivity. Qed.

Lemma round_half_up_compat (q q' : Q) :
  q == q' -> round_half_up q = round_half_up q'.
Proof. intro E. unfold round_half_up. rewrite E. reflexivity. Qed.

(* ================================================================= *)
(** ** Averages over an empty list *)

Lemma fold_left_no_opponents {S X Y : Type} (f : X -> S -> Y -> S)
  (l : list X) (s : S) :
  fold_left (fun state x => fold_left (f x) [] state) l s = s.
Proof. induction l as [| x l IH]; simpl; [reflexivity | exact IH]. Qed.

(** The guarded averages: without players or without opponents,
    [getBestOpener] returns null, the blind path of
    [getThrowRecommendation] without players returns the empty list, and
    [calculateMatchWinProbability] falls back on the neutral average 0.5,
    which with no game left to play gives the lower bound 0.05 of its
    clamp (or 1 or 0, when the match is decided). *)
Lemma empty_lists_guarded
  (players : list MatchupInput.t) (opponents : list OpponentInput)
  (headToHeadData : HeadToHeadData) (liveMatch : LiveMatch.t)
  (ourScore theirScore : Z) :
  players = [] \/ opponents = [] ->
  getBestOpener players opponents headToHeadData = None
  /\ (players = [] ->
      getThrowRecommendation players opponents headToHeadData liveMatch None
      = [])
  /\ (let r := calculateMatchWinProbability ourScore theirScore players
                 opponents headToHeadData in
      r = Fin 1 \/ r = Fin 0 \/ r = Fin 0.05).
Proof.
  intro E. split; [apply getBestOpener_empty, E |].
  split; [intros ->; reflexivity |].
  unfold calculateMatchWinProbability. cbv zeta.
  destruct (3 - ourScore <=? 0)%Z eqn:Eo; [left; reflexivity |].
  destruct (3 - theirScore <=? 0)%Z eqn:Et; [right; left; reflexivity |].
  right; right. apply Z.leb_gt in Eo.
  assert (F : fold_left
                (fun state ourPlayer =>
                   fold_left (matchupAccumulate headToHeadData ourPlayer)
                     opponents state) players (Fin 0, 0%Z) = (Fin 0, 0%Z)).
  { destruct E as [-> | ->]; [reflexivity |].
    apply (fold_left_no_opponents (matchupAccumulate headToHeadData)). }
  rewrite F. cbn [Z.gtb Z.compare].
  assert (G : Z.min (length_of players) (length_of opponents) = 0%Z).
  { pose proof (length_of_nonneg players).
    pose proof (length_of_nonneg opponents).
    destruct E as [-> | ->]; change (length_of []) with 0%Z; lia. }
  rewrite G. unfold counter_values.
  replace (Z.to_nat (0 - (3 - ourScore) + 1)) with O by lia.
  reflexivity.
Qed.

Lemma Array_sort_NaN (l : list MatchupRecommendation.t) :
  Forall (fun r => MatchupRecommendation.winProbability r = NaN) l ->
  Array_sort byWinProbabilityDesc l = l.
Proof.
  induction 1 as [| x l Hx F IH]; [reflexivity |].
  cbn [Array_sort fold_right].
  change (fold_right (sort_insert byWinProbabilityDesc) [] l)
    with (Array_sort byWinProbabilityDesc l).
  rewrite IH. destruct F as [| y l Hy F]; [reflexivity |].
  cbn [sort_insert]. unfold sorts_after, byWinProbabilityDesc.
  rewrite Hx, Hy. reflexivity.
Qed.

(** C1 does not hold on the blind path of [getThrowRecommendation]: the
    average [totalProb / opponentPlayers.length] is not guarded.  With an
    empty list of opponents every available player gets a recommendation
    whose [winProbability] is NaN (0 / 0), where the specification asks
    for a defined, neutral value. *)
Theorem getThrowRecommendation_blind_no_opponents
  (availablePlayers : list MatchupInput.t)
  (headToHeadData : HeadToHeadData) (liveMatch : LiveMatch.t) :
  getThrowRecommendation availablePlayers [] headToHeadData liveMatch None
  = map undefinedRecommendation availablePlayers
  /\ Forall (fun r => MatchupRecommendation.winProbability r = NaN)
       (getThrowRecommendation availablePlayers [] headToHeadData liveMatch
          None).
Proof.
  assert (E : getThrowRecommendation availablePlayers [] headToHeadData
                liveMatch None
              = map undefinedRecommendation availablePlayers).
  { unfold getThrowRecommendation.
    assert (B : map (blindRecommendation [] headToHeadData liveMatch)
                  availablePlayers
                = map undefinedRecommendation availablePlayers).
    { apply map_ext. intro p. reflexivity. }
    rewrite B. apply Array_sort_NaN.
    apply Forall_forall. intros r Hr. apply in_map_iff in Hr.
    destruct Hr as [p [<- _]]. reflexivity. }
  split; [exact E |].
  rewrite E. apply Forall_forall. intros r Hr. apply in_map_iff in Hr.
  destruct Hr as [p [<- _]]. reflexivity.
Qed.

Example blind_throw_without_opponents :
  map MatchupRecommendation.winProbability
    (getThrowRecommendation [strongOpener] [] exampleHistory
       (LiveMatch.mk [1%Z] [] [] 1 0 0) None)
  = [NaN].
Proof. reflexivity. Qed.

Example buildHeadToHeadRecords_example :
  map (fun h => (HeadToHead.totalGames h, HeadToHead.wins h,
                 HeadToHead.losses h))
    (buildHeadToHeadRecords
       [ GameResult.mk 1 2 true 38 38 5;
         GameResult.mk 1 3 false 20 38 6;
         GameResult.mk 1 2 false 30 38 7 ])
  = [ (2, 1, 1); (1, 0, 1) ]%Z.
Proof. reflexivity. Qed.

(* ================================================================= *)
(** ** More on the skill-level tables *)

(** Case analysis on every [Qmin] and [Qmax] of the goal, innermost
    first, closing the cases by linear arithmetic. *)
Ltac qminmax :=
  repeat match goal with
         | |- context [Qmin ?a ?b] =>
             let M := fresh "M" in
             destruct (Q.min_spec a b) as [[? M] | [? M]]; rewrite M
         end;
  repeat match goal with
         | |- context [Qmax ?a ?b] =>
             let M := fresh "M" in
             destruct (Q.max_spec a b) as [[? M] | [? M]]; rewrite M
         end;
  try lra.

(** The value of a clamp, in one expression. *)
Lemma clamp_value (lo hi q : Q) :
  lo <= hi ->
  exists r, Math_max lo (Math_min hi (Fin q)) = Fin r
            /\ r == Qmax lo (Qmin hi q).
Proof.
  intro L. unfold Math_max, Math_min. simpl.
  destruct (Qlt_bool q hi) eqn:E1; simpl.
  - apply Qlt_bool_iff in E1.
    destruct (Qlt_bool lo q) eqn:E2.
    + apply Qlt_bool_iff in E2. exists q. split; [reflexivity |]. qminmax.
    + apply Qlt_bool_false_iff in E2. exists lo. split; [reflexivity |].
      qminmax.
  - apply Qlt_bool_false_iff in E1.
    destruct (Qlt_bool lo hi) eqn:E2.
    + exists hi. split; [reflexivity |]. qminmax.
    + apply Qlt_bool_false_iff in E2. exists lo. split; [reflexivity |].
      qminmax.
Qed.

Ltac in_table s :=
  let H := fresh "H" in
  assert (H : (s = 1 \/ s = 2 \/ s = 3 \/ s = 4 \/ s = 5 \/ s = 6
               \/ s = 7 \/ s = 8 \/ s = 9)%Z) by lia;
  repeat (destruct H as [H | H]); subst s.

Lemma table_miss (s : Z) :
  (s < 1 \/ 9 < s)%Z ->
  find (fun sl => (level sl =? s)%Z) NINE_BALL_SKILL_LEVELS = None.
Proof.
  intro H. cbv [find NINE_BALL_SKILL_LEVELS level].
  repeat match goal with
         | |- context [(?a =? s)%Z] =>
             let E := fresh "E" in
             destruct (a =? s)%Z eqn:E; [apply Z.eqb_eq in E; lia |]
         end.
  reflexivity.
Qed.

(** X1.  On the skill levels 1 to 9 the points needed and the expected
    points per match both grow strictly with the level; every other level
    gets the values of level 5 (38 points, 30 per match); and at every
    level the expected points per match are positive and below the points
    needed. *)
Theorem skill_tables_shape :
  (forall s t : Z,
      (1 <= s)%Z -> (s < t)%Z -> (t <= 9)%Z ->
      (getPointsNeeded s < getPointsNeeded t)%Z
      /\ getExpectedPPM s < getExpectedPPM t)
  /\ (forall s : Z,
        (s < 1 \/ 9 < s)%Z ->
        getPointsNeeded s = 38%Z /\ getExpectedPPM s = 30)
  /\ (forall s : Z,
        0 < getExpectedPPM s < inject_Z (getPointsNeeded s)).
Proof.
  split; [| split].
  - intros s t Hs Hst Ht.
    in_table s; in_table t; try lia; split; reflexivity.
  - intros s H. unfold getPointsNeeded, getExpectedPPM.
    rewrite (table_miss s H). split; reflexivity.
  - intro s. unfold getPointsNeeded, getExpectedPPM.
    table_cases s; split; reflexivity.
Qed.

Lemma Qdiv_sum_ge_2 (u v : Q) : 0 < u -> 0 < v -> 2 <= u / v + v / u.
Proof.
  intros Hu Hv.
  assert (E : u / v + v / u == 2 + (u - v) * (u - v) / (u * v)).
  { field. split; lra. }
  rewrite E.
  assert (P : 0 < u * v) by (apply Qmult_lt_0_compat; assumption).
  assert (S : 0 <= (u - v) * (u - v)).
  { destruct (Qlt_le_dec (u - v) 0) as [N | N].
    - setoid_replace ((u - v) * (u - v)) with ((v - u) * (v - u)) by ring.
      apply Qmult_le_0_compat; lra.
    - apply Qmult_le_0_compat; lra. }
  assert (D : 0 <= (u - v) * (u - v) / (u * v)).
  { apply Qle_shift_div_l; [exact P | lra]. }
  lra.
Qed.

Lemma pointsNeeded_Q_pos (s : Z) : 0 < inject_Z (getPointsNeeded s).
Proof.
  change 0 with (inject_Z 0). rewrite <- Zlt_Qlt. apply getPointsNeeded_pos.
Qed.

(** X2.  For every two skill levels the base win probability lies within
    [[0.2, 0.8]], and the base probabilities of the two directions of a
    matchup add up to at least 1: the handicap model is not zero-sum. *)
Theorem getBaseWinProbability_reciprocal (a b : Z) :
  exists x y : Q,
    getBaseWinProbability a b = Fin x
    /\ getBaseWinProbability b a = Fin y
    /\ 0.2 <= x <= 0.8
    /\ 1 <= x + y.
Proof.
  unfold getBaseWinProbability. cbv zeta. unfold ofZ.
  pose proof (pointsNeeded_Q_pos a) as Ha.
  pose proof (pointsNeeded_Q_pos b) as Hb.
  rewrite !ndiv_Fin by lra.
  cbn [nadd nsub nmul nneg].
  match goal with
  | |- exists x y, Math_max _ (Math_min _ (Fin ?p)) = _
                   /\ Math_max _ (Math_min _ (Fin ?q)) = _ /\ _ =>
      destruct (clamp_value 0.2 0.8 p) as [x [Ex Vx]]; [lra |];
      destruct (clamp_value 0.2 0.8 q) as [y [Ey Vy]]; [lra |];
      assert (S : 1 <= p + q)
  end.
  { pose proof (Qdiv_sum_ge_2 _ _ Ha Hb) as D.
    assert (Z0 : inject_Z a + - inject_Z b + (inject_Z b + - inject_Z a) == 0)
      by ring.
    lra. }
  exists x, y. split; [exact Ex |]. split; [exact Ey |].
  rewrite Vx, Vy. split; qminmax.
Qed.

(** X3.  The handicap advantage of player 1 is a number below 1; it is
    positive exactly when player 2 needs more points than player 1, and
    zero exactly when both need the same. *)
Theorem calculateHandicap_sign (player1SkillLevel player2SkillLevel : Z) :
  let handicap := calculateHandicap player1SkillLevel player2SkillLevel in
  player1Needs handicap = getPointsNeeded player1SkillLevel
  /\ player2Needs handicap = getPointsNeeded player2SkillLevel
  /\ exists h : Q,
      handicapAdvantage handicap = Fin h
      /\ h < 1
      /\ (0 < h <-> (player1Needs handicap < player2Needs handicap)%Z)
      /\ (h == 0 <-> player1Needs handicap = player2Needs handicap).
Proof.
  cbv zeta. unfold calculateHandicap.
  cbn [player1Needs player2Needs handicapAdvantage].
  split; [reflexivity |]. split; [reflexivity |].
  pose proof (pointsNeeded_Q_pos player1SkillLevel) as H1.
  pose proof (pointsNeeded_Q_pos player2SkillLevel) as H2.
  unfold ofZ. cbn [nsub nadd nneg]. rewrite ndiv_Fin by lra.
  eexists. split; [reflexivity |].
  set (n1 := getPointsNeeded player1SkillLevel) in *.
  set (n2 := getPointsNeeded player2SkillLevel) in *.
  assert (E : (inject_Z n2 + - inject_Z n1) / inject_Z n2
              == 1 - inject_Z n1 / inject_Z n2) by (field; lra).
  assert (P : 0 < inject_Z n1 / inject_Z n2).
  { apply Qlt_shift_div_l; lra. }
  assert (R : inject_Z n1 / inject_Z n2 * inject_Z n2 == inject_Z n1)
    by (field; lra).
  assert (C : inject_Z n1 / inject_Z n2 < 1 <-> inject_Z n1 < inject_Z n2).
  { rewrite <- (Qmult_lt_r _ _ _ H2), R, Qmult_1_l. reflexivity. }
  assert (D : inject_Z n1 / inject_Z n2 == 1 <-> inject_Z n1 == inject_Z n2).
  { split; intro H.
    - rewrite <- R, H. ring.
    - rewrite H. field. lra. }
  rewrite E. split; [lra |]. split.
  - rewrite Zlt_Qlt. split; intro H.
    + apply C. lra.
    + apply C in H. lra.
  - rewrite <- inject_Z_injective. split; intro H.
    + apply D. lra.
    + apply D in H. lra.
Qed.

(** X4.  The race format does not depend on the order of the two players:
    it names the larger number of points first. *)
Theorem getRaceFormat_symmetric (player1SkillLevel player2SkillLevel : Z) :
  getRaceFormat player1SkillLevel player2SkillLevel
  = getRaceFormat player2SkillLevel player1SkillLevel
  /\ exists larger smaller : Z,
      getRaceFormat player1SkillLevel player2SkillLevel
      = ("Race to " ++ string_of_Z larger ++ "-"
         ++ string_of_Z smaller)%string
      /\ (smaller <= larger)%Z
      /\ (getPointsNeeded player1SkillLevel = larger
          /\ getPointsNeeded player2SkillLevel = smaller
          \/ getPointsNeeded player1SkillLevel = smaller
             /\ getPointsNeeded player2SkillLevel = larger).
Proof.
  unfold getRaceFormat. cbv zeta. split.
  - rewrite (Z.max_comm (getPointsNeeded player1SkillLevel)),
      (Z.min_comm (getPointsNeeded player1SkillLevel)). reflexivity.
  - eexists. eexists. split; [reflexivity |]. lia.
Qed.

(* ================================================================= *)
(** ** The helpers of head-to-head.ts *)

Lemma round_half_up_bounds (x : Q) (lo hi : Z) :
  inject_Z lo <= x -> x <= inject_Z hi ->
  (lo <= round_half_up x <= hi)%Z.
Proof.
  intros L H. unfold round_half_up. split.
  - rewrite <- (Qfloor_Z lo). apply Qfloor_resp_le. lra.
  - assert (B : (Qfloor (x + (1 # 2)) <= Qfloor (inject_Z hi + (1 # 2)))%Z)
      by (apply Qfloor_resp_le; lra).
    assert (F : Qfloor (inject_Z hi + (1 # 2)) = hi).
    { pose proof (Qfloor_le (inject_Z hi + (1 # 2))) as U.
      pose proof (Qlt_floor (inject_Z hi + (1 # 2))) as V.
      set (f := Qfloor (inject_Z hi + (1 # 2))) in *.
      rewrite inject_Z_plus in V. change (inject_Z 1) with 1 in V.
      assert (U' : inject_Z f < inject_Z (hi + 1)).
      { rewrite inject_Z_plus. change (inject_Z 1) with 1. lra. }
      assert (V' : inject_Z (hi - 1) < inject_Z f).
      { unfold Z.sub. rewrite inject_Z_plus, inject_Z_opp.
        change (inject_Z 1) with 1. lra. }
      rewrite <- Zlt_Qlt in U', V'. lia. }
    lia.
Qed.

(** X5.  [calcWinPct] never divides by zero: it is 0 when no game was
    played.  Its result is a number of tenths; with
    [0 <= won <= played] it lies between 0 and 100, and it is 100 when
    every game was won. *)
Theorem calcWinPct_range (won played : Z) :
  exists tenths : Z,
    (calcWinPct won played == Fin (inject_Z tenths / 10))%num
    /\ (played = 0%Z -> tenths = 0%Z)
    /\ ((0 <= won <= played)%Z -> (0 <= tenths <= 1000)%Z)
    /\ ((0 < played)%Z -> won = played -> tenths = 1000%Z).
Proof.
  unfold calcWinPct.
  destruct (played =? 0)%Z eqn:E.
  - exists 0%Z. split; [reflexivity |]. apply Z.eqb_eq in E.
    repeat split; try lia.
  - apply Z.eqb_neq in E. unfold ofZ.
    rewrite ndiv_Fin by (apply inject_Z_nonzero; exact E).
    cbn [nmul Math_round]. unfold ofZ.
    rewrite ndiv_Fin by (intro H; discriminate H).
    eexists. split; [apply num_eq_refl |].
    split; [intro; contradiction |]. split.
    + intro B.
      assert (P : 0 < inject_Z played).
      { change 0 with (inject_Z 0). rewrite <- Zlt_Qlt. lia. }
      apply round_half_up_bounds.
      * change (inject_Z 0) with 0.
        apply Qmult_le_0_compat; [| lra].
        apply Qle_shift_div_l; [exact P |].
        rewrite Qmult_0_l. change 0 with (inject_Z 0).
        rewrite <- Zle_Qle. lia.
      * change (inject_Z 1000) with (1 * 1000).
        apply Qmult_le_compat_r; [| lra].
        apply Qle_shift_div_r; [exact P |].
        rewrite Qmult_1_l. rewrite <- Zle_Qle. lia.
    + intros P ->.
      assert (N : ~ inject_Z played == 0) by (apply inject_Z_nonzero; lia).
      rewrite (round_half_up_compat _ 1000); [reflexivity |].
      field. exact N.
Qed.

Ltac lookup_cases s :=
  cbv [lookupOr tableLookup pointsTable9Ball pointsTable8Ball];
  repeat match goal with
         | |- context [(?a =? s)%Z] =>
             let E := fresh "E" in
             destruct (a =? s)%Z eqn:E;
             [apply Z.eqb_eq in E; try lia | apply Z.eqb_neq in E]
         end.

(** X6.  The 9-ball table of head-to-head.ts gives the points of the
    skill-level table on the levels 1 to 9, but another default outside
    them: 31 where [getPointsNeeded] gives 38.  The 8-ball table never
    decreases on the levels 2 to 7 and defaults to 3. *)
Theorem pointsNeeded_tables (s : Z) :
  ((1 <= s <= 9)%Z -> getPointsNeeded9Ball s = getPointsNeeded s)
  /\ ((s < 1 \/ 9 < s)%Z ->
      getPointsNeeded9Ball s = 31%Z /\ getPointsNeeded s = 38%Z)
  /\ ((s < 2 \/ 7 < s)%Z -> getPointsNeeded8Ball s = 3%Z)
  /\ ((2 <= s)%Z -> (s < 7)%Z ->
      (2 <= getPointsNeeded8Ball s <= getPointsNeeded8Ball (s + 1))%Z).
Proof.
  split; [| split; [| split]].
  - intro H. in_table s; reflexivity.
  - intro H. split.
    + unfold getPointsNeeded9Ball. lookup_cases s. reflexivity.
    + unfold getPointsNeeded. rewrite (table_miss s H). reflexivity.
  - intro H. unfold getPointsNeeded8Ball. lookup_cases s. reflexivity.
  - intros L U.
    assert (H : (s = 2 \/ s = 3 \/ s = 4 \/ s = 5 \/ s = 6)%Z) by lia.
    repeat (destruct H as [H | H]); subst s; vm_compute;
      split; discriminate.
Qed.

(* ================================================================= *)
(** ** Head-to-head keys *)

Lemma noDash_digits (d : Decimal.uint) :
  noDash (NilEmpty.string_of_uint d) = true.
Proof. induction d; simpl; auto. Qed.

Lemma string_of_uint_shape (d : Decimal.uint) :
  exists c rest,
    NilZero.string_of_uint d = String c rest
    /\ noDash (String c rest) = true.
Proof.
  destruct d; simpl; eexists; eexists;
    (split; [reflexivity |]); simpl; try apply noDash_digits; reflexivity.
Qed.

(** A printed integer is one character, a sign or a digit, followed by
    digits. *)
Lemma string_of_Z_shape (z : Z) :
  exists c rest, string_of_Z z = String c rest /\ noDash rest = true.
Proof.
  unfold string_of_Z, NilZero.string_of_int.
  destruct (Z.to_int z) as [d | d].
  - destruct (string_of_uint_shape d) as [c [rest [E N]]].
    exists c, rest. split; [exact E |].
    simpl in N. apply andb_true_iff in N. apply N.
  - destruct (string_of_uint_shape d) as [c [rest [E N]]].
    eexists. eexists. split; [reflexivity |]. rewrite E. exact N.
Qed.

Lemma to_int_not_nil (z : Z) :
  Z.to_int z <> Decimal.Pos Decimal.Nil /\ Z.to_int z <> Decimal.Neg Decimal.Nil.
Proof.
  destruct z as [| p | p]; simpl; split; try discriminate;
    intro H; injection H as H;
    exact (DecimalPos.Unsigned.to_uint_nonnil p H).
Qed.

Lemma string_of_Z_inj (a b : Z) : string_of_Z a = string_of_Z b -> a = b.
Proof.
  unfold string_of_Z. intro E.
  apply DecimalZ.to_int_inj.
  assert (S : Some (Z.to_int a) = Some (Z.to_int b)).
  { destruct (to_int_not_nil a) as [Pa Na].
    destruct (to_int_not_nil b) as [Pb Nb].
    rewrite <- (NilZero.isi (Z.to_int a) Pa Na).
    rewrite <- (NilZero.isi (Z.to_int b) Pb Nb).
    rewrite E. reflexivity. }
  injection S as S. exact S.
Qed.

Lemma splitAtDash_app (before after : string) :
  noDash before = true ->
  splitAtDash (before ++ String "-" after) = (before, after).
Proof.
  induction before as [| c before IH]; simpl; intro N; [reflexivity |].
  apply andb_true_iff in N. destruct N as [Nc N].
  apply negb_true_iff in Nc. rewrite Nc, (IH N). reflexivity.
Qed.

(** A key splits back into the two printed ids. *)
Lemma splitKey_h2hKey (playerId opponentId : Z) :
  splitKey (h2hKey playerId opponentId)
  = (string_of_Z playerId, string_of_Z opponentId).
Proof.
  unfold h2hKey.
  destruct (string_of_Z_shape playerId) as [c [rest [E N]]].
  rewrite E. simpl.
  rewrite (splitAtDash_app rest _ N). reflexivity.
Qed.

(** X7.  The key of a head-to-head record determines the ordered pair of
    ids, negative ids included: two pairs have the same key only when
    they are the same pair, and the key of a pair differs from the key of
    the reversed pair unless the two ids are equal. *)
Theorem h2hKey_injective (playerId opponentId playerId' opponentId' : Z) :
  (h2hKey playerId opponentId = h2hKey playerId' opponentId'
   <-> playerId = playerId' /\ opponentId = opponentId')
  /\ (h2hKey playerId opponentId = h2hKey opponentId playerId
      <-> playerId = opponentId).
Proof.
  assert (I : forall a b a' b' : Z,
             h2hKey a b = h2hKey a' b' -> a = a' /\ b = b').
  { intros a b a' b' E.
    assert (S : splitKey (h2hKey a b) = splitKey (h2hKey a' b'))
      by (rewrite E; reflexivity).
    rewrite !splitKey_h2hKey in S. injection S as Sa Sb.
    split; apply string_of_Z_inj; assumption. }
  split; split.
  - apply I.
  - intros [-> ->]. reflexivity.
  - intro E. apply I in E. apply E.
  - intros ->. reflexivity.
Qed.

(* ================================================================= *)
(** ** What the head-to-head records hold *)

Lemma JSMap_get_set {V : Type} (m : JSMap.t V) (k k' : string) (v : V) :
  JSMap.get (JSMap.set m k v) k'
  = if String.eqb k k' then Some v else JSMap.get m k'.
Proof.
  induction m as [| [k0 v0] m IH]; simpl.
  - reflexivity.
  - destruct (String.eqb k0 k) eqn:E0; simpl.
    + apply String.eqb_eq in E0. subst k0.
      destruct (String.eqb k k'); reflexivity.
    + rewrite IH. destruct (String.eqb k0 k') eqn:E1; [| reflexivity].
      apply String.eqb_eq in E1. subst k0. rewrite String.eqb_sym, E0.
      reflexivity.
Qed.

Lemma h2hKey_pair (a b a' b' : Z) :
  h2hKey a b = h2hKey a' b' -> a = a' /\ b = b'.
Proof.
  intro E.
  assert (S : splitKey (h2hKey a b) = splitKey (h2hKey a' b'))
    by (rewrite E; reflexivity).
  rewrite !splitKey_h2hKey in S. injection S as Sa Sb.
  split; apply string_of_Z_inj; assumption.
Qed.

Lemma h2hKey_eqb (a b a' b' : Z) :
  String.eqb (h2hKey a b) (h2hKey a' b') = ((a =? a')%Z && (b =? b')%Z)%bool.
Proof.
  destruct (String.eqb _ _) eqn:E.
  - apply String.eqb_eq, h2hKey_pair in E. destruct E as [-> ->].
    rewrite !Z.eqb_refl. reflexivity.
  - destruct (a =? a')%Z eqn:Ea; [| reflexivity].
    destruct (b =? b')%Z eqn:Eb; [| reflexivity].
    apply Z.eqb_eq in Ea, Eb. subst. rewrite String.eqb_refl in E.
    discriminate.
Qed.

Lemma recordGame_recorded (m : JSMap.t HeadToHead.t) (game : GameResult.t) :
  recordGame m game
  = JSMap.set m (gameKey game) (recorded (JSMap.get m (gameKey game)) game).
Proof. reflexivity. Qed.

Lemma get_fold_recordGame (k : string) (games : list GameResult.t)
  (m : JSMap.t HeadToHead.t) :
  JSMap.get (fold_left recordGame games m) k
  = fold_left
      (fun found game =>
         if String.eqb (gameKey game) k
         then Some (recorded found game) else found)
      games (JSMap.get m k).
Proof.
  revert m. induction games as [| g games IH]; intro m; [reflexivity |].
  cbn [fold_left]. rewrite IH, recordGame_recorded, JSMap_get_set.
  destruct (String.eqb (gameKey g) k) eqn:E; [| reflexivity].
  apply String.eqb_eq in E. rewrite E. reflexivity.
Qed.

Lemma fold_left_filter {S X : Type} (keep : X -> bool) (f : S -> X -> S)
  (l : list X) (s : S) :
  fold_left (fun acc x => if keep x then f acc x else acc) l s
  = fold_left f (filter keep l) s.
Proof.
  revert s. induction l as [| x l IH]; intro s; [reflexivity |].
  simpl. destruct (keep x); simpl; apply IH.
Qed.

Lemma length_of_app {A : Type} (l l' : list A) :
  length_of (l ++ l') = (length_of l + length_of l')%Z.
Proof. unfold length_of. rewrite length_app. lia. Qed.

Lemma sumQ_app (l l' : list Q) : sumQ (l ++ l') == sumQ l + sumQ l'.
Proof.
  induction l as [| x l IH]; simpl.
  - ring.
  - rewrite IH. ring.
Qed.

(** The running average after one more game is the mean of all games. *)
Lemma running_mean (a sum points : Q) (n : Z) :
  (0 <= n)%Z ->
  (n = 0%Z \/ a == sum / inject_Z n) ->
  exists a' : Q,
    ((Fin a * (ofZ (n + 1) - 1) + Fin points) / ofZ (n + 1))%num = Fin a'
    /\ a' == (sum * (if (n =? 0)%Z then 0 else 1) + points)
             / inject_Z (n + 1).
Proof.
  intros N H. unfold ofZ. cbn [nsub nneg nadd nmul].
  assert (P : 0 < inject_Z (n + 1)).
  { change 0 with (inject_Z 0). rewrite <- Zlt_Qlt. lia. }
  rewrite ndiv_Fin by lra.
  eexists. split; [reflexivity |].
  rewrite inject_Z_plus. change (inject_Z 1) with 1.
  rewrite inject_Z_plus in P. change (inject_Z 1) with 1 in P.
  destruct H as [-> | H].
  - change (inject_Z 0) with 0. cbn [Z.eqb]. field.
  - destruct (n =? 0)%Z eqn:E.
    + apply Z.eqb_eq in E. subst n. change (inject_Z 0) with 0. field.
    + apply Z.eqb_neq in E.
      assert (Q0 : ~ inject_Z n == 0) by (apply inject_Z_nonzero; exact E).
      rewrite H. field. split; [lra | exact Q0].
Qed.

Lemma fold_left_ext {S X : Type} (f g : S -> X -> S) :
  (forall s x, f s x = g s x) ->
  forall (l : list X) (s : S), fold_left f l s = fold_left g l s.
Proof.
  intros E l. induction l as [| x l IH]; intro s; [reflexivity |].
  simpl. rewrite E. apply IH.
Qed.

Lemma later_date (last date : Z) :
  (if (date >? last)%Z then date else last) = Z.max last date.
Proof. destruct (date >? last)%Z eqn:E; lia. Qed.

Lemma summarizes_first (game : GameResult.t) :
  summarizes [game] (recorded None game).
Proof.
  unfold summarizes, recorded. cbn [HeadToHead.playerId HeadToHead.opponentId
    HeadToHead.totalGames HeadToHead.wins HeadToHead.losses
    HeadToHead.lastPlayed HeadToHead.avgPointsScored
    HeadToHead.avgPointsNeeded].
  split; [reflexivity |]. split; [reflexivity |]. split; [reflexivity |].
  split; [cbn; destruct (GameResult.won game); reflexivity |].
  split; [cbn; destruct (GameResult.won game); reflexivity |].
  split; [rewrite later_date; unfold latest; cbn; lia |].
  split.
  - destruct (running_mean 0 0 (GameResult.pointsScored game) 0)
      as [a [Ea Va]]; [lia | left; reflexivity |].
    exists a. split; [exact Ea |]. rewrite Va. cbn. field.
  - destruct (running_mean 0 0 (GameResult.pointsNeeded game) 0)
      as [a [Ea Va]]; [lia | left; reflexivity |].
    exists a. split; [exact Ea |]. rewrite Va. cbn. field.
Qed.

Lemma summarizes_next (games : list GameResult.t) (h : HeadToHead.t)
  (game : GameResult.t) :
  summarizes games h ->
  summarizes (games ++ [game]) (recorded (Some h) game).
Proof.
  destruct games as [| first rest]; [contradiction |].
  intros [Hp [Ho [Ht [Hw [Hl [Hd [[a [Ea Va]] [a' [Ea' Va']]]]]]]]].
  assert (N : (1 <= length_of (first :: rest))%Z).
  { rewrite length_of_cons. pose proof (length_of_nonneg rest). lia. }
  assert (Z1 : (length_of (first :: rest) =? 0)%Z = false)
    by (apply Z.eqb_neq; lia).
  change ((first :: rest) ++ [game]) with (first :: (rest ++ [game])).
  unfold summarizes, recorded. cbn [HeadToHead.playerId HeadToHead.opponentId
    HeadToHead.totalGames HeadToHead.wins HeadToHead.losses
    HeadToHead.lastPlayed HeadToHead.avgPointsScored
    HeadToHead.avgPointsNeeded].
  change (first :: (rest ++ [game])) with ((first :: rest) ++ [game]).
  rewrite !filter_app, !map_app, !length_of_app.
  change (length_of [game]) with 1%Z.
  split; [exact Hp |]. split; [exact Ho |].
  split; [rewrite Ht; reflexivity |].
  split; [rewrite Hw; cbn [filter]; destruct (GameResult.won game);
          cbn [negb]; [change (length_of [game]) with 1%Z
                      | change (length_of []) with 0%Z]; lia |].
  split; [rewrite Hl; cbn [filter]; destruct (GameResult.won game);
          cbn [negb]; [change (length_of []) with 0%Z
                      | change (length_of [game]) with 1%Z]; lia |].
  split.
  { rewrite later_date, Hd. unfold latest. rewrite map_app, fold_left_app.
    reflexivity. }
  split.
  - rewrite Ea, Ht.
    destruct (running_mean a (sumQ (map GameResult.pointsScored (first :: rest)))
                (GameResult.pointsScored game) (length_of (first :: rest)))
      as [b [Eb Vb]]; [lia | right; exact Va |].
    exists b. split; [exact Eb |]. rewrite Vb, Z1, sumQ_app. cbn [map sumQ fold_right].
    apply Qeq_refl || (f_equiv; ring).
  - rewrite Ea', Ht.
    destruct (running_mean a' (sumQ (map GameResult.pointsNeeded (first :: rest)))
                (GameResult.pointsNeeded game) (length_of (first :: rest)))
      as [b [Eb Vb]]; [lia | right; exact Va' |].
    exists b. split; [exact Eb |]. rewrite Vb, Z1, sumQ_app. cbn [map sumQ fold_right].
    apply Qeq_refl || (f_equiv; ring).
Qed.

Lemma fold_recorded (rest games : list GameResult.t) (h : HeadToHead.t) :
  summarizes games h ->
  exists h' : HeadToHead.t,
    fold_left (fun found game => Some (recorded found game)) rest (Some h)
    = Some h'
    /\ summarizes (games ++ rest) h'.
Proof.
  revert games h. induction rest as [| g rest IH]; intros games h S.
  - exists h. rewrite app_nil_r. split; [reflexivity | exact S].
  - cbn [fold_left].
    destruct (IH (games ++ [g]) (recorded (Some h) g)
                (summarizes_next games h g S)) as [h' [E S']].
    exists h'. split; [exact E |].
    rewrite <- app_assoc in S'. exact S'.
Qed.

Lemma JSMap_get_In {V : Type} (m : JSMap.t V) (k : string) (v : V) :
  JSMap.get m k = Some v -> In (k, v) m.
Proof.
  induction m as [| [k0 v0] m IH]; simpl; [discriminate |].
  destruct (String.eqb k0 k) eqn:E.
  - apply String.eqb_eq in E. intros [= ->]. left. subst. reflexivity.
  - intro G. right. apply IH, G.
Qed.

Lemma JSMap_set_entries {V : Type} (P : string * V -> Prop)
  (m : JSMap.t V) (k : string) (v : V) :
  Forall P m -> P (k, v) -> Forall P (JSMap.set m k v).
Proof.
  induction m as [| [k0 v0] m IH]; simpl; intros F Pv.
  - constructor; [exact Pv | constructor].
  - inversion F as [| ? ? P0 Fm]; subst.
    destruct (String.eqb k0 k) eqn:E.
    + apply String.eqb_eq in E. subst k0. constructor; assumption.
    + constructor; [exact P0 | apply IH; assumption].
Qed.

Lemma recordGame_wellKeyed (m : JSMap.t HeadToHead.t) (game : GameResult.t) :
  wellKeyed m -> wellKeyed (recordGame m game).
Proof.
  intro W. rewrite recordGame_recorded.
  apply JSMap_set_entries; [exact W |].
  cbn [fst snd]. unfold recorded.
  cbn [HeadToHead.playerId HeadToHead.opponentId].
  destruct (JSMap.get m (gameKey game)) as [h |] eqn:G; [| reflexivity].
  apply JSMap_get_In in G. unfold wellKeyed in W.
  rewrite Forall_forall in W. exact (W _ G).
Qed.

Lemma recordBetween_get (m : JSMap.t HeadToHead.t) (playerId opponentId : Z) :
  wellKeyed m ->
  recordBetween playerId opponentId (JSMap.values m)
  = JSMap.get m (h2hKey playerId opponentId).
Proof.
  unfold recordBetween, JSMap.values.
  induction m as [| [k h] m IH]; intro W; [reflexivity |].
  inversion W as [| ? ? Wk Wm]; subst. cbn [fst snd] in Wk.
  cbn [map find snd JSMap.get]. rewrite Wk, h2hKey_eqb.
  destruct (_ && _)%bool; [reflexivity | apply IH, Wm].
Qed.

Lemma records_wellKeyed (gameResults : list GameResult.t) :
  wellKeyed (fold_left recordGame gameResults JSMap.empty).
Proof.
  apply (fold_left_invariant wellKeyed recordGame).
  - intros m g. apply recordGame_wellKeyed.
  - constructor.
Qed.

Lemma record_of_pair (gameResults : list GameResult.t)
  (playerId opponentId : Z) :
  recordBetween playerId opponentId (buildHeadToHeadRecords gameResults)
  = fold_left (fun found game => Some (recorded found game))
      (gamesBetween playerId opponentId gameResults) None.
Proof.
  unfold buildHeadToHeadRecords. cbv zeta.
  rewrite recordBetween_get by apply records_wellKeyed.
  rewrite get_fold_recordGame. cbn [JSMap.get JSMap.empty].
  unfold gamesBetween. rewrite <- fold_left_filter.
  apply fold_left_ext. intros found g.
  unfold gameKey. rewrite h2hKey_eqb. reflexivity.
Qed.

(** X8.  The records that [buildHeadToHeadRecords] returns hold a record
    for an ordered pair of players exactly when the input has a game of
    that pair; the record counts the pair's games, wins and losses, its
    two averages are the means of the points of these games, and its date
    is the latest of their dates. *)
Theorem buildHeadToHeadRecords_pair (gameResults : list GameResult.t)
  (playerId opponentId : Z) :
  match recordBetween playerId opponentId
          (buildHeadToHeadRecords gameResults) with
  | Some h =>
      HeadToHead.playerId h = playerId
      /\ HeadToHead.opponentId h = opponentId
      /\ summarizes (gamesBetween playerId opponentId gameResults) h
  | None => gamesBetween playerId opponentId gameResults = []
  end.
Proof.
  rewrite record_of_pair.
  destruct (gamesBetween playerId opponentId gameResults)
    as [| first rest] eqn:G; [reflexivity |].
  cbn [fold_left].
  destruct (fold_recorded rest [first] (recorded None first)
              (summarizes_first first)) as [h [E S]].
  rewrite E. cbn [app] in S.
  assert (I : In first (gamesBetween playerId opponentId gameResults))
    by (rewrite G; left; reflexivity).
  unfold gamesBetween in I. apply filter_In in I. destruct I as [_ I].
  apply andb_true_iff in I. destruct I as [Ip Io].
  apply Z.eqb_eq in Ip, Io.
  destruct S as [Sp [So S']].
  split; [congruence |]. split; [congruence |].
  split; [exact Sp |]. split; [exact So | exact S'].
Qed.

Lemma JSMap_keys_set {V : Type} (m : JSMap.t V) (k : string) (v : V) :
  map fst (JSMap.set m k v)
  = if existsb (String.eqb k) (map fst m) then map fst m
    else map fst m ++ [k].
Proof.
  induction m as [| [k0 v0] m IH]; simpl; [reflexivity |].
  rewrite (String.eqb_sym k k0).
  destruct (String.eqb k0 k) eqn:E; simpl; [reflexivity |].
  rewrite IH. destruct (existsb _ _); reflexivity.
Qed.

Lemma keys_of_pairs (m : JSMap.t HeadToHead.t) :
  wellKeyed m ->
  map fst m
  = map (fun pair => h2hKey (fst pair) (snd pair))
      (map pairOf (JSMap.values m)).
Proof.
  unfold JSMap.values. induction 1 as [| [k h] m Wk Wm IH]; [reflexivity |].
  cbn [map fst snd pairOf] in *. rewrite Wk, IH. reflexivity.
Qed.

Lemma existsb_key_pair (pair : Z * Z) (pairs : list (Z * Z)) :
  existsb (String.eqb (h2hKey (fst pair) (snd pair)))
    (map (fun p => h2hKey (fst p) (snd p)) pairs)
  = existsb (samePair pair) pairs.
Proof.
  induction pairs as [| p pairs IH]; [reflexivity |].
  cbn [map existsb]. rewrite IH, h2hKey_eqb. reflexivity.
Qed.

Lemma pairs_of_fold (games : list GameResult.t) (m : JSMap.t HeadToHead.t) :
  wellKeyed m ->
  map pairOf (JSMap.values (fold_left recordGame games m))
  = fold_left
      (fun seen pair =>
         if existsb (samePair pair) seen then seen else seen ++ [pair])
      (map gamePair games) (map pairOf (JSMap.values m)).
Proof.
  revert m. induction games as [| g games IH]; intros m W; [reflexivity |].
  cbn [fold_left map].
  rewrite (IH _ (recordGame_wellKeyed m g W)). f_equal.
  pose proof (recordGame_wellKeyed m g W) as W'.
  pose proof (keys_of_pairs _ W') as K'.
  rewrite recordGame_recorded in K' at 1.
  rewrite JSMap_keys_set, (keys_of_pairs m W) in K'.
  change (gameKey g) with (h2hKey (fst (gamePair g)) (snd (gamePair g))) in K'.
  rewrite existsb_key_pair in K'.
  assert (Inj : forall a b : list (Z * Z),
             map (fun p => h2hKey (fst p) (snd p)) a
             = map (fun p => h2hKey (fst p) (snd p)) b -> a = b).
  { induction a as [| x a IHa]; intros [| y b] E; try discriminate;
      [reflexivity |].
    cbn [map] in E. injection E as E1 E2.
    apply h2hKey_pair in E1. destruct x, y. cbn [fst snd] in E1.
    destruct E1 as [-> ->]. f_equal. apply IHa, E2. }
  apply Inj. rewrite <- K'.
  destruct (existsb (samePair (gamePair g)) (map pairOf (JSMap.values m)));
    [reflexivity |].
  rewrite map_app. reflexivity.
Qed.

Lemma distinct_fold_NoDup (pairs seen : list (Z * Z)) :
  NoDup seen ->
  NoDup (fold_left
           (fun seen pair =>
              if existsb (samePair pair) seen then seen else seen ++ [pair])
           pairs seen).
Proof.
  revert seen. induction pairs as [| p pairs IH]; intros seen N; [exact N |].
  cbn [fold_left]. apply IH.
  destruct (existsb (samePair p) seen) eqn:E; [exact N |].
  apply NoDup_app; [exact N | constructor; [intros [] | constructor] |].
  intros x Hx [Ex | []]. subst x.
  assert (C : existsb (samePair p) seen = true).
  { apply existsb_exists. exists p. split; [exact Hx |].
    unfold samePair. rewrite !Z.eqb_refl. reflexivity. }
  congruence.
Qed.

Lemma totalGames_set (m : JSMap.t HeadToHead.t) (k : string)
  (v : HeadToHead.t) :
  sumZ (map HeadToHead.totalGames (JSMap.values (JSMap.set m k v)))
  = (sumZ (map HeadToHead.totalGames (JSMap.values m))
     - match JSMap.get m k with
       | Some h => HeadToHead.totalGames h
       | None => 0
       end
     + HeadToHead.totalGames v)%Z.
Proof.
  unfold JSMap.values.
  induction m as [| [k0 v0] m IH]; simpl; [lia |].
  destruct (String.eqb k0 k); simpl; [lia |].
  rewrite IH. lia.
Qed.

(** X9.  [buildHeadToHeadRecords] returns one record for each distinct
    ordered pair of players of the input, in the order in which the pairs
    first occur; no pair has two records, and the games of all records
    together are the games of the input. *)
Theorem buildHeadToHeadRecords_pairs (gameResults : list GameResult.t) :
  let records := buildHeadToHeadRecords gameResults in
  map pairOf records = distinctPairs (map gamePair gameResults)
  /\ NoDup (map pairOf records)
  /\ sumZ (map HeadToHead.totalGames records) = length_of gameResults.
Proof.
  cbv zeta. unfold buildHeadToHeadRecords.
  assert (P : map pairOf
                (JSMap.values (fold_left recordGame gameResults JSMap.empty))
              = distinctPairs (map gamePair gameResults)).
  { rewrite pairs_of_fold by constructor. reflexivity. }
  split; [exact P |]. split.
  - rewrite P. apply distinct_fold_NoDup. constructor.
  - assert (G : forall (games : list GameResult.t) (m : JSMap.t HeadToHead.t),
               sumZ (map HeadToHead.totalGames
                       (JSMap.values (fold_left recordGame games m)))
               = (sumZ (map HeadToHead.totalGames (JSMap.values m))
                  + length_of games)%Z).
    { induction games as [| g games IH]; intro m.
      - change (length_of []) with 0%Z. cbn [fold_left]. lia.
      - cbn [fold_left]. rewrite IH, recordGame_recorded, totalGames_set.
        rewrite length_of_cons. unfold recorded.
        cbn [HeadToHead.totalGames].
        destruct (JSMap.get m (gameKey g)); cbn [HeadToHead.totalGames]; lia. }
    rewrite G. reflexivity.
Qed.

(* ================================================================= *)
(** ** The sync builds the records of [buildHeadToHeadRecords] *)

Lemma sameEntries_get (m m' : JSMap.t HeadToHead.t) (k : string) :
  sameEntries m m' ->
  match JSMap.get m k, JSMap.get m' k with
  | Some h, Some h' =>
      sameRecord h h'
      /\ finite (HeadToHead.avgPointsScored h)
      /\ finite (HeadToHead.avgPointsNeeded h)
      /\ (1 <= HeadToHead.totalGames h)%Z
  | None, None => True
  | _, _ => False
  end.
Proof.
  induction 1 as [| [k0 h0] [k0' h0'] m m' [Ek R] F IH]; [exact I |].
  cbn [fst snd] in Ek, R. subst k0'. cbn [JSMap.get].
  destruct (String.eqb k0 k); [exact R | exact IH].
Qed.

Lemma sameEntries_set (m m' : JSMap.t HeadToHead.t) (k : string)
  (v v' : HeadToHead.t) :
  sameEntries m m' ->
  sameRecord v v' ->
  finite (HeadToHead.avgPointsScored v) ->
  finite (HeadToHead.avgPointsNeeded v) ->
  (1 <= HeadToHead.totalGames v)%Z ->
  sameEntries (JSMap.set m k v) (JSMap.set m' k v').
Proof.
  intros S R F1 F2 T.
  induction S as [| [k0 h0] [k0' h0'] m m' [Ek R0] F IH].
  - constructor; [| constructor]. cbn [fst snd]. tauto.
  - cbn [fst snd] in Ek, R0. subst k0'. cbn [JSMap.set].
    destruct (String.eqb k0 k).
    + constructor; [| exact F]. cbn [fst snd]. tauto.
    + constructor; [| exact IH]. cbn [fst snd]. split; [reflexivity | exact R0].
Qed.

(** The next running average, from two averages that are equal as
    numbers. *)
Lemma next_average (a a' points : Q) (n : Z) :
  (1 <= n)%Z -> a == a' ->
  exists b b' : Q,
    ((Fin a * (ofZ n - 1) + Fin points) / ofZ n)%num = Fin b
    /\ ((Fin a' * (ofZ n - 1) + Fin points) / ofZ n)%num = Fin b'
    /\ b == b'.
Proof.
  intros N E. unfold ofZ. cbn [nsub nneg nadd nmul].
  rewrite !ndiv_Fin by (apply inject_Z_nonzero; lia).
  eexists. eexists. split; [reflexivity |]. split; [reflexivity |].
  rewrite E. reflexivity.
Qed.

Lemma sync_step_same (playerId : Z) (m m' : JSMap.t HeadToHead.t)
  (item : MatchHistoryItem.t) :
  sameEntries m m' ->
  sameEntries (syncHeadToHeadItem playerId m item)
    (recordGame m' (historyGame playerId item)).
Proof.
  intro S. rewrite recordGame_recorded. unfold syncHeadToHeadItem.
  change (gameKey (historyGame playerId item))
    with (h2hKey playerId (MatchHistoryItem.opponentId item)).
  pose proof (sameEntries_get m m'
                (h2hKey playerId (MatchHistoryItem.opponentId item)) S) as G.
  destruct (JSMap.get m _) as [h |], (JSMap.get m' _) as [h' |];
    try contradiction.
  - destruct G as [[Rp [Ro [Rt [Rw [Rl [Rs [Rn Rd]]]]]]] [[a Ea] [[b Eb] T]]].
    rewrite Ea in Rs. rewrite Eb in Rn.
    destruct (HeadToHead.avgPointsScored h') as [a' | | |] eqn:Ea';
      try contradiction.
    destruct (HeadToHead.avgPointsNeeded h') as [b' | | |] eqn:Eb';
      try contradiction.
    cbn [num_eq] in Rs, Rn.
    destruct (next_average a a' (MatchHistoryItem.pointsAwarded item)
                (HeadToHead.totalGames h + 1)) as [x [x' [Ex [Ex' Vx]]]];
      [lia | exact Rs |].
    destruct (next_average b b' (MatchHistoryItem.pointsNeeded item)
                (HeadToHead.totalGames h + 1)) as [y [y' [Ey [Ey' Vy]]]];
      [lia | exact Rn |].
    apply sameEntries_set; [exact S | | | |];
      unfold recorded, sameRecord, historyGame;
      cbn [HeadToHead.playerId HeadToHead.opponentId HeadToHead.totalGames
             HeadToHead.wins HeadToHead.losses HeadToHead.avgPointsScored
             HeadToHead.avgPointsNeeded HeadToHead.lastPlayed
             GameResult.won GameResult.pointsScored GameResult.pointsNeeded
             GameResult.playedAt GameResult.playerId GameResult.opponentId];
      rewrite ?Ea, ?Eb, ?Ea', ?Eb', <- ?Rt, <- ?Rw, <- ?Rl, <- ?Rd,
        ?Ex, ?Ex', ?Ey, ?Ey'.
    + repeat split; try assumption; reflexivity.
    + eexists. reflexivity.
    + eexists. reflexivity.
    + lia.
  - apply sameEntries_set; [exact S | | | |];
      unfold recorded, sameRecord, historyGame;
      cbn [HeadToHead.playerId HeadToHead.opponentId HeadToHead.totalGames
             HeadToHead.wins HeadToHead.losses HeadToHead.avgPointsScored
             HeadToHead.avgPointsNeeded HeadToHead.lastPlayed
             GameResult.won GameResult.pointsScored GameResult.pointsNeeded
             GameResult.playedAt GameResult.playerId GameResult.opponentId].
    + repeat split; try reflexivity;
        try (destruct (MatchHistoryItem.won item); reflexivity);
        try (rewrite later_date; lia);
        unfold ofZ; cbn; field.
    + eexists. reflexivity.
    + eexists. reflexivity.
    + lia.
Qed.

Lemma sync_items_same (playerId : Z) (items : list MatchHistoryItem.t)
  (m m' : JSMap.t HeadToHead.t) :
  sameEntries m m' ->
  sameEntries (fold_left (syncHeadToHeadItem playerId) items m)
    (fold_left recordGame (map (historyGame playerId) items) m').
Proof.
  revert m m'. induction items as [| item items IH]; intros m m' S;
    [exact S |].
  cbn [fold_left map]. apply IH, sync_step_same, S.
Qed.

(** X10.  The head-to-head map that the sync accumulates holds the records
    that [buildHeadToHeadRecords] builds from the same games, in the same
    order: the same ids, counts and dates, and the same averages as
    numbers. *)
Theorem syncHeadToHead_same_records
  (histories : list (option PlayerHistory.t)) :
  Forall2 sameRecord
    (JSMap.values (syncHeadToHead histories))
    (buildHeadToHeadRecords (historyGames histories)).
Proof.
  assert (G : forall (hs : list (option PlayerHistory.t))
                     (m m' : JSMap.t HeadToHead.t),
             sameEntries m m' ->
             sameEntries
               (fold_left
                  (fun headToHeadMap history =>
                     match history with
                     | Some h =>
                         match PlayerHistory.matchHistory h with
                         | Some items =>
                             fold_left
                               (syncHeadToHeadItem (PlayerHistory.playerId h))
                               items headToHeadMap
                         | None => headToHeadMap
                         end
                     | None => headToHeadMap
                     end) hs m)
               (fold_left recordGame (historyGames hs) m')).
  { induction hs as [| history hs IH]; intros m m' S; [exact S |].
    cbn [fold_left historyGames flat_map]. rewrite fold_left_app.
    apply IH.
    destruct history as [h |]; [| exact S].
    destruct (PlayerHistory.matchHistory h) as [items |]; [| exact S].
    apply sync_items_same, S. }
  unfold syncHeadToHead, buildHeadToHeadRecords. cbv zeta.
  pose proof (G histories JSMap.empty JSMap.empty (Forall2_nil _)) as S.
  unfold JSMap.values.
  induction S as [| e e' m m' [_ [R _]] F IH]; [constructor |].
  cbn [map]. constructor; [exact R | exact IH].
Qed.

(* ================================================================= *)
(** ** The risk of a matchup *)

(** Decides the comparisons of a rational against the thresholds of
    [assessMatchupRisk]. *)
Ltac risk_cases :=
  unfold assessMatchupRisk, ngt, nlt; cbv zeta;
  repeat match goal with
         | |- context [if ?c then _ else _] =>
             let E := fresh "E" in
             destruct c eqn:E
         end;
  repeat match goal with
         | H : Qlt_bool _ _ = true |- _ => apply Qlt_bool_iff in H
         | H : Qlt_bool _ _ = false |- _ => apply Qlt_bool_false_iff in H
         | H : (_ >? _)%Z = true |- _ => apply Z.gtb_lt in H
         | H : (_ >? _)%Z = false |- _ => apply Z.gtb_ltb in H
         | H : (_ >=? _)%Z = true |- _ => apply Z.geb_le in H
         | H : (_ >=? _)%Z = false |- _ => rewrite Z.geb_leb in H;
                                             apply Z.leb_gt in H
         end;
  cbn [riskRank]; try reflexivity; try lia; try lra.

(** X11.  [assessMatchupRisk] never rates a higher probability as the
    greater risk.  A probability above 0.5 is always low risk, one of at
    most 0.25 always high risk, and so is NaN.  For one probability, the
    risk is lowest when we lead and highest when the deficit is at least
    the number of games left. *)
Theorem assessMatchupRisk_monotone
  (p q : Q) (ourScore theirScore gameNumber : Z) :
  (p <= q ->
   (riskRank (assessMatchupRisk (Fin q) ourScore theirScore gameNumber)
    <= riskRank (assessMatchupRisk (Fin p) ourScore theirScore gameNumber))%Z)
  /\ (0.5 < p ->
      assessMatchupRisk (Fin p) ourScore theirScore gameNumber = low)
  /\ (p <= 0.25 ->
      assessMatchupRisk (Fin p) ourScore theirScore gameNumber = high)
  /\ assessMatchupRisk NaN ourScore theirScore gameNumber = high
  /\ (forall ourScore' theirScore' gameNumber' : Z,
         (theirScore' < ourScore')%Z ->
         (riskRank
            (assessMatchupRisk (Fin p) ourScore' theirScore' gameNumber')
          <= riskRank
               (assessMatchupRisk (Fin p) ourScore theirScore gameNumber))%Z)
  /\ (forall ourScore' theirScore' gameNumber' : Z,
         (ourScore' <= theirScore')%Z ->
         (5 - gameNumber' + 1 <= theirScore' - ourScore')%Z ->
         (riskRank (assessMatchupRisk (Fin p) ourScore theirScore gameNumber)
          <= riskRank
               (assessMatchupRisk (Fin p) ourScore' theirScore'
                  gameNumber'))%Z).
Proof.
  split; [| split; [| split; [| split; [| split]]]].
  - intro L. risk_cases.
  - intro L. risk_cases.
  - intro L. risk_cases.
  - unfold assessMatchupRisk. cbv zeta.
    destruct (ourScore >? theirScore)%Z; [reflexivity |].
    destruct (theirScore - ourScore >=? 5 - gameNumber + 1)%Z; reflexivity.
  - intros o t g L. risk_cases.
  - intros o t g L D. risk_cases.
Qed.

(* ================================================================= *)
(** ** More on the win-probability model *)

Lemma confidence_blocks
  (player : Player.t) (playerStats : option PlayerStats.t)
  (opponent : Player.t) (opponentStats : option PlayerStats.t)
  (headToHead : option HeadToHead.t)
  (recentPlayerStats recentOpponentStats : option (list PlayerStats.t)) :
  let r := calculateWinProbability player playerStats opponent
             opponentStats headToHead recentPlayerStats
             recentOpponentStats in
  confidence r = Math_min (ofZ (dataPoints r) / 50)%num 1.
Proof.
  unfold calculateWinProbability. destruct_blocks. reflexivity.
Qed.

Lemma blocks_add_nonneg
  (player opponent : Player.t) (ps os : option PlayerStats.t)
  (h : option HeadToHead.t) (rps ros : option (list PlayerStats.t)) :
  (0 <= snd (winPercentageDelta_block ps os))%Z
  /\ (0 <= snd (headToHeadRecord_block h))%Z
  /\ (0 <= snd (recentFormTrend_block ps os rps ros))%Z
  /\ (0 <= snd (ppmEfficiency_block player opponent ps os))%Z.
Proof.
  unfold winPercentageDelta_block, headToHeadRecord_block,
    recentFormTrend_block, ppmEfficiency_block.
  repeat split.
  - destruct ps, os; cbn; try lia. destruct (_ && _)%bool; cbn; lia.
  - destruct h as [h |]; cbn; try lia.
    destruct (HeadToHead.totalGames h >? 0)%Z eqn:E; cbn; lia.
  - destruct rps as [rps |]; cbn; try lia.
    destruct (length_of rps >? 0)%Z eqn:E; cbn; lia.
  - destruct ps, os; cbn; lia.
Qed.

Lemma dataPoints_positive
  (player : Player.t) (playerStats : option PlayerStats.t)
  (opponent : Player.t) (opponentStats : option PlayerStats.t)
  (headToHead : option HeadToHead.t)
  (recentPlayerStats recentOpponentStats : option (list PlayerStats.t)) :
  (1 <= dataPoints
          (calculateWinProbability player playerStats opponent
             opponentStats headToHead recentPlayerStats
             recentOpponentStats))%Z.
Proof.
  rewrite dataPoints_blocks.
  destruct (blocks_add_nonneg player opponent playerStats opponentStats
              headToHead recentPlayerStats recentOpponentStats)
    as [A [B [C E]]].
  lia.
Qed.

Lemma confidence_Qmin
  (player : Player.t) (playerStats : option PlayerStats.t)
  (opponent : Player.t) (opponentStats : option PlayerStats.t)
  (headToHead : option HeadToHead.t)
  (recentPlayerStats recentOpponentStats : option (list PlayerStats.t)) :
  let r := calculateWinProbability player playerStats opponent
             opponentStats headToHead recentPlayerStats
             recentOpponentStats in
  exists c : Q,
    confidence r = Fin c
    /\ c == Qmin (inject_Z (dataPoints r) / 50) 1
    /\ 0.02 <= c <= 1.
Proof.
  cbv zeta. rewrite confidence_blocks. cbv zeta.
  pose proof (dataPoints_positive player playerStats opponent opponentStats
                headToHead recentPlayerStats recentOpponentStats) as D.
  set (n := dataPoints _) in *.
  unfold ofZ. rewrite ndiv_Fin by (intro H; discriminate H).
  destruct (Math_min_Qmin (inject_Z n / 50) 1) as [c [Ec Vc]].
  exists c. split; [exact Ec |]. split; [exact Vc |].
  assert (Q1 : 1 <= inject_Z n).
  { change 1 with (inject_Z 1). rewrite <- Zle_Qle. exact D. }
  assert (F : inject_Z n / 50 == inject_Z n * (1 # 50)) by (field).
  rewrite Vc, F. qminmax.
Qed.

(** X12.  Every result of [calculateWinProbability] counts at least one
    data point, the skill levels, and its confidence is
    [min(dataPoints / 50, 1)]: a number from 0.02 to 1, and 1 exactly
    from 50 data points on. *)
Theorem calculateWinProbability_confidence
  (player : Player.t) (playerStats : option PlayerStats.t)
  (opponent : Player.t) (opponentStats : option PlayerStats.t)
  (headToHead : option HeadToHead.t)
  (recentPlayerStats recentOpponentStats : option (list PlayerStats.t)) :
  let r := calculateWinProbability player playerStats opponent
             opponentStats headToHead recentPlayerStats
             recentOpponentStats in
  (1 <= dataPoints r)%Z
  /\ exists c : Q,
      confidence r = Fin c
      /\ c == Qmin (inject_Z (dataPoints r) / 50) 1
      /\ 0.02 <= c <= 1
      /\ (c == 1 <-> (50 <= dataPoints r)%Z).
Proof.
  cbv zeta.
  pose proof (dataPoints_positive player playerStats opponent opponentStats
                headToHead recentPlayerStats recentOpponentStats) as D.
  split; [exact D |].
  destruct (confidence_Qmin player playerStats opponent opponentStats
              headToHead recentPlayerStats recentOpponentStats)
    as [c [Ec [Vc Bc]]].
  exists c. split; [exact Ec |]. split; [exact Vc |]. split; [exact Bc |].
  set (n := dataPoints _) in *.
  assert (F : inject_Z n / 50 == inject_Z n * (1 # 50)) by (field).
  assert (I : 50 <= inject_Z n <-> (50 <= n)%Z).
  { change 50 with (inject_Z 50). rewrite <- Zle_Qle. reflexivity. }
  rewrite Vc, F.
  split; intro H.
  - apply I. revert H. qminmax.
  - apply I in H. qminmax.
Qed.

(** The clamp to a range around one half turns [1 - x] into 1 minus the
    clamp of [x]. *)
Lemma clamp_mirror (lo hi x y : Q) :
  lo <= hi -> lo + hi == 1 -> x + y == 1 ->
  exists a b : Q,
    Math_max lo (Math_min hi (Fin x)) = Fin a
    /\ Math_max lo (Math_min hi (Fin y)) = Fin b
    /\ a + b == 1.
Proof.
  intros L S E.
  destruct (clamp_value lo hi x L) as [a [Ea Va]].
  destruct (clamp_value lo hi y L) as [b [Eb Vb]].
  exists a, b. split; [exact Ea |]. split; [exact Eb |].
  rewrite Va, Vb. qminmax.
Qed.

(** X13.  The win-percentage factor and the PPM factor are zero-sum:
    with the player and the opponent exchanged, each of the two factors is
    1 minus what it was. *)
Theorem exchanged_factors_sum_to_one
  (player : Player.t) (playerStats : option PlayerStats.t)
  (opponent : Player.t) (opponentStats : option PlayerStats.t)
  (headToHead headToHead' : option HeadToHead.t)
  (recentPlayerStats recentOpponentStats : option (list PlayerStats.t)) :
  let f :=
    factors (calculateWinProbability player playerStats opponent
               opponentStats headToHead recentPlayerStats
               recentOpponentStats) in
  let f' :=
    factors (calculateWinProbability opponent opponentStats player
               playerStats headToHead' recentOpponentStats
               recentPlayerStats) in
  exists w w' e e' : Q,
    winPercentageDelta f = Fin w /\ winPercentageDelta f' = Fin w'
    /\ w + w' == 1
    /\ ppmEfficiency f = Fin e /\ ppmEfficiency f' = Fin e'
    /\ e + e' == 1.
Proof.
  cbv zeta. rewrite !factors_blocks.
  cbn [winPercentageDelta ppmEfficiency].
  assert (W : exists w w' : Q,
             fst (winPercentageDelta_block playerStats opponentStats) = Fin w
             /\ fst (winPercentageDelta_block opponentStats playerStats)
                = Fin w'
             /\ w + w' == 1).
  { unfold winPercentageDelta_block.
    destruct playerStats as [ps |], opponentStats as [os |];
      try (exists 0.5, 0.5; repeat split; reflexivity).
    rewrite (andb_comm (PlayerStats.matchesPlayed os >? 0)%Z).
    destruct (_ && _)%bool;
      [| exists 0.5, 0.5; repeat split; reflexivity].
    cbn [fst]. cbv zeta. rewrite !ndiv_Fin by (intro H; discriminate H).
    cbn [nadd nsub nmul nneg].
    apply clamp_mirror; [lra | reflexivity | ring]. }
  assert (E : exists e e' : Q,
             fst (ppmEfficiency_block player opponent playerStats
                    opponentStats) = Fin e
             /\ fst (ppmEfficiency_block opponent player opponentStats
                       playerStats) = Fin e'
             /\ e + e' == 1).
  { unfold ppmEfficiency_block.
    destruct playerStats as [ps |], opponentStats as [os |];
      try (exists 0.5, 0.5; repeat split; reflexivity).
    cbn [fst]. cbv zeta.
    pose proof (getExpectedPPM_pos (Player.skillLevel player)) as Hp.
    pose proof (getExpectedPPM_pos (Player.skillLevel opponent)) as Ho.
    rewrite !ndiv_Fin by lra.
    cbn [nadd nsub nmul nneg].
    apply clamp_mirror; [lra | reflexivity | ring]. }
  destruct W as [w [w' [W1 [W2 W3]]]]. destruct E as [e [e' [E1 [E2 E3]]]].
  exists w, w', e, e'. tauto.
Qed.

Lemma headToHeadRecord_block_between (headToHead : option HeadToHead.t) :
  consistent headToHead ->
  between 0 1 (fst (headToHeadRecord_block headToHead)).
Proof.
  destruct headToHead as [h |]; [| intros _; apply between_literal; lra].
  cbn [consistent]. intros [W0 WT].
  destruct (headToHeadRecord_block_formula h) as [f [Ef Vf]].
  exists f. split; [exact Ef |].
  destruct (0 <? HeadToHead.totalGames h)%Z eqn:G; [| lra].
  apply Z.ltb_lt in G.
  set (t := inject_Z (HeadToHead.totalGames h)) in *.
  set (w := inject_Z (HeadToHead.wins h)) in *.
  assert (T : 0 < t).
  { unfold t. change 0 with (inject_Z 0). rewrite <- Zlt_Qlt. exact G. }
  assert (W : 0 <= w <= t).
  { unfold w, t. change 0 with (inject_Z 0). rewrite <- !Zle_Qle. lia. }
  assert (R : 0 <= w / t <= 1).
  { split.
    - apply Qle_shift_div_l; [exact T | lra].
    - apply Qle_shift_div_r; [exact T | lra]. }
  assert (M : 0 <= Qmin (t / 10) 1 <= 1).
  { assert (0 <= t / 10) by (apply Qle_shift_div_l; lra). qminmax. }
  set (r := w / t) in *. set (m := Qmin (t / 10) 1) in *.
  rewrite Vf. split; nra.
Qed.

(** X14.  For a head-to-head record with from 0 to [totalGames] wins (or
    without a record) and statistics whose win percentages are
    percentages, between 0 and 100, the final clamp of
    [calculateWinProbability] never acts: the probability is the weighted
    sum of the five factors, and it lies within [[0.18, 0.82]].  (With
    percentages the sums of the code, binary64 numbers, do not overflow,
    and the probability is a number; the exact arithmetic of this
    embedding does not need the bound.) *)
Theorem calculateWinProbability_unclamped
  (player : Player.t) (playerStats : option PlayerStats.t)
  (opponent : Player.t) (opponentStats : option PlayerStats.t)
  (headToHead : option HeadToHead.t)
  (recentPlayerStats recentOpponentStats : option (list PlayerStats.t)) :
  consistent headToHead ->
  percentages playerStats recentPlayerStats ->
  percentages opponentStats recentOpponentStats ->
  let r := calculateWinProbability player playerStats opponent
             opponentStats headToHead recentPlayerStats
             recentOpponentStats in
  exists p w : Q,
    probability r = Fin p
    /\ weightedProbability (factors r) = Fin w
    /\ p == w
    /\ 0.18 <= p <= 0.82.
Proof.
  intros C _ _. cbv zeta. rewrite probability_is_clamp. cbv zeta.
  rewrite factors_blocks.
  destruct (getBaseWinProbability_between (Player.skillLevel player)
              (Player.skillLevel opponent)) as [f1 [E1 B1]].
  destruct (winPercentageDelta_block_between playerStats opponentStats)
    as [f2 [E2 B2]].
  destruct (headToHeadRecord_block_between headToHead C) as [f3 [E3 B3]].
  destruct (recentFormTrend_block_between playerStats opponentStats
              recentPlayerStats recentOpponentStats) as [f4 [E4 B4]].
  destruct (ppmEfficiency_block_between player opponent playerStats
              opponentStats) as [f5 [E5 B5]].
  unfold weightedProbability.
  cbn [skillLevelAdvantage winPercentageDelta headToHeadRecord
       recentFormTrend ppmEfficiency WEIGHTS].
  rewrite E1, E2, E3, E4, E5. cbn [nadd nmul].
  set (w := 0.35 * f1 + 0.25 * f2 + 0.20 * f3 + 0.15 * f4 + 0.05 * f5).
  assert (B : 0.18 <= w <= 0.82) by (unfold w; lra).
  destruct (clamp_spec 0.15 0.85 w) as [p [Ep [_ V]]]; [lra |].
  exists p, w. split; [exact Ep |]. split; [reflexivity |].
  assert (p == w) by (apply V; lra).
  split; [assumption | lra].
Qed.

Lemma calculateWinProbability_unclamped_witness :
  exists p w : Q,
    probability
      (calculateWinProbability ann (Some (PlayerStats.mk 1 5 10 7 30 70))
         ann (Some (PlayerStats.mk 2 5 10 4 28 40))
         (Some (HeadToHead.mk 1 1 4 3 1 (Fin 0) (Fin 0) 0))
         (Some [PlayerStats.mk 1 5 4 3 30 75]) None)
    = Fin p
    /\ weightedProbability
         (factors
            (calculateWinProbability ann
               (Some (PlayerStats.mk 1 5 10 7 30 70))
               ann (Some (PlayerStats.mk 2 5 10 4 28 40))
               (Some (HeadToHead.mk 1 1 4 3 1 (Fin 0) (Fin 0) 0))
               (Some [PlayerStats.mk 1 5 4 3 30 75]) None))
       = Fin w
    /\ p == w
    /\ 0.18 <= p <= 0.82.
Proof.
  apply (calculateWinProbability_unclamped ann
           (Some (PlayerStats.mk 1 5 10 7 30 70))
           ann (Some (PlayerStats.mk 2 5 10 4 28 40))
           (Some (HeadToHead.mk 1 1 4 3 1 (Fin 0) (Fin 0) 0))
           (Some [PlayerStats.mk 1 5 4 3 30 75]) None).
  - cbn. lia.
  - in_range.
  - in_range.
Defined.

(** X15.  [generateReasoning] gives from one to four reasons, the first of
    them on the skill levels; with neutral factors and no head-to-head
    game it gives that one alone. *)
Theorem generateReasoning_length (player opponent : Player.t)
  (factors : WinProbabilityFactors) (headToHead : option HeadToHead.t) :
  let reasons := generateReasoning player opponent factors headToHead in
  (1 <= length_of reasons <= 4)%Z
  /\ (exists reason rest, reasons = reason :: rest
        /\ reason
           = hd ""%string
               (generateReasoning player opponent neutralFactors None))
  /\ (length_of reasons = 1%Z
      <-> (winPercentageDelta factors >? 0.55)%num = false
          /\ (winPercentageDelta factors <? 0.45)%num = false
          /\ (recentFormTrend factors >? 0.55)%num = false
          /\ (recentFormTrend factors <? 0.45)%num = false
          /\ match headToHead with
             | Some h => (HeadToHead.totalGames h >? 0)%Z = false
             | None => True
             end).
Proof.
  unfold generateReasoning. cbv zeta.
  cbn [winPercentageDelta recentFormTrend neutralFactors].
  set (first :=
         if (Player.skillLevel player - Player.skillLevel opponent >? 0)%Z
         then _ else _).
  assert (F : exists reason, first = [reason] /\ hd ""%string first = reason).
  { unfold first.
    destruct (_ >? 0)%Z; [| destruct (_ <? 0)%Z];
      eexists; split; reflexivity. }
  destruct F as [reason [-> Hd]].
  change ((Fin 0.5 >? Fin 0.55)%num) with false.
  change ((Fin 0.5 <? Fin 0.45)%num) with false.
  cbn [hd app] in *.
  set (second := if (winPercentageDelta factors >? 0.55)%num then _ else _).
  assert (S2 : exists rest2, second = reason :: rest2
                 /\ (length_of rest2 <= 1)%Z
                 /\ (rest2 = [] <->
                     (winPercentageDelta factors >? 0.55)%num = false
                     /\ (winPercentageDelta factors <? 0.45)%num = false)).
  { unfold second.
    destruct (winPercentageDelta factors >? 0.55)%num;
      [| destruct (winPercentageDelta factors <? 0.45)%num];
      eexists; (split; [reflexivity |]); cbn;
      (split; [lia |]); split; intros; try tauto; try discriminate;
      intuition discriminate. }
  destruct S2 as [rest2 [-> [L2 I2]]].
  set (third := match headToHead with Some _ => _ | None => _ end).
  assert (S3 : exists rest3, third = reason :: rest2 ++ rest3
                 /\ (length_of rest3 <= 1)%Z
                 /\ (rest3 = [] <->
                     match headToHead with
                     | Some h => (HeadToHead.totalGames h >? 0)%Z = false
                     | None => True
                     end)).
  { unfold third. destruct headToHead as [h |].
    - destruct (HeadToHead.totalGames h >? 0)%Z.
      + destruct (_ >? 55)%num; [| destruct (_ <? 45)%num];
          eexists; (split; [reflexivity |]); cbn;
          (split; [lia |]); split; intros; discriminate.
      + exists []. rewrite app_nil_r. cbn. repeat split; lia.
    - exists []. rewrite app_nil_r. cbn. repeat split; lia. }
  destruct S3 as [rest3 [-> [L3 I3]]].
  set (fourth := if (recentFormTrend factors >? 0.55)%num then _ else _).
  assert (S4 : exists rest4, fourth = reason :: (rest2 ++ rest3) ++ rest4
                 /\ (length_of rest4 <= 1)%Z
                 /\ (rest4 = [] <->
                     (recentFormTrend factors >? 0.55)%num = false
                     /\ (recentFormTrend factors <? 0.45)%num = false)).
  { unfold fourth.
    destruct (recentFormTrend factors >? 0.55)%num;
      [| destruct (recentFormTrend factors <? 0.45)%num].
    - eexists. split; [reflexivity |]. cbn. split; [lia |].
      split; intros; try discriminate; intuition discriminate.
    - eexists. split; [reflexivity |]. cbn. split; [lia |].
      split; intros; try discriminate; intuition discriminate.
    - exists []. rewrite app_nil_r. cbn. split; [reflexivity |].
      split; [lia |]. tauto. }
  destruct S4 as [rest4 [-> [L4 I4]]].
  assert (L : length_of (reason :: (rest2 ++ rest3) ++ rest4)
              = (1 + length_of rest2 + length_of rest3 + length_of rest4)%Z).
  { unfold length_of. cbn [List.length]. rewrite !length_app. lia. }
  pose proof (length_of_nonneg rest2). pose proof (length_of_nonneg rest3).
  pose proof (length_of_nonneg rest4).
  assert (Z0 : forall l : list string, length_of l = 0%Z <-> l = []).
  { intro l. destruct l; unfold length_of; cbn; split; intro;
      try reflexivity; try discriminate; lia. }
  split; [lia |]. split.
  - eexists. eexists. split; [reflexivity | symmetry; exact Hd].
  - rewrite L. rewrite <- Z0 in I2, I3, I4. split.
    + intro E.
      assert (length_of rest2 = 0%Z) by lia.
      assert (length_of rest3 = 0%Z) by lia.
      assert (length_of rest4 = 0%Z) by lia.
      tauto.
    + intros [A [B [C [D E]]]].
      assert (length_of rest2 = 0%Z) by tauto.
      assert (length_of rest3 = 0%Z) by tauto.
      assert (length_of rest4 = 0%Z) by tauto.
      lia.
Qed.

(* ================================================================= *)
(** ** The best opener in exact arithmetic *)

Section BestOpener.

Variable opponents : list OpponentInput.
Variable headToHeadData : HeadToHeadData.
Hypothesis someOpponent : opponents <> [].

Lemma openerAverage_value (p : MatchupInput.t) :
  exists a : Q,
    openerAverage opponents headToHeadData p = Fin a /\ 0.15 <= a <= 0.85.
Proof. apply openerStep_average. exact someOpponent. Qed.

Lemma openerStep_cases (best : number)
  (bestPlayer : option MatchupRecommendation.t) (p : MatchupInput.t) :
  exists r : MatchupRecommendation.t,
    recommends opponents headToHeadData r p
    /\ openerStep opponents headToHeadData (best, bestPlayer) p
       = if (openerAverage opponents headToHeadData p >? best)%num
         then (openerAverage opponents headToHeadData p, Some r)
         else (best, bestPlayer).
Proof.
  unfold recommends, openerStep, openerAverage.
  destruct (openerTotals p opponents headToHeadData) as [total playerFactors].
  cbn [fst]. cbv zeta.
  eexists. split; [| reflexivity].
  cbn. repeat split; reflexivity.
Qed.

Lemma opener_fold (rest : list MatchupInput.t) :
  forall (processed : list MatchupInput.t) (best : number)
         (bestPlayer : option MatchupRecommendation.t),
    (processed = [] /\ best = Fin 0 /\ bestPlayer = None)
    \/ (exists before p after r,
          processed = before ++ p :: after
          /\ best = openerAverage opponents headToHeadData p
          /\ bestPlayer = Some r
          /\ recommends opponents headToHeadData r p
          /\ firstBest opponents headToHeadData before p after) ->
    match snd (fold_left (openerStep opponents headToHeadData) rest
                 (best, bestPlayer)) with
    | Some r =>
        exists before p after,
          processed ++ rest = before ++ p :: after
          /\ recommends opponents headToHeadData r p
          /\ firstBest opponents headToHeadData before p after
    | None => processed ++ rest = []
    end.
Proof.
  induction rest as [| x rest IH]; intros processed best bestPlayer I.
  - cbn [fold_left snd]. rewrite app_nil_r.
    destruct I as [[-> [_ ->]] | [before [p [after [r [E [_ [-> [R F]]]]]]]]].
    + reflexivity.
    + exists before, p, after. tauto.
  - cbn [fold_left].
    replace (processed ++ x :: rest) with ((processed ++ [x]) ++ rest)
      by (rewrite <- app_assoc; reflexivity).
    destruct (openerStep_cases best bestPlayer x) as [rx [Rx ->]].
    destruct (openerAverage_value x) as [a [Ea Ba]].
    destruct (openerAverage opponents headToHeadData x >? best)%num eqn:G;
      apply IH; right.
    + exists processed, x, [], rx.
      split; [reflexivity |]. split; [reflexivity |].
      split; [reflexivity |]. split; [exact Rx |].
      split; [| constructor].
      destruct I as [[-> _] | [before [p [after [r [-> [-> [_ [_ [B A]]]]]]]]]].
      * constructor.
      * destruct (openerAverage_value p) as [b [Eb Bb]].
        rewrite Ea, Eb in G. cbn in G. apply Qlt_bool_iff in G.
        apply Forall_app. split; [| constructor].
        -- eapply Forall_impl; [| exact B]. cbn beta. intros y Hy.
           destruct (openerAverage_value y) as [c [Ec Bc]].
           rewrite Ec, ?Ea, ?Eb in *. cbn in Hy |- *.
           apply Qlt_bool_iff in Hy. apply Qlt_bool_iff. lra.
        -- rewrite Ea, Eb. cbn. apply Qlt_bool_iff. exact G.
        -- eapply Forall_impl; [| exact A]. cbn beta. intros y Hy.
           destruct (openerAverage_value y) as [c [Ec Bc]].
           rewrite Ec, ?Ea, ?Eb in *. cbn in Hy |- *.
           apply Qle_bool_iff in Hy. apply Qlt_bool_iff. lra.
    + destruct I as [[-> [-> _]] | [before [p [after [r [-> [-> [-> [R [B A]]]]]]]]]].
      * rewrite Ea in G. cbn in G. apply Qlt_bool_false_iff in G. lra.
      * exists before, p, (after ++ [x]), r.
        split; [rewrite <- app_assoc; reflexivity |].
        split; [reflexivity |]. split; [reflexivity |].
        split; [exact R |]. split; [exact B |].
        apply Forall_app. split; [exact A |].
        constructor; [| constructor].
        destruct (openerAverage_value p) as [b [Eb Bb]].
        rewrite Ea, Eb in G |- *. cbn in G |- *.
        apply Qlt_bool_false_iff in G. apply Qle_bool_iff. exact G.
Qed.

End BestOpener.

(* ================================================================= *)
(** ** The probability of winning the match *)

Lemma factorial_steps_value (steps : nat) :
  forall n : Z,
    (n <= Z.of_nat steps)%Z ->
    exists q : Q,
      factorial_steps steps n = Fin q
      /\ q == inject_Z (Z.of_nat (fact (Z.to_nat n))).
Proof.
  induction steps as [| steps IH]; intros n L.
  - exists 1. split; [reflexivity |].
    replace (Z.to_nat n) with 0%nat by lia. reflexivity.
  - cbn [factorial_steps]. destruct (n <=? 1)%Z eqn:E.
    + apply Z.leb_le in E. exists 1. split; [reflexivity |].
      assert (C : Z.to_nat n = 0%nat \/ Z.to_nat n = 1%nat) by lia.
      destruct C as [-> | ->]; reflexivity.
    + apply Z.leb_gt in E.
      destruct (IH (n - 1)%Z) as [q [Eq Vq]]; [lia |].
      rewrite Eq. unfold ofZ. cbn [nmul]. eexists. split; [reflexivity |].
      rewrite Vq.
      replace (Z.to_nat n) with (S (Z.to_nat (n - 1))) by lia.
      cbn [fact]. rewrite <- inject_Z_mult.
      replace n with (Z.of_nat (S (Z.to_nat (n - 1)))) at 1 by lia.
      rewrite <- Nat2Z.inj_mul. reflexivity.
Qed.

Lemma factorial_positive (n : Z) :
  exists q : Q, factorial n = Fin q /\ 0 < q.
Proof.
  unfold factorial.
  destruct (factorial_steps_value (Z.to_nat n) n) as [q [E V]]; [lia |].
  exists q. split; [exact E |].
  rewrite V. change 0 with (inject_Z 0). rewrite <- Zlt_Qlt.
  pose proof (lt_O_fact (Z.to_nat n)). lia.
Qed.

Lemma Math_pow_finite (q : Q) (k : Z) :
  (0 <= k)%Z -> finite (Math_pow (Fin q) k).
Proof.
  intro K. unfold Math_pow.
  destruct (k =? 0)%Z; [eexists; reflexivity |].
  replace (k <? 0)%Z with false by (symmetry; apply Z.ltb_ge; exact K).
  rewrite andb_false_r. eexists. reflexivity.
Qed.

Lemma binomialProbability_finite (n k : Z) (p : Q) :
  (0 <= k <= n)%Z -> finite (binomialProbability n k (Fin p)).
Proof.
  intros [K N]. unfold binomialProbability. cbv zeta.
  destruct (factorial_positive n) as [a [Ea Pa]].
  destruct (factorial_positive k) as [b [Eb Pb]].
  destruct (factorial_positive (n - k)) as [c [Ec Pc]].
  rewrite Ea, Eb, Ec. cbn [nmul].
  assert (0 < b * c) by nra.
  rewrite ndiv_Fin by lra.
  destruct (Math_pow_finite p k K) as [x ->].
  cbn [nsub nadd nneg].
  destruct (Math_pow_finite (1 + - p) (n - k)) as [y ->]; [lia |].
  eexists. reflexivity.
Qed.

Lemma counter_values_In (first last k : Z) :
  In k (counter_values first last) <-> (first <= k <= last)%Z.
Proof.
  unfold counter_values. rewrite in_map_iff. split.
  - intros [i [<- I]]. apply in_seq in I. lia.
  - intro B. exists (Z.to_nat (k - first)). split; [lia |].
    apply in_seq. lia.
Qed.

Lemma matchupAccumulate_finite (headToHeadData : HeadToHeadData)
  (ourPlayer : MatchupInput.t) (state : number * Z)
  (theirPlayer : OpponentInput) :
  finite (fst state) /\ (0 <= snd state)%Z ->
  finite (fst (matchupAccumulate headToHeadData ourPlayer state theirPlayer))
  /\ (0 <= snd (matchupAccumulate headToHeadData ourPlayer state
                  theirPlayer))%Z.
Proof.
  destruct state as [totalProb matchups]. cbn [fst snd].
  intros [[t ->] M]. unfold matchupAccumulate. cbv zeta.
  destruct (probability_between
              (MatchupInput.player ourPlayer) (MatchupInput.stats ourPlayer)
              (MatchupInput.player theirPlayer)
              (MatchupInput.stats theirPlayer)
              (JSMap.get headToHeadData
                 (h2hKey (Player.id (MatchupInput.player ourPlayer))
                    (Player.id (MatchupInput.player theirPlayer))))
              None None) as [p [Ep _]].
  rewrite Ep. cbn [fst snd nadd]. split; [eexists; reflexivity | lia].
Qed.

Lemma calculateMatchWinProbability_undecided (ourScore theirScore : Z)
  (ourRemainingPlayers : list MatchupInput.t)
  (theirRemainingPlayers : list OpponentInput)
  (headToHeadData : HeadToHeadData) :
  (ourScore < 3)%Z -> (theirScore < 3)%Z ->
  between 0.05 0.95
    (calculateMatchWinProbability ourScore theirScore ourRemainingPlayers
       theirRemainingPlayers headToHeadData).
Proof.
  intros Eo Et. unfold calculateMatchWinProbability. cbv zeta.
  replace (3 - ourScore <=? 0)%Z with false
    by (symmetry; apply Z.leb_gt; lia).
  replace (3 - theirScore <=? 0)%Z with false
    by (symmetry; apply Z.leb_gt; lia).
  set (state := fold_left _ ourRemainingPlayers (Fin 0, 0%Z)).
  assert (S : finite (fst state) /\ (0 <= snd state)%Z).
  { unfold state.
    apply (fold_left_invariant
             (fun s : number * Z => finite (fst s) /\ (0 <= snd s)%Z)).
    - intros s ourPlayer Hs.
      apply (fold_left_invariant
               (fun s : number * Z => finite (fst s) /\ (0 <= snd s)%Z));
        [| exact Hs].
      intros s' theirPlayer Hs'. apply matchupAccumulate_finite. exact Hs'.
    - cbn. split; [eexists; reflexivity | lia]. }
  destruct state as [totalProb matchups]. cbn [fst snd] in S.
  destruct S as [[t ->] M].
  set (avgWinProb := if (matchups >? 0)%Z then _ else _).
  assert (A : finite avgWinProb).
  { unfold avgWinProb. destruct (matchups >? 0)%Z eqn:G.
    - unfold ofZ. rewrite ndiv_Fin by (apply inject_Z_nonzero; lia).
      eexists. reflexivity.
    - eexists. reflexivity. }
  destruct A as [a ->].
  set (gamesRemaining := Z.min _ _).
  assert (G : forall l : list Z,
             (forall k, In k l -> (0 <= k <= gamesRemaining)%Z) ->
             forall acc : number,
               finite acc ->
               finite
                 (fold_left
                    (fun matchWinProb wins =>
                       (matchWinProb
                        + binomialProbability gamesRemaining wins
                            (Fin a))%num) l acc)).
  { induction l as [| k l IH]; intros Hl acc Hacc; [exact Hacc |].
    cbn [fold_left]. apply IH.
    - intros k' Hk'. apply Hl. right. exact Hk'.
    - destruct Hacc as [x ->].
      destruct (binomialProbability_finite gamesRemaining k a) as [y ->].
      + apply Hl. left. reflexivity.
      + eexists. reflexivity. }
  destruct (G (counter_values (3 - ourScore) gamesRemaining)) with (acc := Fin 0)
    as [w ->].
  - intros k Hk. apply counter_values_In in Hk. lia.
  - eexists. reflexivity.
  - apply clamp_between. lra.
Qed.



(* ================================================================= *)
(** ** The fields of the recommendations *)

Lemma round2_hundredths (lo hi : Z) (q : Q) :
  inject_Z lo <= q * 100 <= inject_Z hi ->
  hundredths lo hi (round2 (Fin q)).
Proof.
  intros [L H]. unfold round2. cbn [nmul Math_round]. unfold ofZ.
  rewrite ndiv_Fin by (intro E; discriminate E).
  eexists. split; [reflexivity |].
  apply round_half_up_bounds; assumption.
Qed.

Lemma hundredths_finite (lo hi : Z) (x : number) :
  hundredths lo hi x -> finite x.
Proof. intros [z [E _]]. eexists. exact E. Qed.

Lemma matchupRecommendation_fields (opponent : OpponentInput)
  (headToHeadData : HeadToHeadData) (playerInput : MatchupInput.t) :
  let r := matchupRecommendation opponent headToHeadData playerInput in
  hundredths 15 85 (MatchupRecommendation.winProbability r)
  /\ hundredths 2 100 (MatchupRecommendation.confidence r).
Proof.
  unfold matchupRecommendation. cbv zeta.
  cbn [MatchupRecommendation.winProbability
       MatchupRecommendation.confidence].
  set (h := JSMap.get _ _).
  destruct (probability_between
              (MatchupInput.player playerInput)
              (MatchupInput.stats playerInput)
              (MatchupInput.player opponent) (MatchupInput.stats opponent)
              h (MatchupInput.recentStats playerInput)
              (MatchupInput.recentStats opponent)) as [p [Ep Bp]].
  destruct (confidence_Qmin
              (MatchupInput.player playerInput)
              (MatchupInput.stats playerInput)
              (MatchupInput.player opponent) (MatchupInput.stats opponent)
              h (MatchupInput.recentStats playerInput)
              (MatchupInput.recentStats opponent)) as [c [Ec [_ Bc]]].
  rewrite Ep, Ec. split; apply round2_hundredths; unfold inject_Z; lra.
Qed.

(** X19.  For available players and an opponent whose win percentages
    are percentages, between 0 and 100, [getMatchupRecommendations]
    returns one recommendation for each available player; in each the win
    probability is a whole number of hundredths from 0.15 to 0.85 and the
    confidence one from 0.02 to 1: rounding to two decimals keeps both
    within the bounds of [calculateWinProbability].  (With percentages no
    sum of the code overflows, and every probability is a number.) *)
Theorem getMatchupRecommendations_fields
  (availablePlayers : list MatchupInput.t) (opponent : OpponentInput)
  (headToHeadData : HeadToHeadData) (gameNumber ourScore theirScore : Z) :
  Forall inRange availablePlayers -> inRange opponent ->
  let ranked :=
    getMatchupRecommendations availablePlayers opponent headToHeadData
      gameNumber ourScore theirScore in
  Permutation (map MatchupRecommendation.playerId ranked)
    (map (fun p => Player.id (MatchupInput.player p)) availablePlayers)
  /\ Forall
       (fun r =>
          hundredths 15 85 (MatchupRecommendation.winProbability r)
          /\ hundredths 2 100 (MatchupRecommendation.confidence r))
       ranked.
Proof.
  intros _ _. cbv zeta. unfold getMatchupRecommendations. cbv zeta.
  pose proof (Array_sort_Permutation byWinProbabilityDesc
                (map (matchupRecommendation opponent headToHeadData)
                   availablePlayers)) as P.
  split.
  - rewrite (Permutation_map MatchupRecommendation.playerId P).
    rewrite map_map. reflexivity.
  - apply Forall_forall. intros r Hr.
    apply (Permutation_in _ P) in Hr. apply in_map_iff in Hr.
    destruct Hr as [p [<- _]]. apply matchupRecommendation_fields.
Qed.

Lemma getMatchupRecommendations_fields_witness :
  let ranked :=
    getMatchupRecommendations [dana; carl] (plain 9 "Zed" 5)
      exampleHistory 1 0 0 in
  Permutation (map MatchupRecommendation.playerId ranked)
    (map (fun p => Player.id (MatchupInput.player p)) [dana; carl])
  /\ Forall
       (fun r =>
          hundredths 15 85 (MatchupRecommendation.winProbability r)
          /\ hundredths 2 100 (MatchupRecommendation.confidence r))
       ranked.
Proof.
  apply (getMatchupRecommendations_fields [dana; carl] (plain 9 "Zed" 5)
           exampleHistory 1 0 0).
  - in_range.
  - in_range.
Defined.

Lemma blindRecommendation_total (headToHeadData : HeadToHeadData)
  (liveMatch : LiveMatch.t) (playerInput : MatchupInput.t)
  (opponentPlayers : list OpponentInput) :
  forall acc : Q,
    exists t : Q,
      fold_left
        (fun totalProb opponent =>
           match
             getMatchupRecommendations [playerInput] opponent headToHeadData
               (LiveMatch.currentGame liveMatch)
               (LiveMatch.ourScore liveMatch)
               (LiveMatch.theirScore liveMatch)
           with
           | first :: _ =>
               (totalProb + MatchupRecommendation.winProbability first)%num
           | [] => totalProb
           end)
        opponentPlayers (Fin acc) = Fin t
      /\ acc + 0.15 * inject_Z (length_of opponentPlayers) <= t
         <= acc + 0.85 * inject_Z (length_of opponentPlayers).
Proof.
  induction opponentPlayers as [| o opponentPlayers IH]; intro acc.
  - exists acc. split; [reflexivity |].
    change (inject_Z (length_of [])) with 0. lra.
  - cbn [fold_left].
    change (getMatchupRecommendations [playerInput] o headToHeadData
              (LiveMatch.currentGame liveMatch)
              (LiveMatch.ourScore liveMatch) (LiveMatch.theirScore liveMatch))
      with [matchupRecommendation o headToHeadData playerInput].
    destruct (matchupRecommendation_fields o headToHeadData playerInput)
      as [[z [Ez Bz]] _].
    rewrite Ez. cbn [nadd].
    destruct (IH (acc + inject_Z z / 100)) as [t [Et Bt]].
    exists t. split; [exact Et |].
    rewrite length_of_cons, inject_Z_plus. change (inject_Z 1) with 1.
    assert (15 <= inject_Z z <= 85).
    { change 15 with (inject_Z 15). change 85 with (inject_Z 85).
      rewrite <- !Zle_Qle. exact Bz. }
    assert (inject_Z z / 100 == inject_Z z * (1 # 100)) by field.
    lra.
Qed.

Lemma blindRecommendation_fields (opponent : OpponentInput)
  (opponentPlayers : list OpponentInput) (headToHeadData : HeadToHeadData)
  (liveMatch : LiveMatch.t) (playerInput : MatchupInput.t) :
  let r :=
    blindRecommendation (opponent :: opponentPlayers) headToHeadData
      liveMatch playerInput in
  MatchupRecommendation.playerId r = Player.id (MatchupInput.player playerInput)
  /\ hundredths 15 85 (MatchupRecommendation.winProbability r)
  /\ MatchupRecommendation.confidence r = Fin 0.65.
Proof.
  unfold blindRecommendation. cbv zeta.
  cbn [MatchupRecommendation.playerId MatchupRecommendation.winProbability
       MatchupRecommendation.confidence].
  split; [reflexivity |]. split; [| reflexivity].
  destruct (blindRecommendation_total headToHeadData liveMatch playerInput
              (opponent :: opponentPlayers) 0) as [t [Et Bt]].
  rewrite Et.
  assert (L : 0 < inject_Z (length_of (opponent :: opponentPlayers))).
  { apply length_of_positive. discriminate. }
  unfold ofZ. rewrite ndiv_Fin by lra.
  apply round2_hundredths.
  set (n := inject_Z (length_of (opponent :: opponentPlayers))) in *.
  assert (B : 0.15 <= t / n <= 0.85).
  { split.
    - apply Qle_shift_div_l; [exact L | lra].
    - apply Qle_shift_div_r; [exact L | lra]. }
  unfold inject_Z. lra.
Qed.

(** X21.  With at least one opponent, and win percentages that are
    percentages, between 0 and 100, on both sides, the blind path of
    [getThrowRecommendation] (no current opponent known) gives every
    available player a recommendation whose win probability is a whole
    number of hundredths from 0.15 to 0.85, the rounded mean over the
    opponents, with confidence 0.65; the list is in descending order of
    probability, and recommendations of one probability keep the order of
    the players.  (With percentages no sum of the code overflows, and
    every probability is a number.) *)
Theorem getThrowRecommendation_blind_ranked
  (availablePlayers : list MatchupInput.t) (opponent : OpponentInput)
  (opponentPlayers : list OpponentInput) (headToHeadData : HeadToHeadData)
  (liveMatch : LiveMatch.t) :
  Forall inRange availablePlayers ->
  Forall inRange (opponent :: opponentPlayers) ->
  let ranked :=
    getThrowRecommendation availablePlayers (opponent :: opponentPlayers)
      headToHeadData liveMatch None in
  let inInputOrder :=
    map (blindRecommendation (opponent :: opponentPlayers) headToHeadData
           liveMatch) availablePlayers in
  Forall
    (fun r =>
       hundredths 15 85 (MatchupRecommendation.winProbability r)
       /\ MatchupRecommendation.confidence r = Fin 0.65)
    ranked
  /\ map MatchupRecommendation.playerId inInputOrder
     = map (fun p => Player.id (MatchupInput.player p)) availablePlayers
  /\ StronglySorted
       (fun a b =>
          (MatchupRecommendation.winProbability a
           >=? MatchupRecommendation.winProbability b)%num = true)
       ranked
  /\ Permutation ranked inInputOrder
  /\ forall q : number,
      filter (fun r => neqb (MatchupRecommendation.winProbability r) q) ranked
      = filter (fun r => neqb (MatchupRecommendation.winProbability r) q)
          inInputOrder.
Proof.
  intros _ _. cbv zeta. unfold getThrowRecommendation. cbv zeta.
  set (inInputOrder := map _ availablePlayers).
  assert (F : Forall finiteProbability inInputOrder).
  { apply Forall_forall. intros r Hr. apply in_map_iff in Hr.
    destruct Hr as [p [<- _]].
    destruct (blindRecommendation_fields opponent opponentPlayers
                headToHeadData liveMatch p) as [_ [H _]].
    exact (hundredths_finite _ _ _ H). }
  pose proof (Array_sort_Permutation byWinProbabilityDesc inInputOrder) as P.
  split.
  { apply Forall_forall. intros r Hr.
    apply (Permutation_in _ P) in Hr. apply in_map_iff in Hr.
    destruct Hr as [p [<- _]].
    destruct (blindRecommendation_fields opponent opponentPlayers
                headToHeadData liveMatch p) as [_ [H1 H2]].
    split; assumption. }
  split.
  { unfold inInputOrder. rewrite map_map. apply map_ext. reflexivity. }
  split; [exact (Array_sort_sorted _ F) |].
  split; [exact P |].
  intro q. exact (Array_sort_stable q _ F).
Qed.

Lemma getThrowRecommendation_blind_ranked_witness :
  let ranked :=
    getThrowRecommendation [dana; carl] [plain 9 "Zed" 5; plain 8 "Yan" 6]
      exampleHistory (LiveMatch.mk [3; 4]%Z [] [] 1 0 0) None in
  let inInputOrder :=
    map (blindRecommendation [plain 9 "Zed" 5; plain 8 "Yan" 6]
           exampleHistory (LiveMatch.mk [3; 4]%Z [] [] 1 0 0)) [dana; carl] in
  Forall
    (fun r =>
       hundredths 15 85 (MatchupRecommendation.winProbability r)
       /\ MatchupRecommendation.confidence r = Fin 0.65)
    ranked
  /\ map MatchupRecommendation.playerId inInputOrder
     = map (fun p => Player.id (MatchupInput.player p)) [dana; carl]
  /\ StronglySorted
       (fun a b =>
          (MatchupRecommendation.winProbability a
           >=? MatchupRecommendation.winProbability b)%num = true)
       ranked
  /\ Permutation ranked inInputOrder
  /\ forall q : number,
      filter (fun r => neqb (MatchupRecommendation.winProbability r) q) ranked
      = filter (fun r => neqb (MatchupRecommendation.winProbability r) q)
          inInputOrder.
Proof.
  apply (getThrowRecommendation_blind_ranked [dana; carl] (plain 9 "Zed" 5)
           [plain 8 "Yan" 6] exampleHistory
           (LiveMatch.mk [3; 4]%Z [] [] 1 0 0)).
  - in_range.
  - in_range.
Defined.

(* ================================================================= *)
(** ** The coin toss *)

Lemma getBestOpener_member
  (availablePlayers : list MatchupInput.t) (opponents : list OpponentInput)
  (headToHeadData : HeadToHeadData) (r : MatchupRecommendation.t) :
  getBestOpener availablePlayers opponents headToHeadData = Some r ->
  In (MatchupRecommendation.playerId r)
    (map (fun p => Player.id (MatchupInput.player p)) availablePlayers)
  /\ hundredths 15 85 (MatchupRecommendation.winProbability r).
Proof.
  unfold getBestOpener.
  destruct (length_of availablePlayers =? 0)%Z; [discriminate |].
  destruct (length_of opponents =? 0)%Z eqn:Eo; [discriminate |].
  cbn [orb]. intro E.
  assert (N : opponents <> []).
  { intro H. apply length_of_zero in H. congruence. }
  pose proof (opener_fold opponents headToHeadData N availablePlayers []
                (Fin 0) None) as F.
  cbn [app] in F. rewrite E in F.
  destruct F as [before [p [after [-> [[Ri [_ [Rp _]]] _]]]]];
    [left; repeat split |].
  split.
  - rewrite Ri, map_app. apply in_or_app. right. left. reflexivity.
  - rewrite Rp.
    destruct (openerAverage_value opponents headToHeadData N p)
      as [a [-> Ba]].
    apply round2_hundredths. unfold inject_Z. lra.
Qed.

Lemma openerProbability_value
  (availablePlayers : list MatchupInput.t) (opponents : list OpponentInput)
  (headToHeadData : HeadToHeadData) :
  exists a : Q,
    openerProbability
      (getBestOpener availablePlayers opponents headToHeadData) = Fin a
    /\ 0.15 <= a <= 0.85.
Proof.
  destruct (getBestOpener availablePlayers opponents headToHeadData)
    as [r |] eqn:E.
  - apply getBestOpener_member in E. destruct E as [_ [z [Ez Bz]]].
    cbn [openerProbability]. rewrite Ez. eexists. split; [reflexivity |].
    assert (15 <= inject_Z z <= 85).
    { change 15 with (inject_Z 15). change 85 with (inject_Z 85).
      rewrite <- !Zle_Qle. exact Bz. }
    assert (inject_Z z / 100 == inject_Z z * (1 # 100)) by field.
    lra.
  - exists 0.5. split; [reflexivity | lra].
Qed.

Lemma getBestOpener_some_or_empty
  (availablePlayers : list MatchupInput.t) (opponents : list OpponentInput)
  (headToHeadData : HeadToHeadData) :
  getBestOpener availablePlayers opponents headToHeadData = None ->
  availablePlayers = [] \/ opponents = [].
Proof.
  intro E.
  destruct availablePlayers as [| p ps]; [left; reflexivity |].
  destruct opponents as [| o os]; [right; reflexivity |].
  destruct (getBestOpener_nonempty (p :: ps) (o :: os) headToHeadData)
    as [r [Er _]]; try discriminate.
  congruence.
Qed.

Lemma analyzeThrowFirstAdvantage_empty
  (ourPlayers : list MatchupInput.t) (theirPlayers : list OpponentInput)
  (headToHeadData : HeadToHeadData) :
  ourPlayers = [] \/ theirPlayers = [] ->
  analyzeThrowFirstAdvantage ourPlayers theirPlayers headToHeadData
  = analyzeThrowFirstAdvantage [] [] headToHeadData.
Proof.
  intro E. unfold analyzeThrowFirstAdvantage.
  rewrite !map_copyInput.
  rewrite (getBestOpener_empty ourPlayers theirPlayers headToHeadData E).
  rewrite (getBestOpener_empty theirPlayers ourPlayers headToHeadData)
    by tauto.
  reflexivity.
Qed.

(** X20.  For rosters whose win percentages are percentages, between 0
    and 100, [getCoinTossRecommendation] reports a confidence that is a
    whole number of hundredths from 0.50 to 0.95, and suggests a first
    player exactly when it recommends throwing first; the suggested
    player is then one of our players.  With an empty roster on either
    side it recommends deferring, with confidence 0.56 and no suggested
    player.  (With percentages no sum of the code overflows, every
    average is a number, and a best opener is found in every non-empty
    roster.) *)
Theorem getCoinTossRecommendation_fields
  (ourPlayers : list MatchupInput.t) (theirPlayers : list OpponentInput)
  (headToHeadData : HeadToHeadData) :
  Forall inRange ourPlayers -> Forall inRange theirPlayers ->
  let decision :=
    getCoinTossRecommendation ourPlayers theirPlayers headToHeadData in
  hundredths 50 95 (CoinTossDecision.confidence decision)
  /\ match CoinTossDecision.suggestedFirstPlayer decision with
     | Some id =>
         CoinTossDecision.recommendation decision = throw_first
         /\ In id (map (fun p => Player.id (MatchupInput.player p))
                     ourPlayers)
     | None => CoinTossDecision.recommendation decision = defer
     end
  /\ (ourPlayers = [] \/ theirPlayers = [] ->
      CoinTossDecision.recommendation decision = defer
      /\ hundredths 56 56 (CoinTossDecision.confidence decision)
      /\ CoinTossDecision.suggestedFirstPlayer decision = None).
Proof.
  intros _ _. cbv zeta. unfold getCoinTossRecommendation. cbv zeta.
  cbn [CoinTossDecision.confidence CoinTossDecision.recommendation
       CoinTossDecision.suggestedFirstPlayer].
  split; [| split].
  - unfold analyzeThrowFirstAdvantage. cbv zeta.
    cbn [throwFirstScore deferScore].
    destruct (openerProbability_value ourPlayers theirPlayers headToHeadData)
      as [a [-> Ba]].
    destruct (openerProbability_value (map copyInput theirPlayers)
                (map copyInput ourPlayers) headToHeadData) as [b [-> Bb]].
    unfold throwFirstScore_local, deferScore_local, round2.
    cbn [nadd nsub nmul nneg Math_round]. unfold ofZ.
    rewrite !ndiv_Fin by (intro E; discriminate E).
    cbn [nadd nsub nmul nneg Math_abs].
    match goal with
    | |- context [Math_min (Fin ?x) (Fin ?y)] =>
        assert (P : 0.5 <= x);
        [ match goal with
          | |- context [Qabs ?d] => pose proof (Qabs_nonneg d)
          end; lra
        | set (d := x) in *;
          destruct (Math_min_Qmin d y) as [m [-> Vm]] ]
    end.
    change (hundredths 50 95 (round2 (Fin m))).
    apply round2_hundredths. rewrite Vm.
    change (inject_Z 50) with 50. change (inject_Z 95) with 95.
    split; qminmax.
  - destruct (recommendation _) eqn:R; [| reflexivity].
    destruct (getBestOpener ourPlayers theirPlayers headToHeadData)
      as [r |] eqn:E.
    + split; [reflexivity |]. apply getBestOpener_member in E. apply E.
    + apply getBestOpener_some_or_empty in E.
      rewrite (analyzeThrowFirstAdvantage_empty _ _ _ E) in R.
      discriminate R.
  - intro E. rewrite (analyzeThrowFirstAdvantage_empty _ _ _ E).
    split; [reflexivity |]. split; [| reflexivity].
    exists 56%Z. split; [| lia]. vm_compute. reflexivity.
Qed.

Lemma getCoinTossRecommendation_fields_witness :
  let decision :=
    getCoinTossRecommendation [dana; carl] [plain 9 "Zed" 5] exampleHistory in
  hundredths 50 95 (CoinTossDecision.confidence decision)
  /\ match CoinTossDecision.suggestedFirstPlayer decision with
     | Some id =>
         CoinTossDecision.recommendation decision = throw_first
         /\ In id (map (fun p => Player.id (MatchupInput.player p))
                     [dana; carl])
     | None => CoinTossDecision.recommendation decision = defer
     end
  /\ ([dana; carl] = [] \/ [plain 9 "Zed" 5] = [] ->
      CoinTossDecision.recommendation decision = defer
      /\ hundredths 56 56 (CoinTossDecision.confidence decision)
      /\ CoinTossDecision.suggestedFirstPlayer decision = None).
Proof.
  apply (getCoinTossRecommendation_fields [dana; carl] [plain 9 "Zed" 5]
           exampleHistory).
  - in_range.
  - in_range.
Defined.

(* ================================================================= *)
(** ** The match store *)

Lemma updateGame_gameNumbers (gameNumber : Z)
  (change : StoredGame.t -> StoredGame.t) (games : list StoredGame.t) :
  (forall g, StoredGame.gameNumber (change g) = StoredGame.gameNumber g) ->
  map StoredGame.gameNumber (updateGame gameNumber change games)
  = map StoredGame.gameNumber games.
Proof.
  intro H. induction games as [| g games IH]; [reflexivity |].
  cbn [updateGame]. destruct (_ =? _)%Z; cbn [map].
  - rewrite H. reflexivity.
  - rewrite IH. reflexivity.
Qed.

Lemma hasResult_result (outcome : GameOutcome) (g g' : StoredGame.t) :
  StoredGame.result g = StoredGame.result g' ->
  hasResult outcome g = hasResult outcome g'.
Proof. unfold hasResult. intros ->. reflexivity. Qed.

Lemma updateGame_count (gameNumber : Z)
  (change : StoredGame.t -> StoredGame.t) (games : list StoredGame.t)
  (outcome : GameOutcome) :
  (forall g, StoredGame.result (change g) = StoredGame.result g) ->
  length_of (filter (hasResult outcome) (updateGame gameNumber change games))
  = length_of (filter (hasResult outcome) games).
Proof.
  intro H. induction games as [| g games IH]; [reflexivity |].
  cbn [updateGame].
  destruct (StoredGame.gameNumber g =? gameNumber)%Z; cbn [filter].
  - rewrite (hasResult_result outcome (change g) g (H g)).
    destruct (hasResult outcome g); [| reflexivity].
    rewrite !length_of_cons. reflexivity.
  - destruct (hasResult outcome g); [| exact IH].
    rewrite !length_of_cons, IH. reflexivity.
Qed.

(** Every game is won, lost or pending. *)
Lemma results_partition (games : list StoredGame.t) :
  (length_of (filter (hasResult win) games)
   + length_of (filter (hasResult loss) games)
   + length_of (filter (hasResult pending) games)
   = length_of games)%Z
  /\ length_of (filter (fun g => negb (hasResult pending g)) games)
     = (length_of (filter (hasResult win) games)
        + length_of (filter (hasResult loss) games))%Z.
Proof.
  induction games as [| g games [IH1 IH2]]; [split; reflexivity |].
  cbn [filter].
  destruct (hasResult win g) eqn:W, (hasResult loss g) eqn:L,
    (hasResult pending g) eqn:P;
    unfold hasResult in W, L, P;
    destruct (StoredGame.result g); try discriminate;
    cbn [negb]; rewrite ?length_of_cons; split; lia.
Qed.

Lemma call_consistent {Match : Type} (state : MatchState Match)
  (action : Action Match) :
  consistentStore state -> consistentStore (call state action).
Proof.
  unfold consistentStore, consistentMatch.
  destruct action; cbn [call];
    unfold loadUpcomingMatches, startMatch, setAttendance,
      setCoinTossResult, setWeThrowFirst, setCurrentRecommendations,
      setCoinTossDecision, recordTheirPlayer, recordOurPlayer,
      recordGameResult, nextGame, endMatch, resetMatch, addChatMessage,
      clearChatHistory, setLiveMatch, withGames, withStatus;
    cbv zeta;
    try (destruct (liveMatch state) as [m |]; cbn; tauto);
    try (intros _; cbn; repeat split; lia).
  - destruct (liveMatch state) as [m |] eqn:L; [| rewrite L; trivial].
    cbn [liveMatch StoredMatch.games StoredMatch.ourScore
         StoredMatch.theirScore StoredMatch.currentGame].
    intros [G [O [T C]]].
    rewrite updateGame_gameNumbers, !updateGame_count by reflexivity.
    tauto.
  - destruct (liveMatch state) as [m |] eqn:L; [| rewrite L; trivial].
    cbn [liveMatch StoredMatch.games StoredMatch.ourScore
         StoredMatch.theirScore StoredMatch.currentGame].
    intros [G [O [T C]]].
    rewrite updateGame_gameNumbers, !updateGame_count by reflexivity.
    tauto.
  - destruct (liveMatch state) as [m |] eqn:L; [| rewrite L; trivial].
    cbn [liveMatch StoredMatch.games StoredMatch.ourScore
         StoredMatch.theirScore StoredMatch.currentGame].
    intros [G [O [T C]]].
    rewrite updateGame_gameNumbers by reflexivity.
    tauto.
  - destruct (liveMatch state) as [m |] eqn:L; [| rewrite L; trivial].
    destruct (StoredMatch.currentGame m >=? 5)%Z eqn:E.
    + rewrite L. trivial.
    + cbn. intros [G [O [T C]]]. repeat split; try assumption; lia.
Qed.

Lemma stateAfter_consistent {Match : Type} (actions : list (Action Match)) :
  consistentStore (stateAfter actions).
Proof.
  unfold stateAfter. apply fold_left_invariant.
  - intros s a. apply call_consistent.
  - exact I.
Qed.

Lemma consistentMatch_games (m : StoredMatch.t) :
  consistentMatch m ->
  exists g1 g2 g3 g4 g5,
    StoredMatch.games m = [g1; g2; g3; g4; g5]
    /\ StoredGame.gameNumber g1 = 1%Z /\ StoredGame.gameNumber g2 = 2%Z
    /\ StoredGame.gameNumber g3 = 3%Z /\ StoredGame.gameNumber g4 = 4%Z
    /\ StoredGame.gameNumber g5 = 5%Z.
Proof.
  intros [G _].
  destruct (StoredMatch.games m)
    as [| g1 [| g2 [| g3 [| g4 [| g5 [| g6 games]]]]]];
    try discriminate G.
  injection G as G1 G2 G3 G4 G5.
  exists g1, g2, g3, g4, g5. tauto.
Qed.

Lemma consistentMatch_scores (m : StoredMatch.t) :
  consistentMatch m ->
  (0 <= StoredMatch.ourScore m)%Z /\ (0 <= StoredMatch.theirScore m)%Z
  /\ (StoredMatch.ourScore m + StoredMatch.theirScore m <= 5)%Z.
Proof.
  intros [G [O [T _]]].
  destruct (results_partition (StoredMatch.games m)) as [P _].
  pose proof (length_of_nonneg
                (filter (hasResult win) (StoredMatch.games m))).
  pose proof (length_of_nonneg
                (filter (hasResult loss) (StoredMatch.games m))).
  pose proof (length_of_nonneg
                (filter (hasResult pending) (StoredMatch.games m))).
  assert (L : length_of (StoredMatch.games m) = 5%Z).
  { unfold length_of. rewrite <- (length_map StoredGame.gameNumber), G.
    reflexivity. }
  lia.
Qed.

(** X24.  After any sequence of calls on the store the live match, when
    there is one, has its five game slots numbered 1 to 5, a current game
    from 1 to 5, and scores that are the numbers of won and of lost games,
    also after a result was recorded twice or for a game that is not
    there: the two scores add up to 5 at most, so that both sides never
    have 3 wins. *)
Theorem store_consistent (Match : Type) (actions : list (Action Match)) :
  match liveMatch (stateAfter actions) with
  | Some m =>
      map StoredGame.gameNumber (StoredMatch.games m) = [1; 2; 3; 4; 5]%Z
      /\ (1 <= StoredMatch.currentGame m <= 5)%Z
      /\ StoredMatch.ourScore m
         = length_of (filter (hasResult win) (StoredMatch.games m))
      /\ StoredMatch.theirScore m
         = length_of (filter (hasResult loss) (StoredMatch.games m))
      /\ (0 <= StoredMatch.ourScore m)%Z /\ (0 <= StoredMatch.theirScore m)%Z
      /\ (StoredMatch.ourScore m + StoredMatch.theirScore m <= 5)%Z
      /\ ((StoredMatch.ourScore m < 3)%Z \/ (StoredMatch.theirScore m < 3)%Z)
  | None => True
  end.
Proof.
  pose proof (stateAfter_consistent actions) as C.
  unfold consistentStore in C.
  destruct (liveMatch (stateAfter actions)) as [m |]; [| exact I].
  pose proof (consistentMatch_scores m C) as [O [T S]].
  destruct C as [G [Eo [Et B]]].
  repeat split; try assumption; try lia.
Qed.

(** X25.  After any sequence of calls on the store, [getMatchProgress]
    reports the two scores of the live match, and their sum as the number
    of games played; [getCurrentGame] finds a game, the slot of index
    [currentGame - 1].  Without a live match they give zeros and null. *)
Theorem store_getters (Match : Type) (actions : list (Action Match)) :
  let state := stateAfter actions in
  match liveMatch state with
  | Some m =>
      getMatchProgress state
      = mkMatchProgress (StoredMatch.ourScore m + StoredMatch.theirScore m)
          (StoredMatch.ourScore m) (StoredMatch.theirScore m)
      /\ exists g,
          getCurrentGame state = Some g
          /\ StoredGame.gameNumber g = StoredMatch.currentGame m
          /\ nth_error (StoredMatch.games m)
               (Z.to_nat (StoredMatch.currentGame m - 1)) = Some g
  | None =>
      getMatchProgress state = mkMatchProgress 0 0 0
      /\ getCurrentGame state = None
  end.
Proof.
  cbv zeta.
  pose proof (stateAfter_consistent actions) as C.
  unfold consistentStore in C. unfold getMatchProgress, getCurrentGame.
  destruct (liveMatch (stateAfter actions)) as [m |];
    [| split; reflexivity].
  split.
  - cbv zeta. destruct (results_partition (StoredMatch.games m)) as [_ ->].
    destruct C as [_ [<- [<- _]]]. reflexivity.
  - destruct (consistentMatch_games m C)
      as [g1 [g2 [g3 [g4 [g5 [-> [N1 [N2 [N3 [N4 N5]]]]]]]]]].
    destruct C as [_ [_ [_ B]]].
    assert (K : StoredMatch.currentGame m = 1%Z
                \/ StoredMatch.currentGame m = 2%Z
                \/ StoredMatch.currentGame m = 3%Z
                \/ StoredMatch.currentGame m = 4%Z
                \/ StoredMatch.currentGame m = 5%Z) by lia.
    cbn [find]. rewrite N1, N2, N3, N4, N5.
    destruct K as [-> | [-> | [-> | [-> | ->]]]]; cbn;
      eexists; repeat split; assumption.
Qed.

Lemma consistentMatch_current (m : StoredMatch.t) :
  consistentMatch m ->
  exists g,
    find (fun g => (StoredGame.gameNumber g =? StoredMatch.currentGame m)%Z)
      (StoredMatch.games m) = Some g
    /\ StoredGame.gameNumber g = StoredMatch.currentGame m
    /\ nth_error (StoredMatch.games m)
         (Z.to_nat (StoredMatch.currentGame m - 1)) = Some g.
Proof.
  intro C.
  destruct (consistentMatch_games m C)
    as [g1 [g2 [g3 [g4 [g5 [-> [N1 [N2 [N3 [N4 N5]]]]]]]]]].
  destruct C as [_ [_ [_ B]]].
  assert (K : StoredMatch.currentGame m = 1%Z
              \/ StoredMatch.currentGame m = 2%Z
              \/ StoredMatch.currentGame m = 3%Z
              \/ StoredMatch.currentGame m = 4%Z
              \/ StoredMatch.currentGame m = 5%Z) by lia.
  cbn [find]. rewrite N1, N2, N3, N4, N5.
  destruct K as [-> | [-> | [-> | [-> | ->]]]]; cbn;
    eexists; repeat split; assumption.
Qed.

Lemma updateGame_changed (gameNumber : Z)
  (change : StoredGame.t -> StoredGame.t) (games : list StoredGame.t)
  (g : StoredGame.t) :
  find (fun g => (StoredGame.gameNumber g =? gameNumber)%Z) games = Some g ->
  In (change g) (updateGame gameNumber change games).
Proof.
  induction games as [| g0 games IH]; [discriminate |].
  cbn [find updateGame].
  destruct (StoredGame.gameNumber g0 =? gameNumber)%Z.
  - intros [= ->]. left. reflexivity.
  - intro F. right. exact (IH F).
Qed.

Lemma updateGame_found (gameNumber : Z)
  (change : StoredGame.t -> StoredGame.t) (games : list StoredGame.t)
  (g : StoredGame.t) :
  (forall g, StoredGame.gameNumber (change g) = StoredGame.gameNumber g) ->
  find (fun g => (StoredGame.gameNumber g =? gameNumber)%Z) games = Some g ->
  find (fun g => (StoredGame.gameNumber g =? gameNumber)%Z)
    (updateGame gameNumber change games) = Some (change g).
Proof.
  intro H. induction games as [| g0 games IH]; [discriminate |].
  cbn [find updateGame].
  destruct (StoredGame.gameNumber g0 =? gameNumber)%Z eqn:E.
  - intros [= ->]. cbn [find]. rewrite H, E. reflexivity.
  - intro F. cbn [find]. rewrite E. exact (IH F).
Qed.

Lemma updateGame_recount (gameNumber : Z)
  (change : StoredGame.t -> StoredGame.t) (games : list StoredGame.t)
  (g : StoredGame.t) (outcome : GameOutcome) :
  find (fun g => (StoredGame.gameNumber g =? gameNumber)%Z) games = Some g ->
  length_of (filter (hasResult outcome) (updateGame gameNumber change games))
  = (length_of (filter (hasResult outcome) games)
     - (if hasResult outcome g then 1 else 0)
     + (if hasResult outcome (change g) then 1 else 0))%Z.
Proof.
  induction games as [| g0 games IH]; [discriminate |].
  cbn [find updateGame].
  destruct (StoredGame.gameNumber g0 =? gameNumber)%Z.
  - intros [= ->]. cbn [filter].
    destruct (hasResult outcome g), (hasResult outcome (change g));
      rewrite ?length_of_cons; lia.
  - intro F. cbn [filter]. destruct (hasResult outcome g0).
    + rewrite !length_of_cons, (IH F). lia.
    + exact (IH F).
Qed.

Lemma updateGame_opponents (gameNumber : Z)
  (change : StoredGame.t -> StoredGame.t) (games : list StoredGame.t) :
  (forall g, StoredGame.theirPlayerId (change g) = StoredGame.theirPlayerId g) ->
  assignedIds LiveGame.theirPlayerId
    (map StoredGame.view (updateGame gameNumber change games))
  = assignedIds LiveGame.theirPlayerId (map StoredGame.view games).
Proof.
  intro H. unfold assignedIds.
  induction games as [| g0 games IH]; [reflexivity |].
  cbn [updateGame].
  destruct (StoredGame.gameNumber g0 =? gameNumber)%Z; cbn.
  - rewrite H. reflexivity.
  - f_equal. exact IH.
Qed.

Lemma updateGame_ours (gameNumber playerId : Z)
  (games : list StoredGame.t) (g : StoredGame.t) (x : Z) :
  find (fun g => (StoredGame.gameNumber g =? gameNumber)%Z) games = Some g ->
  StoredGame.ourPlayerId g = None ->
  includes
    (assignedIds LiveGame.ourPlayerId
       (map StoredGame.view
          (updateGame gameNumber
             (fun g =>
                StoredGame.mk (StoredGame.gameNumber g)
                  (Some playerId) (StoredGame.theirPlayerId g)
                  (StoredGame.result g) (StoredGame.ourPoints g)
                  (StoredGame.theirPoints g) (StoredGame.recommendation g)
                  (StoredGame.wasRecommendationFollowed g))
             games))) x
  = ((playerId =? x)%Z
     || includes
          (assignedIds LiveGame.ourPlayerId (map StoredGame.view games)) x)%bool.
Proof.
  unfold includes, assignedIds.
  induction games as [| g0 games IH]; [discriminate |].
  cbn [find updateGame].
  destruct (StoredGame.gameNumber g0 =? gameNumber)%Z.
  - intros [= ->] N. cbn. rewrite N. reflexivity.
  - intros F N. cbn [map flat_map]. rewrite !existsb_app, (IH F N).
    rewrite !orb_assoc. f_equal. apply orb_comm.
Qed.

Lemma filter_twice {A : Type} (f g : A -> bool) (l : list A) :
  filter f (filter g l) = filter (fun x => (g x && f x)%bool) l.
Proof.
  induction l as [| x l IH]; [reflexivity |].
  cbn [filter]. destruct (g x); cbn [andb filter]; rewrite IH; reflexivity.
Qed.

(** X26.  In any state of the store with a live match, recording our
    player for the current game leaves no player of that id available;
    when the slot had no player of ours, the available players are the
    former ones without that id.  The available opponents and the two
    scores stay as they were. *)
Theorem recordOurPlayer_unavailable (Match : Type)
  (actions : list (Action Match)) (playerId : Z)
  (presentPlayers presentOpponents : list Player.t) :
  let state := stateAfter actions in
  match liveMatch state with
  | Some m =>
      match
        liveMatch (recordOurPlayer (StoredMatch.currentGame m) playerId state),
        getCurrentGame state
      with
      | Some m', Some g =>
          Forall (fun p => Player.id p <> playerId)
            (getAvailablePlayers presentPlayers (StoredMatch.view m'))
          /\ (StoredGame.ourPlayerId g = None ->
              getAvailablePlayers presentPlayers (StoredMatch.view m')
              = filter (fun p => negb (playerId =? Player.id p)%Z)
                  (getAvailablePlayers presentPlayers (StoredMatch.view m)))
          /\ getAvailableOpponents presentOpponents (StoredMatch.view m')
             = getAvailableOpponents presentOpponents (StoredMatch.view m)
          /\ StoredMatch.ourScore m' = StoredMatch.ourScore m
          /\ StoredMatch.theirScore m' = StoredMatch.theirScore m
      | _, _ => False
      end
  | None => True
  end.
Proof.
  cbv zeta.
  pose proof (stateAfter_consistent actions) as C.
  unfold consistentStore in C. unfold recordOurPlayer, getCurrentGame.
  destruct (liveMatch (stateAfter actions)) as [m |]; [| exact I].
  destruct (consistentMatch_current m C) as [g [F [N _]]].
  rewrite F. cbv zeta. cbn [liveMatch setLiveMatch].
  unfold getAvailablePlayers, getAvailableOpponents.
  cbn [StoredMatch.view withGames StoredMatch.games LiveMatch.games
       StoredMatch.ourScore StoredMatch.theirScore].
  split; [| split; [| split; [| split; reflexivity]]].
  - apply Forall_forall. intros p Hp E.
    apply filter_In in Hp. destruct Hp as [_ Hp].
    apply negb_true_iff in Hp.
    assert (T : includes
                  (assignedIds LiveGame.ourPlayerId
                     (map StoredGame.view
                        (updateGame (StoredMatch.currentGame m)
                           (fun g =>
                              StoredGame.mk (StoredGame.gameNumber g)
                                (Some playerId) (StoredGame.theirPlayerId g)
                                (StoredGame.result g)
                                (StoredGame.ourPoints g)
                                (StoredGame.theirPoints g)
                                (StoredGame.recommendation g)
                                (StoredGame.wasRecommendationFollowed g))
                           (StoredMatch.games m))))
                  (Player.id p) = true).
    { apply includes_In, assignedIds_In.
      eexists. split.
      - apply in_map. apply updateGame_changed. exact F.
      - cbn. rewrite E. reflexivity. }
    congruence.
  - intro None. rewrite filter_twice. apply filter_ext. intro p.
    rewrite (updateGame_ours _ _ _ g _ F None).
    rewrite negb_orb. apply andb_comm.
  - rewrite updateGame_opponents by reflexivity. reflexivity.
Qed.

(** X27.  In any state of the store with a live match, recording the
    result of the current game gives scores that count it once: the
    former result of the game, if it had one, is taken out of its side's
    score and the new one added, so that a pending game adds 1 to exactly
    one score and a corrected result moves 1 from one to the other.  The
    match is completed when a side then has 3 wins, or was completed
    before. *)
Theorem recordGameResult_scores (Match : Type)
  (actions : list (Action Match)) (won : bool)
  (ourPoints theirPoints : option Z) :
  let state := stateAfter actions in
  match liveMatch state with
  | Some m =>
      let state' :=
        recordGameResult (StoredMatch.currentGame m) won ourPoints
          theirPoints state in
      match liveMatch state', getCurrentGame state, getCurrentGame state' with
      | Some m', Some g, Some g' =>
          StoredMatch.ourScore m'
          = (StoredMatch.ourScore m - (if hasResult win g then 1 else 0)
             + (if won then 1 else 0))%Z
          /\ StoredMatch.theirScore m'
             = (StoredMatch.theirScore m
                - (if hasResult loss g then 1 else 0)
                + (if won then 0 else 1))%Z
          /\ (StoredMatch.status m' = completed
              <-> StoredMatch.status m = completed
                  \/ (3 <= StoredMatch.ourScore m')%Z
                  \/ (3 <= StoredMatch.theirScore m')%Z)
          /\ StoredGame.result g' = (if won then win else loss)
          /\ StoredGame.ourPoints g' = ourPoints
          /\ StoredGame.theirPoints g' = theirPoints
          /\ StoredGame.ourPlayerId g' = StoredGame.ourPlayerId g
          /\ StoredGame.theirPlayerId g' = StoredGame.theirPlayerId g
      | _, _, _ => False
      end
  | None => True
  end.
Proof.
  cbv zeta.
  pose proof (stateAfter_consistent actions) as C.
  unfold consistentStore in C. unfold recordGameResult, getCurrentGame.
  destruct (liveMatch (stateAfter actions)) as [m |]; [| exact I].
  destruct (consistentMatch_current m C) as [g [F [N _]]].
  rewrite F. cbv zeta. cbn [liveMatch setLiveMatch].
  cbn [StoredMatch.games StoredMatch.currentGame StoredMatch.ourScore
       StoredMatch.theirScore StoredMatch.status].
  rewrite (updateGame_found _ _ _ g) by (try reflexivity; exact F).
  rewrite !(updateGame_recount _ _ _ g _ F).
  destruct C as [_ [<- [<- _]]].
  cbn [StoredGame.result StoredGame.ourPoints StoredGame.theirPoints
       StoredGame.ourPlayerId StoredGame.theirPlayerId].
  assert (W : hasResult win
                (StoredGame.mk (StoredGame.gameNumber g)
                   (StoredGame.ourPlayerId g) (StoredGame.theirPlayerId g)
                   (if won then win else loss) ourPoints theirPoints
                   (StoredGame.recommendation g)
                   (StoredGame.wasRecommendationFollowed g)) = won)
    by (destruct won; reflexivity).
  assert (L : hasResult loss
                (StoredGame.mk (StoredGame.gameNumber g)
                   (StoredGame.ourPlayerId g) (StoredGame.theirPlayerId g)
                   (if won then win else loss) ourPoints theirPoints
                   (StoredGame.recommendation g)
                   (StoredGame.wasRecommendationFollowed g)) = negb won)
    by (destruct won; reflexivity).
  rewrite W, L.
  split; [reflexivity |]. split; [destruct won; reflexivity |].
  split; [| repeat split].
  set (ourScore' := (_ - _ + _)%Z). set (theirScore' := (_ - _ + _)%Z).
  destruct (ourScore' >=? 3)%Z eqn:Eo; cbn [orb].
  - apply Z.geb_le in Eo. split; [intros _; right; left; exact Eo |].
    reflexivity.
  - destruct (theirScore' >=? 3)%Z eqn:Et.
    + apply Z.geb_le in Et. split; [intros _; right; right; exact Et |].
      reflexivity.
    + assert (ourScore' < 3)%Z by (rewrite Z.geb_leb in Eo; lia).
      assert (theirScore' < 3)%Z by (rewrite Z.geb_leb in Et; lia).
      split; [intro E; left; exact E | intros [E | [E | E]]];
        [exact E | lia | lia].
Qed.

(** X28.  On the scores of any state of the store,
    [calculateMatchWinProbability] returns 1 exactly when we have 3 wins
    and 0 exactly when they have: the store never holds a score with 3
    wins on both sides. *)
Theorem store_match_decided (Match : Type) (actions : list (Action Match))
  (ourRemainingPlayers : list MatchupInput.t)
  (theirRemainingPlayers : list OpponentInput)
  (headToHeadData : HeadToHeadData) :
  match liveMatch (stateAfter actions) with
  | Some m =>
      let p :=
        calculateMatchWinProbability (StoredMatch.ourScore m)
          (StoredMatch.theirScore m) ourRemainingPlayers
          theirRemainingPlayers headToHeadData in
      (p = Fin 1 <-> (3 <= StoredMatch.ourScore m)%Z)
      /\ (p = Fin 0 <-> (3 <= StoredMatch.theirScore m)%Z)
  | None => True
  end.
Proof.
  pose proof (stateAfter_consistent actions) as C.
  unfold consistentStore in C.
  destruct (liveMatch (stateAfter actions)) as [m |]; [| exact I].
  destruct (consistentMatch_scores m C) as [O [T S]].
  cbv zeta.
  pose proof (calculateMatchWinProbability_undecided (StoredMatch.ourScore m)
                (StoredMatch.theirScore m) ourRemainingPlayers
                theirRemainingPlayers headToHeadData) as U.
  unfold calculateMatchWinProbability in *. cbv zeta in *.
  destruct (3 - StoredMatch.ourScore m <=? 0)%Z eqn:Eo.
  { apply Z.leb_le in Eo. split; split; intro H; try reflexivity; try lia.
    discriminate H. }
  destruct (3 - StoredMatch.theirScore m <=? 0)%Z eqn:Et.
  { apply Z.leb_le in Et. apply Z.leb_gt in Eo.
    split; split; intro H; try reflexivity; try lia.
    discriminate H. }
  apply Z.leb_gt in Eo. apply Z.leb_gt in Et.
  destruct U as [q [Eq Bq]]; [lia | lia |].
  rewrite Eq.
  split; split; intro H; try lia; exfalso; injection H as H;
    rewrite H in Bq; destruct Bq as [B1 B2];
    [apply (Qle_not_lt _ _ B2) | apply (Qle_not_lt _ _ B1)]; reflexivity.
Qed.

(* ================================================================= *)
(** ** Rosters and advice *)

(** X22.  [getAvailableOpponents] keeps, in their order, the present
    opponents that no game slot has as [theirPlayerId], whatever the
    result of the game; [filterPresentPlayers] keeps the players whose id
    is among the present ids; the two filters can be taken in either
    order. *)
Theorem getAvailableOpponents_spec
  (allPlayers : list Player.t) (presentPlayerIds : list Z)
  (liveMatch : LiveMatch.t) :
  (forall p : Player.t,
      In p (getAvailableOpponents allPlayers liveMatch)
      <-> In p allPlayers
          /\ forall g, In g (LiveMatch.games liveMatch) ->
                       LiveGame.theirPlayerId g <> Some (Player.id p))
  /\ (forall p : Player.t,
         In p (filterPresentPlayers allPlayers presentPlayerIds)
         <-> In p allPlayers /\ In (Player.id p) presentPlayerIds)
  /\ getAvailableOpponents
       (filterPresentPlayers allPlayers presentPlayerIds) liveMatch
     = filterPresentPlayers (getAvailableOpponents allPlayers liveMatch)
         presentPlayerIds.
Proof.
  split; [| split].
  - intro p. unfold getAvailableOpponents. rewrite filter_In.
    rewrite negb_true_iff.
    split; intros [Hp H]; (split; [exact Hp |]).
    + intros g Hg E.
      assert (T : includes (assignedIds LiveGame.theirPlayerId
                              (LiveMatch.games liveMatch)) (Player.id p)
                  = true).
      { apply includes_In, assignedIds_In. exists g. split; assumption. }
      congruence.
    + destruct (includes _ _) eqn:T; [| reflexivity].
      apply includes_In, assignedIds_In in T.
      destruct T as [g [Hg E]]. exfalso. exact (H g Hg E).
  - intro p. unfold filterPresentPlayers. rewrite filter_In, includes_In.
    reflexivity.
  - unfold getAvailableOpponents, filterPresentPlayers.
    rewrite !filter_twice. apply filter_ext. intro p. apply andb_comm.
Qed.

(** X23.  [getMatchStateAdvice] gives one or two lines on the score, and
    after them the line on the final game exactly when the current game
    is game 5.  The must-win line comes exactly when we are behind by 2
    or more and by no less than the games that remain; the first-game
    line exactly at 0 to 0. *)
Theorem getMatchStateAdvice_lines (liveMatch : LiveMatch.t) :
  let advice := getMatchStateAdvice liveMatch in
  let ourScore := LiveMatch.ourScore liveMatch in
  let theirScore := LiveMatch.theirScore liveMatch in
  let currentGame := LiveMatch.currentGame liveMatch in
  (1 <= length_of advice <= 3)%Z
  /\ (In "Final game - put your best foot forward"%string advice
      <-> currentGame = 5%Z)
  /\ (length_of advice = 3%Z -> currentGame = 5%Z)
  /\ (In "Must-win situation - go with highest probability matchup"%string
        advice
      <-> (2 <= theirScore - ourScore)%Z
          /\ (5 - currentGame + 1 <= theirScore - ourScore)%Z)
  /\ (In "First game sets the tone - consider a strong opener"%string advice
      <-> ourScore = 0%Z /\ theirScore = 0%Z)
  /\ (In "Tied match - every game is crucial"%string advice
      <-> ourScore = theirScore /\ ourScore <> 0%Z).
Proof.
  cbv zeta. unfold getMatchStateAdvice. cbv zeta.
  destruct ((LiveMatch.ourScore liveMatch =? 0)%Z
            && (LiveMatch.theirScore liveMatch =? 0)%Z)%bool eqn:E0;
    [| destruct (LiveMatch.ourScore liveMatch
                 >? LiveMatch.theirScore liveMatch)%Z eqn:E1;
       [ destruct (LiveMatch.ourScore liveMatch
                   - LiveMatch.theirScore liveMatch >=? 2)%Z eqn:E2
       | destruct (LiveMatch.theirScore liveMatch
                   >? LiveMatch.ourScore liveMatch)%Z eqn:E3;
         [ destruct ((LiveMatch.theirScore liveMatch
                      - LiveMatch.ourScore liveMatch >=? 2)%Z
                     && (5 - LiveMatch.currentGame liveMatch + 1
                         <=? LiveMatch.theirScore liveMatch
                             - LiveMatch.ourScore liveMatch)%Z)%bool eqn:E4
         | ] ] ];
    destruct (LiveMatch.currentGame liveMatch =? 5)%Z eqn:E5;
    cbn [app];
    (split; [cbn; lia |]);
    repeat split; intros; cbn [In] in *;
    repeat match goal with
           | H : _ \/ _ |- _ => destruct H
           | H : _ /\ _ |- _ => destruct H
           | H : False |- _ => destruct H
           | H : String _ _ = String _ _ |- _ => discriminate H
           end;
    try lia; try (cbn in *; lia); tauto.
Qed.

(* ================================================================= *)
(** ** Binary64: comparisons and the clamp *)

Open Scope float_scope.

Lemma ltb_leb (x y : float) : (x <? y) = true -> (x <=? y) = true.
Proof.
  rewrite ltb_spec, leb_spec. unfold SFltb, SFleb.
  destruct (SFcompare _ _) as [[| |] |]; congruence.
Qed.

Lemma eqb_leb (x y : float) : (x =? y) = true -> (x <=? y) = true.
Proof.
  rewrite eqb_spec, leb_spec. unfold SFeqb, SFleb.
  destruct (SFcompare _ _) as [[| |] |]; congruence.
Qed.

Lemma eqb_ltb (x y : float) : (x =? y) = true -> (x <? y) = false.
Proof.
  rewrite eqb_spec, ltb_spec. unfold SFeqb, SFltb.
  destruct (SFcompare _ _) as [[| |] |]; congruence.
Qed.

Lemma leb_refl (x : float) : is_nan x = false -> (x <=? x) = true.
Proof.
  unfold is_nan. intro H. apply negb_false_iff in H. apply eqb_leb, H.
Qed.

(** The clamp [Math.max(lo, Math.min(hi, w))] between two numbers other
    than zero and NaN: NaN exactly when [w] is NaN, and within the bounds
    otherwise. *)
Lemma B64_clamp (lo hi w : float) :
  is_nan lo = false -> is_nan hi = false ->
  is_zero lo = false -> is_zero hi = false ->
  B64.Math_max lo hi = hi -> (lo <=? hi) = true ->
  let r := B64.Math_max lo (B64.Math_min hi w) in
  is_nan r = is_nan w
  /\ (is_nan w = false -> ((lo <=? r) && (r <=? hi))%bool = true).
Proof.
  intros Nlo Nhi Zlo Zhi M L. cbv zeta.
  pose proof (leb_refl lo Nlo) as Rlo. pose proof (leb_refl hi Nhi) as Rhi.
  unfold B64.Math_min. rewrite Nhi, Zhi. cbn [orb andb].
  destruct (is_nan w) eqn:Nw.
  { unfold B64.Math_max. rewrite Nlo. cbn. split; [reflexivity | discriminate]. }
  destruct (w <? hi) eqn:Wlt.
  - unfold B64.Math_max. rewrite Nlo, Nw, Zlo. cbn [orb andb].
    destruct (lo <? w) eqn:Llt.
    + rewrite Nw. split; [reflexivity |]. intros _.
      rewrite (ltb_leb _ _ Llt), (ltb_leb _ _ Wlt). reflexivity.
    + assert (E : (if w <? lo then lo else lo) = lo) by (destruct (w <? lo); reflexivity).
      rewrite E, Nlo. split; [reflexivity |]. intros _. rewrite Rlo, L. reflexivity.
  - assert (E : (if hi <? w then hi else hi) = hi) by (destruct (hi <? w); reflexivity).
    rewrite E, M, Nhi. split; [reflexivity |]. intros _. rewrite L, Rhi. reflexivity.
Qed.


(* ================================================================= *)
(** ** Binary64: the probability can be NaN *)

(** C3.  In the arithmetic of the code the final clamp of
    [calculateWinProbability] lets NaN through: the probability is NaN
    exactly when the weighted sum of the factors is, and within
    [[0.15, 0.85]] otherwise.  It is NaN for a win percentage that is NaN,
    and for finite recent win percentages whose sums overflow on both
    sides (infinity minus infinity). *)
Theorem calculateWinProbability_NaN :
  (forall (player : Player.t) (playerStats : option B64.PlayerStats.t)
          (opponent : Player.t) (opponentStats : option B64.PlayerStats.t)
          (headToHead : option HeadToHead.t)
          (recentPlayerStats recentOpponentStats
             : option (list B64.PlayerStats.t)),
      let r := B64.calculateWinProbability player playerStats opponent
                 opponentStats headToHead recentPlayerStats
                 recentOpponentStats in
      is_nan (B64.probability r)
      = is_nan (B64.weightedProbability (B64.factors r))
      /\ (is_nan (B64.probability r) = false ->
          ((0.15 <=? B64.probability r)
           && (B64.probability r <=? 0.85))%bool = true))
  /\ B64.probability
       (B64.calculateWinProbability ann (Some undefinedWinPct) ann
          (Some evenStats) None None None) = nan
  /\ B64.probability
       (B64.calculateWinProbability ann None ann None None
          (Some overflowingRecent) (Some overflowingRecent)) = nan
  /\ B64.sumWinPct overflowingRecent = infinity.
Proof.
  split; [| repeat split; vm_compute; reflexivity].
  intros. subst r. unfold B64.calculateWinProbability.
  destruct (B64.winPercentageDelta_block _ _) as [f2 a2].
  destruct (B64.headToHeadRecord_block _) as [f3 a3].
  destruct (B64.recentFormTrend_block _ _ _ _) as [f4 a4].
  destruct (B64.ppmEfficiency_block _ _ _ _) as [f5 a5].
  cbn [B64.probability B64.factors].
  destruct (B64_clamp 0.15 0.85
              (B64.weightedProbability
                 (B64.mkFactors
                    (B64.getBaseWinProbability (Player.skillLevel player)
                       (Player.skillLevel opponent)) f2 f3 f4 f5)))
    as [N R]; try reflexivity.
  split; [exact N |]. intro H. apply R. rewrite <- N. exact H.
Qed.

(* ================================================================= *)
(** ** Binary64: the best opener *)





(* ================================================================= *)
(** ** Binary64: throwing first or deferring *)

Lemma B64_mul_comm (x y : float) : x * y = y * x.
Proof.
  apply Prim2SF_inj. rewrite !mul_spec. unfold SF64mul, SFmul.
  destruct (Prim2SF x) as [sx | sx | | sx mx ex],
           (Prim2SF y) as [sy | sy | | sy my ey];
    try reflexivity; rewrite ?(xorb_comm sx sy); try reflexivity.
  rewrite (Pos.mul_comm mx my), (Z.add_comm ex ey). reflexivity.
Qed.

Lemma B64_map_copyInput (l : list B64.MatchupInput.t) :
  map B64.copyInput l = l.
Proof.
  induction l as [| p l IH]; [reflexivity |].
  simpl. rewrite IH. destruct p. reflexivity.
Qed.

(** C4.  For every two rosters (empty ones included, with the opener
    probability 0.5), [analyzeThrowFirstAdvantage] computes, in the
    arithmetic of the code, [throwFirstScore = 0.6 * ourBestOpenerProb
    + 0.2] and [deferScore = 0.4 * (1 - theirThreat) + 0.33], where
    [theirThreat] is 1 minus the probability of their best opener; it
    recommends throw_first exactly when the computed [throwFirstScore] is
    greater than the computed [deferScore], hence defer when the two are
    equal; the two scores it reports are these, rounded to two decimals.
    With our best opener at 0.8 and theirs at 0.3 the recommendation is
    throw_first. *)
Theorem analyzeThrowFirstAdvantage_scores
  (ourPlayers : list B64.MatchupInput.t)
  (theirPlayers : list B64.OpponentInput)
  (headToHeadData : HeadToHeadData) :
  let analysis :=
    B64.analyzeThrowFirstAdvantage ourPlayers theirPlayers headToHeadData in
  let ourBestOpenerProb :=
    B64.openerProbability
      (B64.getBestOpener ourPlayers theirPlayers headToHeadData) in
  let theirBestOpenerProb :=
    B64.openerProbability
      (B64.getBestOpener theirPlayers ourPlayers headToHeadData) in
  let theirThreat := 1 - theirBestOpenerProb in
  let throwFirst := 0.6 * ourBestOpenerProb + 0.2 in
  let deferring := 0.4 * (1 - theirThreat) + 0.33 in
  B64.throwFirstScore_local ourBestOpenerProb = throwFirst
  /\ B64.deferScore_local theirThreat = deferring
  /\ B64.throwFirstScore analysis = B64.round2 throwFirst
  /\ B64.deferScore analysis = B64.round2 deferring
  /\ (B64.recommendation analysis = throw_first
      <-> (deferring <? throwFirst) = true)
  /\ (B64.recommendation analysis = defer
      <-> (deferring <? throwFirst) = false)
  /\ ((deferring =? throwFirst) = true -> B64.recommendation analysis = defer)
  /\ (ourBestOpenerProb = 0.8 -> theirBestOpenerProb = 0.3 ->
      B64.recommendation analysis = throw_first).
Proof.
  cbv zeta.
  set (p := B64.openerProbability
              (B64.getBestOpener ourPlayers theirPlayers headToHeadData)).
  set (q := B64.openerProbability
              (B64.getBestOpener theirPlayers ourPlayers headToHeadData)).
  assert (Etf : B64.throwFirstScore_local p = 0.6 * p + 0.2).
  { unfold B64.throwFirstScore_local. rewrite (B64_mul_comm p 0.6).
    reflexivity. }
  assert (Eds : B64.deferScore_local (1 - q) = 0.4 * (1 - (1 - q)) + 0.33).
  { unfold B64.deferScore_local. rewrite (B64_mul_comm (1 - (1 - q)) 0.4).
    reflexivity. }
  unfold B64.analyzeThrowFirstAdvantage.
  rewrite !B64_map_copyInput. fold p q.
  cbn [B64.throwFirstScore B64.deferScore B64.recommendation].
  rewrite Etf, Eds.
  split; [reflexivity |]. split; [reflexivity |].
  split; [reflexivity |]. split; [reflexivity |].
  destruct (0.4 * (1 - (1 - q)) + 0.33 <? 0.6 * p + 0.2) eqn:C.
  - split; [tauto |]. split; [split; discriminate |].
    split.
    + intro T. apply eqb_ltb in T. congruence.
    + reflexivity.
  - split; [split; discriminate |]. split; [tauto |].
    split; [reflexivity |].
    intros P8 Q3. rewrite P8, Q3 in C. vm_compute in C. discriminate C.
Qed.

(** On the example rosters our best opener is at 0.8, theirs at 0.3, and
    the recommendation is throw_first with the scores 0.68 and 0.45. *)
Example dominant_opener_scenario :
  B64.openerProbability
    (B64.getBestOpener [B64_strongOpener] [B64_weakOpener] exampleHistory)
  = 0.8
  /\ B64.openerProbability
       (B64.getBestOpener [B64_weakOpener] [B64_strongOpener] exampleHistory)
     = 0.3
  /\ B64.recommendation
       (B64.analyzeThrowFirstAdvantage [B64_strongOpener] [B64_weakOpener]
          exampleHistory) = throw_first
  /\ B64.throwFirstScore
       (B64.analyzeThrowFirstAdvantage [B64_strongOpener] [B64_weakOpener]
          exampleHistory) = 0.68
  /\ B64.deferScore
       (B64.analyzeThrowFirstAdvantage [B64_strongOpener] [B64_weakOpener]
          exampleHistory) = 0.45.
Proof. repeat split; vm_compute; reflexivity. Qed.

(** The formulas tie at the opener probabilities 0.45 and 0.35 (0.47 on
    both sides), but not the scores that the code computes: throwing
    first gets 0.47000000000000003. *)
Example formulas_tie_scores_differ :
  let throwFirst := B64.throwFirstScore_local 0.45 in
  let deferring := B64.deferScore_local (1 - 0.35) in
  throwFirst = 0.47000000000000003
  /\ deferring = 0.47
  /\ (deferring <? throwFirst) = true
  /\ B64.round2 throwFirst = B64.round2 deferring.
Proof. repeat split; vm_compute; reflexivity. Qed.

(* ================================================================= *)
(** ** Binary64: the best opener is the first of the best *)

Lemma SFcompare_Lt_trans (x y z : spec_float) :
  SFcompare x y = Some Lt -> SFcompare y z = Some Lt ->
  SFcompare x z = Some Lt.
Proof.
  destruct x as [sx | sx | | sx mx ex], y as [sy | sy | | sy my ey],
           z as [sz | sz | | sz mz ez]; cbn;
    try discriminate; try reflexivity;
    try (destruct sx; try discriminate; try reflexivity);
    try (destruct sy; try discriminate; try reflexivity);
    try (destruct sz; try discriminate; try reflexivity);
    try (intros; congruence).
  all: change (Pos.compare_cont Eq) with Pos.compare.
  all: destruct (Z.compare_spec ex ey), (Z.compare_spec ey ez),
         (Z.compare_spec ex ez); try lia; try discriminate; try reflexivity;
       destruct (Pos.compare_spec mx my), (Pos.compare_spec my mz),
         (Pos.compare_spec mx mz); cbn; try lia; try discriminate;
       try reflexivity.
Qed.

Lemma SFcompare_Lt_Eq_trans (x y z : spec_float) :
  SFcompare x y = Some Lt -> SFcompare y z = Some Eq ->
  SFcompare x z = Some Lt.
Proof.
  destruct x as [sx | sx | | sx mx ex], y as [sy | sy | | sy my ey],
           z as [sz | sz | | sz mz ez]; cbn;
    try discriminate; try reflexivity;
    try (destruct sx; try discriminate; try reflexivity);
    try (destruct sy; try discriminate; try reflexivity);
    try (destruct sz; try discriminate; try reflexivity);
    try (intros; congruence).
  all: change (Pos.compare_cont Eq) with Pos.compare.
  all: destruct (Z.compare_spec ex ey), (Z.compare_spec ey ez),
         (Z.compare_spec ex ez); try lia; try discriminate; try reflexivity;
       destruct (Pos.compare_spec mx my), (Pos.compare_spec my mz),
         (Pos.compare_spec mx mz); cbn; try lia; try discriminate;
       try reflexivity.
Qed.

Lemma SFcompare_irrefl (x : spec_float) : SFcompare x x <> Some Lt.
Proof.
  destruct x as [s | s | | s m e]; cbn; try discriminate;
    destruct s; try discriminate;
    rewrite Z.compare_refl; change (Pos.compare_cont Eq m m) with (m ?= m)%positive;
    rewrite Pos.compare_refl; discriminate.
Qed.

Lemma ltb_trans (x y z : float) :
  (x <? y) = true -> (y <? z) = true -> (x <? z) = true.
Proof.
  rewrite !ltb_spec. unfold SFltb.
  destruct (SFcompare (Prim2SF x) (Prim2SF y)) as [[| |] |] eqn:A;
    try discriminate.
  destruct (SFcompare (Prim2SF y) (Prim2SF z)) as [[| |] |] eqn:B;
    try discriminate.
  rewrite (SFcompare_Lt_trans _ _ _ A B). reflexivity.
Qed.

Lemma ltb_leb_trans (x y z : float) :
  (x <? y) = true -> (y <=? z) = true -> (x <? z) = true.
Proof.
  rewrite !ltb_spec, leb_spec. unfold SFltb, SFleb.
  destruct (SFcompare (Prim2SF x) (Prim2SF y)) as [[| |] |] eqn:A;
    try discriminate.
  destruct (SFcompare (Prim2SF y) (Prim2SF z)) as [[| |] |] eqn:B;
    try discriminate; intros _ _.
  - rewrite (SFcompare_Lt_Eq_trans _ _ _ A B). reflexivity.
  - rewrite (SFcompare_Lt_trans _ _ _ A B). reflexivity.
Qed.

Lemma ltb_irrefl (x : float) : (x <? x) = false.
Proof.
  rewrite ltb_spec. unfold SFltb.
  pose proof (SFcompare_irrefl (Prim2SF x)) as H.
  destruct (SFcompare (Prim2SF x) (Prim2SF x)) as [[| |] |];
    congruence.
Qed.

(** What is not reached by a smaller number is not reached by a greater
    one. *)
Lemma not_leb_above (x y z : float) :
  (x <? y) = true -> (x <=? z) = false -> (y <=? z) = false.
Proof.
  intros L N. destruct (y <=? z) eqn:E; [| reflexivity].
  pose proof (ltb_leb _ _ (ltb_leb_trans _ _ _ L E)). congruence.
Qed.

Lemma not_ltb_above (x y z : float) :
  (x <? y) = true -> (x <? z) = false -> (y <=? z) = false.
Proof.
  intros L N. destruct (y <=? z) eqn:E; [| reflexivity].
  pose proof (ltb_leb_trans _ _ _ L E). congruence.
Qed.

Section B64BestOpener.

Variable opponents : list B64.OpponentInput.
Variable headToHeadData : HeadToHeadData.

Local Abbreviation average := (B64.openerAverage opponents headToHeadData).

Lemma B64_openerStep_recommends (best : float)
  (bestPlayer : option B64.MatchupRecommendation.t)
  (p : B64.MatchupInput.t) :
  exists r : B64.MatchupRecommendation.t,
    B64.recommends opponents headToHeadData r p
    /\ B64.openerStep opponents headToHeadData (best, bestPlayer) p
       = if best <? average p then (average p, Some r)
         else (best, bestPlayer).
Proof.
  unfold B64.openerStep. cbv zeta. eexists.
  split; [| reflexivity]. repeat split; reflexivity.
Qed.

Lemma B64_opener_fold (rest : list B64.MatchupInput.t) :
  forall (processed : list B64.MatchupInput.t) (best : float)
         (bestPlayer : option B64.MatchupRecommendation.t),
    (best = 0 /\ bestPlayer = None
     /\ Forall (fun p => (0 <? average p) = false) processed)
    \/ (exists before p after r,
          processed = before ++ p :: after
          /\ best = average p
          /\ bestPlayer = Some r
          /\ B64.recommends opponents headToHeadData r p
          /\ B64.firstBest opponents headToHeadData before p after) ->
    match snd (fold_left (B64.openerStep opponents headToHeadData) rest
                 (best, bestPlayer)) with
    | Some r =>
        exists before p after,
          processed ++ rest = before ++ p :: after
          /\ B64.recommends opponents headToHeadData r p
          /\ B64.firstBest opponents headToHeadData before p after
    | None => Forall (fun p => (0 <? average p) = false) (processed ++ rest)
    end.
Proof.
  induction rest as [| x rest IH]; intros processed best bestPlayer I.
  - cbn [fold_left snd]. rewrite app_nil_r.
    destruct I as [[_ [-> F]] | [before [p [after [r [E [_ [-> [R F]]]]]]]]].
    + exact F.
    + exists before, p, after. tauto.
  - cbn [fold_left].
    replace (processed ++ x :: rest) with ((processed ++ [x]) ++ rest)
      by (rewrite <- app_assoc; reflexivity).
    destruct (B64_openerStep_recommends best bestPlayer x) as [rx [Rx ->]].
    destruct (best <? average x) eqn:G; apply IH.
    + right. exists processed, x, [], rx.
      split; [reflexivity |]. split; [reflexivity |].
      split; [reflexivity |]. split; [exact Rx |].
      unfold B64.firstBest.
      destruct I as [[-> [_ F]] | [before [p [after [r [-> [-> [_ [_ B]]]]]]]]].
      * split; [exact G |]. split; [| constructor].
        eapply Forall_impl; [| exact F]. cbn beta. intros q Hq.
        exact (not_ltb_above _ _ _ G Hq).
      * unfold B64.firstBest in B.
        destruct B as [P [B A]].
        split; [exact (ltb_trans _ _ _ P G) |]. split; [| constructor].
        apply Forall_app. split; [| constructor].
        -- eapply Forall_impl; [| exact B]. cbn beta. intros q Hq.
           exact (not_leb_above _ _ _ G Hq).
        -- exact (not_ltb_above _ _ _ G (ltb_irrefl (average p))).
        -- eapply Forall_impl; [| exact A]. cbn beta. intros q Hq.
           exact (not_ltb_above _ _ _ G Hq).
    + destruct I as [[-> [-> F]] | [before [p [after [r [-> [-> [-> [R B]]]]]]]]].
      * left. split; [reflexivity |]. split; [reflexivity |].
        apply Forall_app. split; [exact F |]. constructor; [exact G |].
        constructor.
      * right. exists before, p, (after ++ [x]), r.
        split; [rewrite <- app_assoc; reflexivity |].
        split; [reflexivity |]. split; [reflexivity |].
        split; [exact R |].
        unfold B64.firstBest in B |- *.
        destruct B as [P [B A]].
        split; [exact P |]. split; [exact B |].
        apply Forall_app. split; [exact A |].
        constructor; [exact G | constructor].
Qed.

End B64BestOpener.

(** X16.  In the arithmetic of the code, the recommendation of
    [getBestOpener] is made of the first of the available players with
    the greatest average probability over the opponents, as the code
    computes and compares the averages: that average is above 0, no
    player before it has an average that reaches it, and no player after
    it has one above it; its probability is that average rounded to two
    decimals and its confidence 0.7.  Without a recommendation one of the
    two lists is empty or no player has an average above 0 (the averages
    are NaN).  Two averages that are equal as exact numbers can differ as
    computed: with [tiedHistory] both Ann and Bob average 0.49, Bob's
    computed average is the greater, and Bob is recommended. *)
Theorem getBestOpener_first_best
  (availablePlayers : list B64.MatchupInput.t)
  (opponents : list B64.OpponentInput) (headToHeadData : HeadToHeadData) :
  match B64.getBestOpener availablePlayers opponents headToHeadData with
  | Some r =>
      exists before p after,
        availablePlayers = before ++ p :: after
        /\ B64.recommends opponents headToHeadData r p
        /\ B64.firstBest opponents headToHeadData before p after
  | None =>
      availablePlayers = [] \/ opponents = []
      \/ Forall
           (fun p => (0 <? B64.openerAverage opponents headToHeadData p)
                     = false)
           availablePlayers
  end
  /\ (let ours := [B64_plain 1 "Ann" 5; B64_plain 2 "Bob" 5] in
      let theirs := [B64_plain 3 "Xia" 5; B64_plain 4 "Yan" 5] in
      B64.openerAverage theirs tiedHistory (B64_plain 1 "Ann" 5) = 0.49
      /\ B64.openerAverage theirs tiedHistory (B64_plain 2 "Bob" 5)
         = 0.49000000000000005
      /\ option_map B64.MatchupRecommendation.playerName
           (B64.getBestOpener ours theirs tiedHistory) = Some "Bob"%string
      /\ option_map MatchupRecommendation.playerName
           (getBestOpener [plain 1 "Ann" 5; plain 2 "Bob" 5]
              [plain 3 "Xia" 5; plain 4 "Yan" 5] tiedHistory)
         = Some "Ann"%string).
Proof.
  split; [| cbv zeta; repeat split; vm_compute; reflexivity].
  unfold B64.getBestOpener.
  destruct (length_of availablePlayers =? 0)%Z eqn:Ep.
  { apply length_of_zero in Ep. left. exact Ep. }
  destruct (length_of opponents =? 0)%Z eqn:Eo.
  { apply length_of_zero in Eo. right. left. exact Eo. }
  cbn [orb].
  pose proof (B64_opener_fold opponents headToHeadData availablePlayers []
                0 None) as F.
  cbn [app] in F.
  destruct (snd (fold_left (B64.openerStep opponents headToHeadData)
                   availablePlayers (0, None))) as [r |].
  - apply F. left. repeat split. constructor.
  - right. right. apply F. left. repeat split. constructor.
Qed.

(* ================================================================= *)
(** ** Binary64: factorials *)

(** The factorial in the integers. *)
Lemma fact_product (k : nat) :
  Z.of_nat (fact k)
  = fold_right Z.mul 1%Z (map Z.of_nat (seq 1 k)).
Proof.
  induction k as [| k IH]; [reflexivity |].
  rewrite seq_S, map_app, fold_right_app. cbn [map fold_right seq].
  change (fact (S k)) with (S k * fact k)%nat.
  rewrite Nat2Z.inj_mul, IH, Z.mul_1_r.
  generalize (map Z.of_nat (seq 1 k)) as l.
  induction l as [| a l IHl]; cbn [fold_right]; [lia |].
  rewrite <- IHl. lia.
Qed.

(** X18.  In the arithmetic of the code, [factorial] returns 1 at 1 or
    less, negative numbers included, and exactly the factorial of its
    argument up to 22; the factorial of 23 is not a binary64 number, and
    the result is not it; the result is finite up to 170 and Infinity at
    171. *)
Theorem factorial_value (n : Z) :
  ((n <= 1)%Z -> B64.factorial n = 1)
  /\ ((n <= 22)%Z ->
      B64.integer (B64.factorial n) = Some (Z.of_nat (fact (Z.to_nat n))))
  /\ B64.integer (B64.factorial 23) <> Some (Z.of_nat (fact 23))
  /\ is_finite (B64.factorial 170) = true
  /\ B64.factorial 171 = infinity.
Proof.
  assert (One : (n <= 1)%Z -> B64.factorial n = 1).
  { intro L. unfold B64.factorial.
    destruct (Z.to_nat n) as [| k] eqn:E; [reflexivity |].
    cbn [B64.factorial_steps].
    replace (n <=? 1)%Z with true by (symmetry; apply Z.leb_le; exact L).
    reflexivity. }
  split; [exact One |]. split.
  - intro L. destruct (Z.le_gt_cases n 1) as [L1 | G1].
    + rewrite (One L1).
      assert (C : Z.to_nat n = 0%nat \/ Z.to_nat n = 1%nat) by lia.
      destruct C as [-> | ->]; reflexivity.
    + assert (C : exists k : nat, (k <= 20)%nat /\ n = Z.of_nat (2 + k)).
      { exists (Z.to_nat (n - 2)). split; lia. }
      destruct C as [k [K ->]]. rewrite Nat2Z.id, fact_product.
      do 21 (destruct k as [| k]; [vm_compute; reflexivity |]). lia.
  - rewrite fact_product. split; [| split]; vm_compute; congruence.
Qed.

(* ================================================================= *)
(** ** Binary64: the sign of a difference *)

Section Rounding.

Local Open Scope Z_scope.

Lemma digits2_pos_bounds (m : positive) :
  2 ^ (Z.pos (digits2_pos m) - 1) <= Z.pos m < 2 ^ Z.pos (digits2_pos m).
Proof.
  induction m as [m IH | m IH |]; cbn [digits2_pos].
  - rewrite Pos2Z.inj_succ.
    replace (Z.succ (Z.pos (digits2_pos m)) - 1)
      with (Z.succ (Z.pos (digits2_pos m) - 1)) by lia.
    rewrite !Z.pow_succ_r by lia. lia.
  - rewrite Pos2Z.inj_succ.
    replace (Z.succ (Z.pos (digits2_pos m)) - 1)
      with (Z.succ (Z.pos (digits2_pos m) - 1)) by lia.
    rewrite !Z.pow_succ_r by lia. lia.
  - cbn. lia.
Qed.

Lemma shr_1_m (mrs : shr_record) :
  0 <= shr_m mrs -> shr_m (shr_1 mrs) = shr_m mrs / 2.
Proof.
  destruct mrs as [m r s]. cbn [shr_m]. intro P.
  destruct m as [| [p | p |] | p]; cbn [shr_1 shr_m];
    try reflexivity; try lia.
  - apply Z.div_unique with 1; lia.
  - apply Z.div_unique with 0; lia.
Qed.

Lemma iter_shr_1_m (p : positive) :
  forall mrs : shr_record,
    0 <= shr_m mrs ->
    shr_m (iter_pos shr_1 p mrs) = shr_m mrs / 2 ^ Z.pos p.
Proof.
  induction p as [p IH | p IH |]; intros mrs P; cbn [iter_pos].
  - assert (P1 : 0 <= shr_m (shr_1 mrs)).
    { rewrite shr_1_m by exact P. apply Z.div_pos; lia. }
    assert (P2 : 0 <= shr_m (iter_pos shr_1 p (shr_1 mrs))).
    { rewrite IH by exact P1. apply Z.div_pos; lia. }
    rewrite IH by exact P2. rewrite IH by exact P1.
    rewrite shr_1_m by exact P.
    rewrite !Z.div_div by lia.
    assert (E : 2 ^ Z.pos p~1 = 2 * (2 ^ Z.pos p * 2 ^ Z.pos p)).
    { rewrite <- Z.pow_add_r, <- Z.pow_succ_r by lia. f_equal. lia. }
    rewrite E. reflexivity.
  - assert (P2 : 0 <= shr_m (iter_pos shr_1 p mrs)).
    { rewrite IH by exact P. apply Z.div_pos; lia. }
    rewrite IH by exact P2. rewrite IH by exact P.
    rewrite !Z.div_div by lia.
    assert (E : 2 ^ Z.pos p~0 = 2 ^ Z.pos p * 2 ^ Z.pos p).
    { rewrite <- Z.pow_add_r by lia. f_equal. lia. }
    rewrite E. reflexivity.
  - rewrite shr_1_m by exact P. reflexivity.
Qed.

Lemma shr_record_of_loc_m (m : Z) (l : location) :
  shr_m (shr_record_of_loc m l) = m.
Proof. destruct l as [| []]; reflexivity. Qed.

Lemma shr_fexp_pos (m : positive) (e : Z) (l : location) :
  -1074 <= e ->
  0 < shr_m (fst (shr_fexp prec emax (Z.pos m) e l))
  /\ -1074 <= snd (shr_fexp prec emax (Z.pos m) e l).
Proof.
  intro E. unfold shr_fexp, shr. cbn [Zdigits2].
  pose proof (digits2_pos_bounds m) as [L _].
  set (d := Z.pos (digits2_pos m)) in *.
  assert (F : fexp prec emax (d + e) = Z.max (d + e - 53) (-1074))
    by reflexivity.
  destruct (fexp prec emax (d + e) - e) as [| p | p] eqn:N;
    cbn [fst snd]; rewrite ?shr_record_of_loc_m; try lia.
  rewrite iter_shr_1_m by (rewrite shr_record_of_loc_m; lia).
  rewrite shr_record_of_loc_m. split; [| lia].
  apply Z.div_str_pos. split; [lia |].
  apply Z.le_trans with (2 ^ (d - 1)); [| exact L].
  apply Z.pow_le_mono_r; lia.
Qed.

Lemma round_nearest_even_pos (m : Z) (l : location) :
  0 < m -> 0 < round_nearest_even m l.
Proof.
  intro P. destruct l as [| []]; cbn [round_nearest_even]; try lia.
  destruct (Z.even m); lia.
Qed.

(** Rounding a positive mantissa with an exponent that is not below the
    smallest gives a number of the same sign, finite or infinite, never
    zero. *)
Lemma binary_round_aux_signed (s : bool) (m : positive) (e : Z)
  (l : location) :
  -1074 <= e -> B64.signed s (binary_round_aux prec emax s (Z.pos m) e l).
Proof.
  intro E. unfold binary_round_aux.
  destruct (shr_fexp_pos m e l E) as [P1 E1].
  destruct (shr_fexp prec emax (Z.pos m) e l) as [mrs' e'].
  cbn [fst snd] in P1, E1.
  pose proof (round_nearest_even_pos (shr_m mrs') (loc_of_shr_record mrs') P1)
    as P2.
  destruct (round_nearest_even (shr_m mrs') (loc_of_shr_record mrs'))
    as [| m2 | m2]; try lia.
  destruct (shr_fexp_pos m2 e' loc_Exact E1) as [P3 _].
  destruct (shr_fexp prec emax (Z.pos m2) e' loc_Exact) as [mrs'' e''].
  cbn [fst] in P3.
  destruct (shr_m mrs'') as [| m3 | m3]; try lia.
  destruct (e'' <=? emax - prec); reflexivity.
Qed.

Lemma binary_round_signed (s : bool) (m : positive) (e : Z) :
  -1074 <= e -> B64.signed s (binary_round prec emax s m e).
Proof.
  intro E. unfold binary_round, shl_align.
  assert (F : -1074 <= fexp prec emax (Z.pos (digits2_pos m) + e)).
  { change (fexp prec emax (Z.pos (digits2_pos m) + e))
      with (Z.max (Z.pos (digits2_pos m) + e - 53) (-1074)). lia. }
  destruct (fexp prec emax (Z.pos (digits2_pos m) + e) - e);
    apply binary_round_aux_signed; assumption.
Qed.

Lemma binary_normalize_sign (m e : Z) :
  -1074 <= e ->
  SFltb (S754_zero false) (binary_normalize prec emax m e false)
  = (0 <? m).
Proof.
  intro E. destruct m as [| m | m]; cbn [binary_normalize]; [reflexivity | |].
  - pose proof (binary_round_signed false m e E) as S.
    destruct (binary_round prec emax false m e) as [? | s' | | s' ? ?];
      cbn in S; try contradiction; subst; reflexivity.
  - pose proof (binary_round_signed true m e E) as S.
    destruct (binary_round prec emax true m e) as [? | s' | | s' ? ?];
      cbn in S; try contradiction; subst; reflexivity.
Qed.

Lemma iter_xO (d m : positive) :
  Z.pos (Pos.iter xO m d) = Z.pos m * 2 ^ Z.pos d.
Proof.
  induction d as [| d IH] using Pos.peano_ind.
  - cbn. lia.
  - rewrite Pos.iter_succ, Pos2Z.inj_succ, Z.pow_succ_r by lia.
    rewrite Pos2Z.inj_xO, IH. lia.
Qed.

Lemma shl_align_fst (m : positive) (e e' : Z) :
  e' <= e -> Z.pos (fst (shl_align m e e')) = Z.pos m * 2 ^ (e - e').
Proof.
  intro L. unfold shl_align.
  destruct (e' - e) as [| d | d] eqn:D; cbn [fst]; try lia.
  - replace (e - e') with 0 by lia. lia.
  - rewrite iter_xO. f_equal. f_equal. lia.
Qed.

(** What a valid finite number has: an exponent from the smallest on, a
    mantissa below 2^53, and one from 2^52 on above the smallest
    exponent. *)
Lemma bounded_canonical (m : positive) (e : Z) :
  bounded prec emax m e = true ->
  -1074 <= e /\ Z.pos m < 2 ^ 53 /\ (-1074 < e -> 2 ^ 52 <= Z.pos m).
Proof.
  unfold bounded, canonical_mantissa. intro B.
  apply andb_prop in B. destruct B as [C _]. apply Z.eqb_eq in C.
  change (fexp prec emax (Z.pos (digits2_pos m) + e))
    with (Z.max (Z.pos (digits2_pos m) + e - 53) (-1074)) in C.
  pose proof (digits2_pos_bounds m) as [L U].
  set (d := Z.pos (digits2_pos m)) in *.
  split; [lia |]. split.
  - apply Z.lt_le_trans with (2 ^ d); [exact U |].
    apply Z.pow_le_mono_r; lia.
  - intro G. replace 52 with (d - 1) by lia. exact L.
Qed.

Lemma compare_aligned (mx my : positive) (ex ey : Z) :
  bounded prec emax mx ex = true -> bounded prec emax my ey = true ->
  match (ex ?= ey) with
  | Lt => Lt
  | Gt => Gt
  | Eq => PosDef.Pos.compare_cont Eq mx my
  end
  = (Z.pos mx * 2 ^ (ex - Z.min ex ey) ?= Z.pos my * 2 ^ (ey - Z.min ex ey)).
Proof.
  intros Bx By.
  destruct (bounded_canonical mx ex Bx) as [Ex [Ux Lx]].
  destruct (bounded_canonical my ey By) as [Ey [Uy Ly]].
  change (PosDef.Pos.compare_cont Eq mx my) with (Z.pos mx ?= Z.pos my).
  destruct (Z.compare_spec ex ey) as [E | L | G].
  - subst. rewrite Z.min_id, Z.sub_diag. cbn [Z.pow]. rewrite !Z.mul_1_r.
    reflexivity.
  - rewrite Z.min_l by lia. rewrite Z.sub_diag. cbn [Z.pow].
    rewrite Z.mul_1_r. symmetry. apply Z.compare_lt_iff.
    assert (2 ^ 1 <= 2 ^ (ey - ex)) by (apply Z.pow_le_mono_r; lia).
    change (2 ^ 1) with 2 in *. specialize (Ly ltac:(lia)).
    change (2 ^ 53) with (2 * 2 ^ 52) in Ux. nia.
  - rewrite Z.min_r by lia. rewrite Z.sub_diag. cbn [Z.pow].
    rewrite Z.mul_1_r. symmetry. apply Z.compare_gt_iff.
    assert (2 ^ 1 <= 2 ^ (ex - ey)) by (apply Z.pow_le_mono_r; lia).
    change (2 ^ 1) with 2 in *. specialize (Lx ltac:(lia)).
    change (2 ^ 53) with (2 * 2 ^ 52) in Uy. nia.
Qed.

(** The sign of a difference: [x - y] is above zero exactly when [y] is
    below [x], for two numbers of which neither is NaN. *)
Lemma SFsub_sign (x y : spec_float) :
  valid_binary x = true -> valid_binary y = true ->
  x <> S754_nan -> y <> S754_nan ->
  SFltb (S754_zero false) (SFsub prec emax x y) = SFltb y x.
Proof.
  intros Vx Vy Nx Ny.
  destruct x as [sx | sx | | sx mx ex], y as [sy | sy | | sy my ey];
    try congruence; clear Nx Ny;
    try (destruct sx, sy; reflexivity);
    try (destruct sx; reflexivity); try (destruct sy; reflexivity).
  cbn [valid_binary] in Vx, Vy. cbn [SFsub].
  destruct (bounded_canonical mx ex Vx) as [Ex _].
  destruct (bounded_canonical my ey Vy) as [Ey _].
  rewrite binary_normalize_sign by lia.
  rewrite !shl_align_fst by lia.
  unfold SFltb. cbn [SFcompare].
  pose proof (compare_aligned my mx ey ex Vy Vx) as C.
  rewrite (Z.min_comm ey ex) in C.
  set (X := Z.pos mx * 2 ^ (ex - Z.min ex ey)) in *.
  set (Y := Z.pos my * 2 ^ (ey - Z.min ex ey)) in *.
  assert (PX : 0 < X) by (unfold X; apply Z.mul_pos_pos; [lia | apply Z.pow_pos_nonneg; lia]).
  assert (PY : 0 < Y) by (unfold Y; apply Z.mul_pos_pos; [lia | apply Z.pow_pos_nonneg; lia]).
  symmetry in C.
  destruct sx, sy; cbn [cond_Zopp];
    try (apply Z.ltb_ge; lia); try (apply Z.ltb_lt; lia);
    (destruct (ey ?= ex);
     [destruct (PosDef.Pos.compare_cont Eq my mx) | |]);
    cbn [CompOpp];
    first [ apply Z.compare_eq_iff in C
          | change (Y < X) in C
          | change (Y > X) in C ];
    first [ apply Z.ltb_ge; lia | apply Z.ltb_lt; lia ].
Qed.

End Rounding.

Lemma is_nan_spec (x : float) :
  is_nan x = false <-> Prim2SF x <> S754_nan.
Proof.
  unfold is_nan. rewrite negb_false_iff, eqb_spec. unfold SFeqb.
  destruct (Prim2SF x) as [s | s | | s m e]; cbn.
  - split; [discriminate | reflexivity].
  - destruct s; (split; [discriminate | reflexivity]).
  - split; [discriminate | congruence].
  - destruct s; rewrite Z.compare_refl;
      change (PosDef.Pos.compare_cont Eq m m) with (m ?= m)%positive;
      rewrite Pos.compare_refl; (split; [discriminate | reflexivity]).
Qed.

(** [b - a] is above zero exactly when [a] is below [b], for two numbers
    of which neither is NaN. *)
Lemma sub_sign (a b : float) :
  is_nan a = false -> is_nan b = false -> (0 <? b - a) = (a <? b).
Proof.
  intros Na Nb. rewrite !ltb_spec, sub_spec.
  change (Prim2SF 0) with (S754_zero false).
  apply SFsub_sign; try apply Prim2SF_valid; apply is_nan_spec; assumption.
Qed.

Lemma SFcompare_swap (x y : spec_float) :
  SFcompare y x = option_map CompOpp (SFcompare x y).
Proof.
  destruct x as [sx | sx | | sx mx ex], y as [sy | sy | | sy my ey];
    cbn; try reflexivity;
    try (destruct sx, sy; reflexivity);
    try (destruct sx; reflexivity); try (destruct sy; reflexivity).
  change (PosDef.Pos.compare_cont Eq my mx) with (my ?= mx)%positive.
  change (PosDef.Pos.compare_cont Eq mx my) with (mx ?= my)%positive.
  rewrite (Z.compare_antisym ex ey), (Pos.compare_antisym mx my).
  destruct sx, sy; try reflexivity;
    destruct (ex ?= ey)%Z; cbn; try reflexivity;
    destruct (mx ?= my)%positive; reflexivity.
Qed.

(** Of two numbers of which neither is NaN, one is not below the
    other. *)
Lemma not_ltb_leb (x y : float) :
  is_nan x = false -> is_nan y = false ->
  (x <? y) = false -> (y <=? x) = true.
Proof.
  intros Nx Ny. rewrite ltb_spec, leb_spec. unfold SFltb, SFleb.
  rewrite (SFcompare_swap (Prim2SF x) (Prim2SF y)).
  apply is_nan_spec in Nx. apply is_nan_spec in Ny.
  destruct (Prim2SF x) as [sx | sx | | sx mx ex],
           (Prim2SF y) as [sy | sy | | sy my ey]; try congruence;
    destruct (SFcompare _ _) as [[| |] |] eqn:E; cbn;
    try reflexivity; try discriminate;
    cbn in E; try discriminate;
    try (destruct sx; discriminate); try (destruct sy; discriminate);
    try (destruct sx, sy; discriminate).
Qed.

(* ================================================================= *)
(** ** Binary64: ranking by descending win probability *)

Lemma SFcompare_Eq_Lt_trans (x y z : spec_float) :
  SFcompare x y = Some Eq -> SFcompare y z = Some Lt ->
  SFcompare x z = Some Lt.
Proof.
  destruct x as [sx | sx | | sx mx ex], y as [sy | sy | | sy my ey],
           z as [sz | sz | | sz mz ez]; cbn;
    try discriminate; try reflexivity;
    try (destruct sx; try discriminate; try reflexivity);
    try (destruct sy; try discriminate; try reflexivity);
    try (destruct sz; try discriminate; try reflexivity);
    try (intros; congruence).
  all: change (Pos.compare_cont Eq) with Pos.compare.
  all: destruct (Z.compare_spec ex ey), (Z.compare_spec ey ez),
         (Z.compare_spec ex ez); try lia; try discriminate; try reflexivity;
       destruct (Pos.compare_spec mx my), (Pos.compare_spec my mz),
         (Pos.compare_spec mx mz); cbn; try lia; try discriminate;
       try reflexivity.
Qed.

Lemma SFcompare_Eq_trans (x y z : spec_float) :
  SFcompare x y = Some Eq -> SFcompare y z = Some Eq ->
  SFcompare x z = Some Eq.
Proof.
  destruct x as [sx | sx | | sx mx ex], y as [sy | sy | | sy my ey],
           z as [sz | sz | | sz mz ez]; cbn;
    try discriminate; try reflexivity;
    try (destruct sx; try discriminate; try reflexivity);
    try (destruct sy; try discriminate; try reflexivity);
    try (destruct sz; try discriminate; try reflexivity);
    try (intros; congruence).
  all: change (Pos.compare_cont Eq) with Pos.compare.
  all: destruct (Z.compare_spec ex ey), (Z.compare_spec ey ez),
         (Z.compare_spec ex ez); try lia; try discriminate; try reflexivity;
       destruct (Pos.compare_spec mx my), (Pos.compare_spec my mz),
         (Pos.compare_spec mx mz); cbn; try lia; try discriminate;
       try reflexivity.
Qed.

Lemma leb_trans (x y z : float) :
  (x <=? y) = true -> (y <=? z) = true -> (x <=? z) = true.
Proof.
  rewrite !leb_spec. unfold SFleb.
  destruct (SFcompare (Prim2SF x) (Prim2SF y)) as [[| |] |] eqn:A;
    try discriminate;
    destruct (SFcompare (Prim2SF y) (Prim2SF z)) as [[| |] |] eqn:B;
    try discriminate; intros _ _.
  - rewrite (SFcompare_Eq_trans _ _ _ A B). reflexivity.
  - rewrite (SFcompare_Eq_Lt_trans _ _ _ A B). reflexivity.
  - rewrite (SFcompare_Lt_Eq_trans _ _ _ A B). reflexivity.
  - rewrite (SFcompare_Lt_trans _ _ _ A B). reflexivity.
Qed.

Lemma ltb_eqb_trans (x y z : float) :
  (x <? y) = true -> (y =? z) = true -> (x <? z) = true.
Proof.
  intros L E. exact (ltb_leb_trans _ _ _ L (eqb_leb _ _ E)).
Qed.

(** The comparator puts [x] after [y] exactly when the probability of
    [x] is below that of [y], when both are numbers. *)
Lemma B64_sorts_after_desc (x y : B64.MatchupRecommendation.t) :
  B64.numbered x -> B64.numbered y ->
  B64.sorts_after x y
  = (B64.MatchupRecommendation.winProbability x
     <? B64.MatchupRecommendation.winProbability y).
Proof.
  intros Nx Ny. unfold B64.sorts_after, B64.byWinProbabilityDesc.
  apply sub_sign; assumption.
Qed.

Lemma B64_sort_insert_In (x z : B64.MatchupRecommendation.t)
  (l : list B64.MatchupRecommendation.t) :
  In z (B64.sort_insert x l) -> z = x \/ In z l.
Proof.
  induction l as [| y l IH]; simpl.
  - intros [E | []]. left. symmetry. exact E.
  - destruct (B64.sorts_after x y); simpl.
    + intros [E | H]; [right; left; exact E |].
      destruct (IH H) as [E | H']; [left; exact E | right; right; exact H'].
    + intros [E | H]; [left; symmetry; exact E | right; exact H].
Qed.

Lemma B64_sort_insert_Permutation (x : B64.MatchupRecommendation.t)
  (l : list B64.MatchupRecommendation.t) :
  Permutation (B64.sort_insert x l) (x :: l).
Proof.
  induction l as [| y l IH]; simpl.
  - apply Permutation_refl.
  - destruct (B64.sorts_after x y).
    + apply Permutation_trans with (y :: x :: l).
      * apply perm_skip. exact IH.
      * apply perm_swap.
    + apply Permutation_refl.
Qed.

(** The sort returns the recommendations it is given, whatever their
    probabilities. *)
Lemma B64_Array_sort_Permutation (l : list B64.MatchupRecommendation.t) :
  Permutation (B64.Array_sort l) l.
Proof.
  induction l as [| x l IH]; simpl.
  - apply perm_nil.
  - apply Permutation_trans with (x :: B64.Array_sort l).
    + apply B64_sort_insert_Permutation.
    + apply perm_skip. exact IH.
Qed.

Lemma B64_notBelow_trans (a b c : B64.MatchupRecommendation.t) :
  B64.notBelow a b -> B64.notBelow b c -> B64.notBelow a c.
Proof.
  unfold B64.notBelow. intros AB BC. exact (leb_trans _ _ _ BC AB).
Qed.

Lemma B64_sort_insert_sorted (x : B64.MatchupRecommendation.t)
  (l : list B64.MatchupRecommendation.t) :
  B64.numbered x -> Forall B64.numbered l ->
  StronglySorted B64.notBelow l ->
  StronglySorted B64.notBelow (B64.sort_insert x l).
Proof.
  intros Nx F S.
  induction S as [| y l S IH B]; simpl.
  - constructor; [constructor | constructor].
  - inversion F as [| ? ? Ny Fl]; subst.
    rewrite (B64_sorts_after_desc x y Nx Ny).
    destruct (B64.MatchupRecommendation.winProbability x
              <? B64.MatchupRecommendation.winProbability y) eqn:E.
    + constructor; [apply IH; exact Fl |].
      apply Forall_forall. intros z Hz.
      destruct (B64_sort_insert_In _ _ _ Hz) as [-> | Hl].
      * unfold B64.notBelow. apply ltb_leb. exact E.
      * rewrite Forall_forall in B. apply B, Hl.
    + assert (Bxy : B64.notBelow x y).
      { unfold B64.notBelow. apply not_ltb_leb; assumption. }
      constructor; [constructor; assumption |].
      constructor; [exact Bxy |].
      apply Forall_forall. intros z Hz.
      rewrite Forall_forall in B.
      apply B64_notBelow_trans with y; [exact Bxy | apply B, Hz].
Qed.

Lemma B64_Array_sort_numbered (l : list B64.MatchupRecommendation.t) :
  Forall B64.numbered l -> Forall B64.numbered (B64.Array_sort l).
Proof.
  intro F. rewrite Forall_forall in *. intros z Hz. apply F.
  apply Permutation_in with (B64.Array_sort l);
    [apply B64_Array_sort_Permutation | exact Hz].
Qed.

Lemma B64_Array_sort_sorted (l : list B64.MatchupRecommendation.t) :
  Forall B64.numbered l -> StronglySorted B64.notBelow (B64.Array_sort l).
Proof.
  induction l as [| x l IH]; intro F; simpl.
  - constructor.
  - inversion F as [| ? ? Fx Fl]; subst.
    apply B64_sort_insert_sorted;
      [exact Fx | apply B64_Array_sort_numbered; exact Fl | apply IH; exact Fl].
Qed.

(** Two recommendations that the sort exchanges differ in probability, so
    the recommendations of any one probability keep their order. *)
Lemma B64_sort_insert_stable (q : float) (x : B64.MatchupRecommendation.t)
  (l : list B64.MatchupRecommendation.t) :
  B64.numbered x -> Forall B64.numbered l ->
  filter (B64.hasProbability q) (B64.sort_insert x l)
  = filter (B64.hasProbability q) (x :: l).
Proof.
  intros Nx F.
  induction F as [| y l Ny Fl IH]; [reflexivity |].
  cbn [B64.sort_insert].
  rewrite (B64_sorts_after_desc x y Nx Ny).
  destruct (B64.MatchupRecommendation.winProbability x
            <? B64.MatchupRecommendation.winProbability y) eqn:E;
    [| reflexivity].
  cbn [filter]. rewrite IH. cbn [filter].
  unfold B64.hasProbability.
  destruct (B64.MatchupRecommendation.winProbability x =? q) eqn:Xq,
           (B64.MatchupRecommendation.winProbability y =? q) eqn:Yq;
    try reflexivity.
  pose proof (ltb_eqb_trans _ _ _ E Yq) as L.
  rewrite (eqb_ltb _ _ Xq) in L. discriminate L.
Qed.

Lemma B64_Array_sort_stable (q : float)
  (l : list B64.MatchupRecommendation.t) :
  Forall B64.numbered l ->
  filter (B64.hasProbability q) (B64.Array_sort l)
  = filter (B64.hasProbability q) l.
Proof.
  induction l as [| x l IH]; intro F; [reflexivity |].
  inversion F as [| ? ? Fx Fl]; subst.
  cbn [B64.Array_sort fold_right].
  change (fold_right B64.sort_insert [] l) with (B64.Array_sort l).
  rewrite B64_sort_insert_stable;
    [| exact Fx | apply B64_Array_sort_numbered, Fl].
  cbn [filter]. rewrite (IH Fl). reflexivity.
Qed.

(** C6, as the code has it.  In the arithmetic of the code, whenever
    the win probability of every available player against the opponent
    is a number (not NaN), the list that [getMatchupRecommendations]
    returns holds the recommendations of the available players in
    descending order of [winProbability], and the recommendations of any
    one [winProbability] come in the order of their players in the input
    list. *)
Theorem getMatchupRecommendations_sorted_stable
  (availablePlayers : list B64.MatchupInput.t)
  (opponent : B64.OpponentInput)
  (headToHeadData : HeadToHeadData) (gameNumber ourScore theirScore : Z) :
  Forall
    (fun p =>
       is_nan
         (B64.MatchupRecommendation.winProbability
            (B64.matchupRecommendation opponent headToHeadData p)) = false)
    availablePlayers ->
  let ranked :=
    B64.getMatchupRecommendations availablePlayers opponent headToHeadData
      gameNumber ourScore theirScore in
  let inInputOrder :=
    map (B64.matchupRecommendation opponent headToHeadData)
      availablePlayers in
  StronglySorted
    (fun a b =>
       (B64.MatchupRecommendation.winProbability b
        <=? B64.MatchupRecommendation.winProbability a) = true)
    ranked
  /\ Permutation ranked inInputOrder
  /\ forall q : float,
      filter (fun r => B64.MatchupRecommendation.winProbability r =? q)
        ranked
      = filter (fun r => B64.MatchupRecommendation.winProbability r =? q)
          inInputOrder.
Proof.
  intros N ranked inInputOrder. subst ranked inInputOrder.
  unfold B64.getMatchupRecommendations.
  assert (F : Forall B64.numbered
                (map (B64.matchupRecommendation opponent headToHeadData)
                   availablePlayers)).
  { apply Forall_forall. intros r Hr. apply in_map_iff in Hr.
    destruct Hr as [p [<- Hp]]. rewrite Forall_forall in N.
    exact (N p Hp). }
  split; [exact (B64_Array_sort_sorted _ F) |].
  split; [apply B64_Array_sort_Permutation |].
  intro q. exact (B64_Array_sort_stable q _ F).
Qed.

(** C6 at three players, of whom the second and the third have the same
    win probability. *)
Lemma getMatchupRecommendations_sorted_stable_witness :
  let availablePlayers :=
    [B64_plain 1 "Ann" 4; B64_plain 2 "Bob" 6; B64_plain 3 "Carl" 6] in
  let ranked :=
    B64.getMatchupRecommendations availablePlayers (B64_plain 9 "Zed" 5)
      exampleHistory 1 0 0 in
  let inInputOrder :=
    map (B64.matchupRecommendation (B64_plain 9 "Zed" 5) exampleHistory)
      availablePlayers in
  StronglySorted
    (fun a b =>
       (B64.MatchupRecommendation.winProbability b
        <=? B64.MatchupRecommendation.winProbability a) = true)
    ranked
  /\ Permutation ranked inInputOrder
  /\ forall q : float,
      filter (fun r => B64.MatchupRecommendation.winProbability r =? q)
        ranked
      = filter (fun r => B64.MatchupRecommendation.winProbability r =? q)
          inInputOrder.
Proof.
  apply (getMatchupRecommendations_sorted_stable
           [B64_plain 1 "Ann" 4; B64_plain 2 "Bob" 6; B64_plain 3 "Carl" 6]
           (B64_plain 9 "Zed" 5) exampleHistory 1 0 0).
  repeat constructor.
Defined.

(** C6, counterexample.  Ann has recent win percentages whose sum
    overflows, and so has the opponent: her win probability is NaN next
    to Carl's 0.5.  The comparator returns NaN for the two, the list
    stays as it is, and it is not in descending order, wherever the two
    stand: NaN is not greater than or equal to 0.5, nor 0.5 to NaN. *)
Lemma getMatchupRecommendations_NaN_unsorted :
  let ranked :=
    B64.getMatchupRecommendations [hot 1 "Ann"; B64_plain 3 "Carl" 5]
      (hot 2 "Bob") [] 1 0 0 in
  map B64.MatchupRecommendation.winProbability ranked = [nan; 0.5]
  /\ map B64.MatchupRecommendation.playerName ranked
     = ["Ann"%string; "Carl"%string]
  /\ (0.5 <=? nan) = false /\ (nan <=? 0.5) = false
  /\ is_nan
       (B64.byWinProbabilityDesc
          (B64.matchupRecommendation (hot 2 "Bob") [] (hot 1 "Ann"))
          (B64.matchupRecommendation (hot 2 "Bob") []
             (B64_plain 3 "Carl" 5))) = true.
Proof. cbv zeta. repeat split; vm_compute; reflexivity. Qed.
